(** * Spike detection over a GDELT knowledge graph: [graphml_to_spikes.py]

    A shallow embedding of the classification, aggregation and spike
    detection code of [graphml_to_spikes.py], and the properties of it
    that its specification states.

    Conventions of the embedding.

    - A Python [str] is a [string]; a character of the model is a code
      point in U+0000..U+00FF, carried by [ascii] (so the letters and
      digits of ASCII are the usual ones, and the upper half is Latin-1).
      [str.upper], [str.strip], [str.isdigit] and [int] follow Python on
      these code points.  Text with code points above U+00FF is outside
      the model.
    - An exception is a value: code that can raise returns a [result].
    - A calendar date is its proleptic Gregorian ordinal
      ([date.toordinal()]), a [Z] from 1 (0001-01-01) to 3652059
      (9999-12-31); [timedelta(days=n)] and [date - timedelta] raise
      OverflowError as in Python.  The narrower range of pandas
      timestamps is not modelled: the dates of a frame are taken to be
      dates that [pd.to_datetime] converts.
    - A pandas frame is the list of its rows.  A column of [int64] holds
      integers ([Z]) and its sums wrap around at 64 bits.  A column of
      [float64] holds rationals ([Q], kept in lowest terms by [Qred]); the
      only place the code can leave the finite floats is the division
      that defines [delta_percent], whose result is an [F64].  Rounding of
      [float64] is not modelled.
    - [DataFrame.sort_values] is taken by its contract ([Sorter]): the
      default [kind] is quicksort, which promises nothing about rows with
      equal keys.  What pandas and numpy do on a frame of at most four rows
      is spelled out in [nargsort]. *)

From Stdlib Require Import List Bool Arith ZArith QArith Qabs Qreduction Lia Lqa.
From Stdlib Require Import Ascii String Permutation Sorted.
Import ListNotations.

Local Open Scope string_scope.
Local Open Scope Z_scope.

(** ** Exceptions *)

Inductive exn : Type :=
| ValueError
| RuntimeError
| OverflowError.

Inductive result (A : Type) : Type :=
| Ok (a : A)
| Raise (e : exn).

Arguments Ok {A} a.
Arguments Raise {A} e.

Definition bind {A B : Type} (m : result A) (k : A -> result B) : result B :=
  match m with
  | Ok a => k a
  | Raise e => Raise e
  end.

Notation "x <- m ;; k" := (bind m (fun x => k))
  (at level 61, m at next level, right associativity).

(** ** Python strings *)

Module PyStr.

Definition code (c : ascii) : N := N_of_ascii c.

Definition between (lo hi : N) (c : ascii) : bool :=
  ((lo <=? code c) && (code c <=? hi))%N.

(** [str.isdecimal] on one character: the ten ASCII digits. *)
Definition isdecimal_char (c : ascii) : bool := between 48 57 c.

(** [str.isdigit] on one character: the decimal digits and the
    superscripts two, three and one (U+00B2, U+00B3, U+00B9). *)
Definition isdigit_char (c : ascii) : bool :=
  isdecimal_char c
  || (code c =? 178)%N || (code c =? 179)%N || (code c =? 185)%N.

(** [str.isspace] on one character. *)
Definition isspace_char (c : ascii) : bool :=
  between 9 13 c || between 28 32 c
  || (code c =? 133)%N || (code c =? 160)%N.

Fixpoint all_chars (p : ascii -> bool) (s : string) : bool :=
  match s with
  | EmptyString => true
  | String c s' => p c && all_chars p s'
  end.

(** [s.isdigit()]: every character is a digit and there is at least
    one. *)
Definition isdigit (s : string) : bool :=
  match s with
  | EmptyString => false
  | _ => all_chars isdigit_char s
  end.

(** [s[:2]] *)
Definition take2 (s : string) : string :=
  match s with
  | String a (String b _) => String a (String b EmptyString)
  | _ => s
  end.

Fixpoint lstrip (s : string) : string :=
  match s with
  | String c s' => if isspace_char c then lstrip s' else s
  | EmptyString => EmptyString
  end.

Fixpoint rstrip (s : string) : string :=
  match s with
  | EmptyString => EmptyString
  | String c s' =>
      match rstrip s' with
      | EmptyString => if isspace_char c then EmptyString
                       else String c EmptyString
      | r => String c r
      end
  end.

(** [s.strip()] *)
Definition strip (s : string) : string := rstrip (lstrip s).

Fixpoint digits_value (acc : Z) (s : string) : option Z :=
  match s with
  | EmptyString => Some acc
  | String c s' =>
      if isdecimal_char c
      then digits_value (10 * acc + (Z.of_N (code c) - 48)) s'
      else None
  end.

(** [int(s)] for an [s] without sign, blanks or underscores, which is
    all the code passes to it: the value of a non-empty run of decimal
    digits, [ValueError] otherwise. *)
Definition int (s : string) : result Z :=
  match s with
  | EmptyString => Raise ValueError
  | _ => match digits_value 0 s with
         | Some n => Ok n
         | None => Raise ValueError
         end
  end.

(** [c.upper()] for one character.  The sharp s becomes two letters.
    The upper-case forms of the micro sign (U+00B5) and of y with
    diaeresis (U+00FF) lie above U+00FF; they are left in place, which
    no substring test against ASCII keywords can tell apart. *)
Definition upper_char (c : ascii) : string :=
  if between 97 122 c then String (ascii_of_N (code c - 32)) EmptyString
  else if (code c =? 223)%N then "SS"
  else if between 224 254 c && negb (code c =? 247)%N
       then String (ascii_of_N (code c - 32)) EmptyString
  else String c EmptyString.

(** [s.upper()] *)
Fixpoint upper (s : string) : string :=
  match s with
  | EmptyString => EmptyString
  | String c s' => upper_char c ++ upper s'
  end.

(** [s in t] *)
Fixpoint contains (s t : string) : bool :=
  prefix s t
  || match t with
     | EmptyString => false
     | String _ t' => contains s t'
     end.

End PyStr.

(** ** Risk categories *)

Definition RISK_MILITARY : string := "MILITARY".
Definition RISK_CIVIL_UNREST : string := "CIVIL_UNREST".
Definition RISK_POLITICAL : string := "POLITICAL".
Definition RISK_ECONOMIC : string := "ECONOMIC".
Definition RISK_NATURAL_DISASTER : string := "NATURAL_DISASTER".
Definition RISK_OTHER : string := "OTHER".

Definition risk_categories : list string :=
  [RISK_MILITARY; RISK_CIVIL_UNREST; RISK_POLITICAL; RISK_ECONOMIC;
   RISK_NATURAL_DISASTER; RISK_OTHER].

(** ** Classification *)

Definition mem_Z (x : Z) (l : list Z) : bool := existsb (Z.eqb x) l.

(** [_classify_by_cameo]: [None] is Python's [None]; [int] may raise. *)
Definition _classify_by_cameo (cameo : string) : result (option string) :=
  match cameo with
  | EmptyString => Ok None
  | _ =>
      let cameo := PyStr.strip cameo in
      let root_str := PyStr.take2 cameo in
      if negb (PyStr.isdigit root_str) then Ok None
      else
        root <- PyStr.int root_str ;;
        if mem_Z root [18; 19; 20; 15; 17] then Ok (Some RISK_MILITARY)
        else if root =? 14 then Ok (Some RISK_CIVIL_UNREST)
        else if mem_Z root [10; 11; 12; 13; 16] then Ok (Some RISK_POLITICAL)
        else if mem_Z root [6; 7] then Ok (Some RISK_ECONOMIC)
        else Ok None
  end.

(** [contains_any], the closure of [_classify_by_theme_labels], with the
    upper-cased labels [up] it captures made a parameter. *)
Definition contains_any (up : list string) (substrings : list string) : bool :=
  existsb (fun t => existsb (fun s => PyStr.contains s t) substrings) up.

Definition kw_natural_disaster : list string :=
  ["NATURAL_DISASTER"; "EARTHQUAKE"; "FLOOD"; "TYPHOON"; "HURRICANE";
   "TSUNAMI"; "WILDFIRE"; "LANDSLIDE"].
Definition kw_military : list string :=
  ["MILITARY"; "ARMEDCONFLICT"; "WAR"; "INVASION"; "MISSILE"; "AIRSTRIKE";
   "BOMBARD"].
Definition kw_protest : list string :=
  ["PROTEST"; "DEMONSTRATION"; "STRIKE"; "RIOT"; "MOBILIZATION"].
Definition kw_terror : list string :=
  ["TERROR"; "TERRORISM"; "BOMBING"; "INSURGENCY"].
Definition kw_political : list string :=
  ["ELECTION"; "GOVERNMENT"; "COUP"; "REGIME"; "PARLIAMENT"; "SANCTION"].
Definition kw_economic : list string :=
  ["ECONOMY"; "TRADE"; "SANCTION"; "TARIFF"; "EXPORT"; "IMPORT"].

Definition _classify_by_theme_labels (theme_labels : list string)
  : option string :=
  match theme_labels with
  | [] => None
  | _ =>
      let up := map PyStr.upper theme_labels in
      if contains_any up kw_natural_disaster then Some RISK_NATURAL_DISASTER
      else if contains_any up kw_military then Some RISK_MILITARY
      else if contains_any up kw_protest then Some RISK_CIVIL_UNREST
      else if contains_any up kw_terror then Some RISK_MILITARY
      else if contains_any up kw_political then Some RISK_POLITICAL
      else if contains_any up kw_economic then Some RISK_ECONOMIC
      else None
  end.

(** The theme step of [classify_event_risk], shared by its two paths. *)
Definition classify_by_themes_or_other (theme_labels : list string) : string :=
  match theme_labels with
  | [] => RISK_OTHER
  | _ => match _classify_by_theme_labels theme_labels with
         | Some r => r
         | None => RISK_OTHER
         end
  end.

Definition classify_event_risk (cameo : option string)
    (theme_labels : list string) : result string :=
  match cameo with
  | None | Some EmptyString => Ok (classify_by_themes_or_other theme_labels)
  | Some c =>
      by_cameo <- _classify_by_cameo c ;;
      match by_cameo with
      | Some r => Ok r
      | None => Ok (classify_by_themes_or_other theme_labels)
      end
  end.

(** The character U+00B2, a digit for [isdigit] and not for [int]. *)
Definition superscript_two : ascii := ascii_of_N 178.

(** ** Frames: grouping and sorting *)

Section Frames.

Context {R K : Type}.
Variable key : R -> K.
Variable key_eq_dec : forall a b : K, {a = b} + {a <> b}.
Variable key_leb : K -> K -> bool.

Fixpoint insert_sorted (k : K) (ks : list K) : list K :=
  match ks with
  | [] => [k]
  | k' :: ks' => if key_leb k k' then k :: ks else k' :: insert_sorted k ks'
  end.

Definition sort_keys (ks : list K) : list K :=
  fold_right insert_sorted [] ks.

(** The group keys of [groupby(...)], each once, in sorted order. *)
Definition group_keys (rows : list R) : list K :=
  sort_keys (nodup key_eq_dec (map key rows)).

(** The rows of one group, in frame order. *)
Definition group (rows : list R) (k : K) : list R :=
  filter (fun r => if key_eq_dec (key r) k then true else false) rows.

(** [rows.groupby(key)[col].agg()]: one row per group key. *)
Definition groupby {V : Type} (agg : list R -> V) (rows : list R)
  : list (K * V) :=
  map (fun k => (k, agg (group rows k))) (group_keys rows).

(** The right-hand value of a left join on the key. *)
Fixpoint lookup {V : Type} (k : K) (tbl : list (K * V)) : option V :=
  match tbl with
  | [] => None
  | (k', v) :: tbl' => if key_eq_dec k k' then Some v else lookup k tbl'
  end.

End Frames.

(** ** The [float64] results of a division *)

Inductive F64 : Type :=
| Fin (q : Q)
| PosInf
| NegInf
| NaN.

Local Open Scope Q_scope.

Definition Qlt_bool (a b : Q) : bool := negb (Qle_bool b a).

(** [a / b] in [float64] for finite [a] and [b]: a zero divisor gives an
    infinity or NaN, never an exception. *)
Definition f64_div (a b : Q) : F64 :=
  if Qeq_bool b 0 then
    if Qlt_bool 0 a then PosInf
    else if Qlt_bool a 0 then NegInf
    else NaN
  else Fin (Qred (a / b)).

(** [x * 100.0] *)
Definition f64_times_100 (x : F64) : F64 :=
  match x with
  | Fin q => Fin (Qred (q * 100))
  | other => other
  end.

Definition f64_abs (x : F64) : F64 :=
  match x with
  | Fin q => Fin (Qabs q)
  | PosInf | NegInf => PosInf
  | NaN => NaN
  end.

(** [x >= y] for a finite [y]; a comparison with NaN is false. *)
Definition f64_geq (x : F64) (y : Q) : bool :=
  match x with
  | Fin q => Qle_bool y q
  | PosInf => true
  | NegInf | NaN => false
  end.

(** [f64_desc x y]: a row with key [x] may stand before a row with key
    [y] in a frame sorted with [ascending=False]; NaN keys go last. *)
Definition f64_desc (x y : F64) : bool :=
  match x, y with
  | _, NaN => true
  | NaN, _ => false
  | PosInf, _ => true
  | _, NegInf => true
  | Fin a, Fin b => Qle_bool b a
  | _, _ => false
  end.

(** [DataFrame.sort_values(col, ascending=False)] by its contract: the
    rows are rearranged so that the key never increases.  The default
    sorting algorithm is not stable, so nothing more is known of rows
    whose keys are equal. *)
Record Sorter : Type := {
  sort_values : forall {A : Type}, (A -> F64) -> list A -> list A;
  sort_values_perm : forall (A : Type) (f : A -> F64) (l : list A),
      Permutation l (sort_values f l);
  sort_values_desc : forall (A : Type) (f : A -> F64) (l : list A),
      StronglySorted (fun x y => f64_desc (f x) (f y) = true)
                     (sort_values f l)
}.

Section InsertionSort.

Context {A : Type}.
Variable f : A -> F64.
(** [before x y]: the new row [x] is put in front of [y]. *)
Variable before : F64 -> F64 -> bool.

Fixpoint insert_row (x : A) (l : list A) : list A :=
  match l with
  | [] => [x]
  | y :: l' => if before (f x) (f y) then x :: l else y :: insert_row x l'
  end.

Definition insertion_sort (l : list A) : list A :=
  fold_right insert_row [] l.

End InsertionSort.

(** Equal keys keep their order. *)
Definition before_stable (x y : F64) : bool := f64_desc x y.
(** Ascending, and equal keys keep their order. *)
Definition before_ascending (x y : F64) : bool := f64_desc y x.

Definition isnan (x : F64) : bool :=
  match x with
  | NaN => true
  | _ => false
  end.

Section Nargsort.

Context {A : Type}.
Variable f : A -> F64.

(** One compare-exchange of a sorting network on two lanes of a vector:
    the lower lane takes the smaller key and the upper lane the larger
    one.  A row moves only with its key, so two rows of equal key stay
    where they are. *)
Definition compare_exchange (lower upper : A) : A * A :=
  if f64_desc (f upper) (f lower) then (lower, upper) else (upper, lower).

(** [ndarray.argsort(kind="quicksort")] on [float64] keys without NaN,
    as the vectorised kernels of numpy for x86 (AVX2 and AVX-512) run it
    on an array of at most four keys.  The keys fill the first lanes of
    a vector whose free lanes hold +inf, and a bitonic network sorts the
    lanes: compare-exchanges of the lanes 0-1 and 2-3, then 0-3 and 1-2,
    then 0-1 and 2-3.  A compare-exchange with a free lane changes
    nothing.  Longer arrays go through wider networks that differ from
    one kernel to the other; they are outside the model and are sorted
    here by insertion. *)
Definition argsort (rows : list A) : list A :=
  match rows with
  | [a; b] =>
      let '(a, b) := compare_exchange a b in
      [a; b]
  | [a; b; c] =>
      let '(a, b) := compare_exchange a b in
      let '(b, c) := compare_exchange b c in
      let '(a, b) := compare_exchange a b in
      [a; b; c]
  | [a; b; c; d] =>
      let '(a, b) := compare_exchange a b in
      let '(c, d) := compare_exchange c d in
      let '(a, d) := compare_exchange a d in
      let '(b, c) := compare_exchange b c in
      let '(a, b) := compare_exchange a b in
      let '(c, d) := compare_exchange c d in
      [a; b; c; d]
  | _ => insertion_sort f before_ascending rows
  end.

(** pandas [nargsort(items, kind="quicksort", ascending=False,
    na_position="last")], which [sort_values] calls for one sort
    column: the rows without a NaN key are reversed, sorted ascending
    and reversed again; the rows with a NaN key follow. *)
Definition nargsort (rows : list A) : list A :=
  let non_nans := filter (fun r => negb (isnan (f r))) rows in
  let nans := filter (fun r => isnan (f r)) rows in
  (rev (argsort (rev non_nans)) ++ nans)%list.

End Nargsort.

(** ** Calendar dates *)

Local Close Scope Q_scope.

(** [date.min.toordinal()] and [date.max.toordinal()] *)
Definition MINORDINAL : Z := 1.
Definition MAXORDINAL : Z := 3652059.

(** [timedelta(days=days)] as its number of days; OverflowError beyond
    999999999 days either way. *)
Definition timedelta (days : Z) : result Z :=
  if Z.abs days <=? 999999999 then Ok days else Raise OverflowError.

(** [d - delta] for a date and a timedelta; OverflowError when the day
    is not a date. *)
Definition date_sub (d delta : Z) : result Z :=
  let ordinal := d - delta in
  if (MINORDINAL <=? ordinal) && (ordinal <=? MAXORDINAL) then Ok ordinal
  else Raise OverflowError.

Definition is_leap (year : Z) : bool :=
  ((year mod 4 =? 0) && negb (year mod 100 =? 0)) || (year mod 400 =? 0).

Definition days_in_month (year month : Z) : Z :=
  if month =? 2 then (if is_leap year then 29 else 28)
  else if (month =? 4) || (month =? 6) || (month =? 9) || (month =? 11)
       then 30
       else 31.

Definition days_before_year (year : Z) : Z :=
  let y := year - 1 in
  y * 365 + y / 4 - y / 100 + y / 400.

(** The days of a common year before each month. *)
Definition DAYS_BEFORE_MONTH : list Z :=
  [0; 31; 59; 90; 120; 151; 181; 212; 243; 273; 304; 334].

Definition days_before_month (year month : Z) : Z :=
  nth (Z.to_nat (month - 1)) DAYS_BEFORE_MONTH 0
  + (if (2 <? month) && is_leap year then 1 else 0).

(** [date(year, month, day).toordinal()], [None] when [date] raises
    ValueError. *)
Definition ymd_to_ordinal (year month day : Z) : option Z :=
  if (1 <=? year) && (year <=? 9999) && (1 <=? month) && (month <=? 12)
     && (1 <=? day) && (day <=? days_in_month year month)
  then Some (days_before_year year + days_before_month year month + day)
  else None.

(** *** [datetime.strptime]

    [strptime] turns the format into a regular expression, takes the
    first match at the start of the text, in the order of the
    alternatives, and raises ValueError when there is none or when text
    is left over.  A piece of the expression reads a number off the
    head of the text and leaves the rest. *)
Definition Piece : Type := string -> option (Z * string).

Definition digit_value (c : ascii) : Z := Z.of_N (PyStr.code c) - 48.

(** Two characters, each within its range. *)
Definition two_chars (lo1 hi1 lo2 hi2 : ascii) : Piece :=
  fun s =>
    match s with
    | String c1 (String c2 rest) =>
        if PyStr.between (PyStr.code lo1) (PyStr.code hi1) c1
           && PyStr.between (PyStr.code lo2) (PyStr.code hi2) c2
        then Some ((if (c1 =? " ")%char then 0 else digit_value c1) * 10
                   + digit_value c2, rest)
        else None
    | _ => None
    end.

Definition one_char (lo hi : ascii) : Piece :=
  fun s =>
    match s with
    | String c rest =>
        if PyStr.between (PyStr.code lo) (PyStr.code hi) c
        then Some (digit_value c, rest)
        else None
    | _ => None
    end.

(** [%Y]: [\d\d\d\d] *)
Definition re_Y : Piece :=
  fun s =>
    match s with
    | String a (String b (String c (String d rest))) =>
        if PyStr.isdecimal_char a && PyStr.isdecimal_char b
           && PyStr.isdecimal_char c && PyStr.isdecimal_char d
        then Some (digit_value a * 1000 + digit_value b * 100
                   + digit_value c * 10 + digit_value d, rest)
        else None
    | _ => None
    end.

(** [%m]: [1[0-2]|0[1-9]|[1-9]] *)
Definition re_m : list Piece :=
  [ two_chars "1" "1" "0" "2"; two_chars "0" "0" "1" "9"; one_char "1" "9" ].

(** [%d]: [3[01]|[12]\d|0[1-9]|[1-9]| [1-9]] *)
Definition re_d : list Piece :=
  [ two_chars "3" "3" "0" "1"; two_chars "1" "2" "0" "9";
    two_chars "0" "0" "1" "9"; one_char "1" "9"; two_chars " " " " "1" "9" ].

(** A group of alternatives followed by the rest [k] of the expression:
    the first alternative after which the rest matches. *)
Fixpoint re_group {R : Type} (alternatives : list Piece)
    (k : Z -> string -> option R) (s : string) : option R :=
  match alternatives with
  | [] => None
  | piece :: others =>
      let here := match piece s with
                  | Some (value, rest) => k value rest
                  | None => None
                  end in
      match here with
      | Some r => Some r
      | None => re_group others k s
      end
  end.

(** A literal character followed by the rest of the expression. *)
Definition re_literal {R : Type} (c : ascii) (k : string -> option R)
    (s : string) : option R :=
  match s with
  | String c' rest => if (c' =? c)%char then k rest else None
  | EmptyString => None
  end.

(** The date of a match that leaves no text. *)
Definition date_of_match (year : Z) (found : option (Z * Z * string))
  : option Z :=
  match found with
  | Some (month, day, EmptyString) => ymd_to_ordinal year month day
  | _ => None
  end.

(** [datetime.strptime(s, "%Y%m%d").date()], [None] when it raises
    ValueError. *)
Definition strptime_digits (s : string) : option Z :=
  match re_Y s with
  | Some (year, s) =>
      date_of_match year
        (re_group re_m
           (fun month => re_group re_d (fun day rest => Some (month, day, rest)))
           s)
  | None => None
  end.

(** [datetime.strptime(s, "%Y-%m-%d").date()], [None] when it raises
    ValueError. *)
Definition strptime_dashes (s : string) : option Z :=
  match re_Y s with
  | Some (year, s) =>
      date_of_match year
        (re_literal "-"
           (re_group re_m
              (fun month =>
                 re_literal "-"
                   (re_group re_d (fun day rest => Some (month, day, rest)))))
           s)
  | None => None
  end.

Local Close Scope Q_scope.

(** ** The daily-count table and spike detection *)

(** A row of [df_daily]. *)
Record DailyRow : Type := {
  date : Z;
  country_code : string;
  risk_type : string;
  count : Z
}.

Definition Pair : Type := (string * string)%type.

Definition Pair_eq_dec (a b : Pair) : {a = b} + {a <> b}.
Proof. decide equality; apply string_dec. Defined.

Definition Pair_leb (a b : Pair) : bool :=
  match String.compare (fst a) (fst b) with
  | Lt => true
  | Eq => String.leb (snd a) (snd b)
  | Gt => false
  end.

(** The grouping key [["country_code", "risk_type"]]. *)
Definition pair_of (r : DailyRow) : Pair := (country_code r, risk_type r).

Definition sum_Z (l : list Z) : Z := fold_right Z.add 0 l.

(** The sum of the [count] column, as a number. *)
Definition sum_count (rows : list DailyRow) : Z := sum_Z (map count rows).

(** The value [z] as 64 bits hold it in two's complement. *)
Definition wrap_int64 (z : Z) : Z := (z + 2 ^ 63) mod 2 ^ 64 - 2 ^ 63.

(** [Series.sum()] of the [count] column, an [int64] column: the sum
    wraps around. *)
Definition sum_int64 (rows : list DailyRow) : Z := wrap_int64 (sum_count rows).

(** [Series.mean()] of the [count] column of a group, a [float64]; a
    group has at least one row. *)
Definition mean_count (rows : list DailyRow) : Q :=
  Qred (Qmake (sum_count rows) (Pos.of_nat (List.length rows))).

(** A row of [merged] while its [baseline] may be NaN ([None]). *)
Record Merged : Type := {
  m_country_code : string;
  m_risk_type : string;
  m_today : Z;
  m_baseline : option Q
}.

(** A row of [merged] after [dropna] and with [delta_percent]. *)
Record Scored : Type := {
  c_country_code : string;
  c_risk_type : string;
  c_today : Z;
  c_baseline : Q;
  c_delta_percent : F64
}.

(** A row of the returned frame. *)
Record Spike : Type := {
  sp_as_of : Z;
  sp_country_code : string;
  sp_risk_type : string;
  sp_today : Z;
  sp_baseline : Q;
  sp_delta_percent : F64
}.

Definition m_pair (m : Merged) : Pair := (m_country_code m, m_risk_type m).
Definition sp_pair (s : Spike) : Pair := (sp_country_code s, sp_risk_type s).

(** [pd.merge(agg_today, agg_base, how="left")] *)
Definition merge_left (agg_today : list (Pair * Z)) (agg_base : list (Pair * Q))
  : list Merged :=
  map (fun kt => {| m_country_code := fst (fst kt);
                    m_risk_type := snd (fst kt);
                    m_today := snd kt;
                    m_baseline := lookup Pair_eq_dec (fst kt) agg_base |})
      agg_today.

(** [merged["baseline"].isna()] *)
Definition isna (m : Merged) : bool :=
  match m_baseline m with None => true | Some _ => false end.

(** The second merge and [fillna(merged["baseline_fb"])]. *)
Definition fill_fallback (fb : list (Pair * Q)) (merged : list Merged)
  : list Merged :=
  map (fun m => {| m_country_code := m_country_code m;
                   m_risk_type := m_risk_type m;
                   m_today := m_today m;
                   m_baseline := match m_baseline m with
                                 | Some b => Some b
                                 | None => lookup Pair_eq_dec (m_pair m) fb
                                 end |})
      merged.

Definition in_window (base_start base_end : Z) (r : DailyRow) : bool :=
  (base_start <=? date r) && (date r <=? base_end).

(** [df_daily[df_daily["date"] == as_of_date]] *)
Definition df_today (df_daily : list DailyRow) (as_of_date : Z)
  : list DailyRow :=
  filter (fun r => date r =? as_of_date) df_daily.

(** The rows dated from [base_start] to [base_end]. *)
Definition df_base (df_daily : list DailyRow) (base_start base_end : Z)
  : list DailyRow :=
  filter (in_window base_start base_end) df_daily.

(** [df_daily[df_daily["date"] < as_of_date]] *)
Definition df_all_before (df_daily : list DailyRow) (as_of_date : Z)
  : list DailyRow :=
  filter (fun r => date r <? as_of_date) df_daily.

Definition agg_today (df_daily : list DailyRow) (as_of_date : Z)
  : list (Pair * Z) :=
  groupby pair_of Pair_eq_dec Pair_leb sum_int64 (df_today df_daily as_of_date).

Definition agg_base (df_daily : list DailyRow) (base_start base_end : Z)
  : list (Pair * Q) :=
  groupby pair_of Pair_eq_dec Pair_leb mean_count
          (df_base df_daily base_start base_end).

(** [fb], the means over all the rows before [as_of_date]. *)
Definition fb (df_daily : list DailyRow) (as_of_date : Z) : list (Pair * Q) :=
  groupby pair_of Pair_eq_dec Pair_leb mean_count
          (df_all_before df_daily as_of_date).

(** [merged] after the first left join. *)
Definition first_merge (df_daily : list DailyRow)
    (as_of_date base_start base_end : Z) : list Merged :=
  merge_left (agg_today df_daily as_of_date)
             (agg_base df_daily base_start base_end).

(** [merged] as it stands at the [dropna]: the left join, and the
    fallback when [need_fallback.any()]. *)
Definition merged_baselines (df_daily : list DailyRow)
    (as_of_date base_start base_end : Z) : list Merged :=
  let merged := first_merge df_daily as_of_date base_start base_end in
  if existsb isna merged then fill_fallback (fb df_daily as_of_date) merged
  else merged.

(** [(today - baseline) / baseline * 100.0] *)
Definition delta_of (today : Z) (baseline : Q) : F64 :=
  f64_times_100 (f64_div (inject_Z today - baseline) baseline).

(** [dropna], the [baseline >= min_baseline_mean] filter and the new
    [delta_percent] column. *)
Definition score (min_baseline_mean : Q) (m : Merged) : option Scored :=
  match m_baseline m with
  | None => None
  | Some b =>
      if Qle_bool min_baseline_mean b then
        Some {| c_country_code := m_country_code m;
                c_risk_type := m_risk_type m;
                c_today := m_today m;
                c_baseline := b;
                c_delta_percent := delta_of (m_today m) b |}
      else None
  end.

Fixpoint filter_map {A B : Type} (f : A -> option B) (l : list A) : list B :=
  match l with
  | [] => []
  | x :: l' => match f x with
               | Some y => y :: filter_map f l'
               | None => filter_map f l'
               end
  end.

(** [delta_percent.abs() >= min_delta_rel * 100.0] *)
Definition passes_delta (min_delta_rel : Q) (c : Scored) : bool :=
  f64_geq (f64_abs (c_delta_percent c)) (min_delta_rel * 100)%Q.

(** [merged.insert(0, "as_of", as_of_date)] *)
Definition with_as_of (as_of_date : Z) (c : Scored) : Spike :=
  {| sp_as_of := as_of_date;
     sp_country_code := c_country_code c;
     sp_risk_type := c_risk_type c;
     sp_today := c_today c;
     sp_baseline := c_baseline c;
     sp_delta_percent := c_delta_percent c |}.

(** The rows of [merged] with their [delta_percent], before the delta
    threshold. *)
Definition scored_rows (df_daily : list DailyRow)
    (as_of_date base_start base_end : Z) (min_baseline_mean : Q)
  : list Scored :=
  filter_map (score min_baseline_mean)
             (merged_baselines df_daily as_of_date base_start base_end).

(** [detect_spikes] from the line that takes the rows of the day, with
    the two ends of the window in hand; [pd.DataFrame()] is the empty
    list of rows. *)
Definition spikes_in_window (S : Sorter) (df_daily : list DailyRow)
    (as_of_date base_start base_end : Z) (min_baseline_mean min_delta_rel : Q)
  : list Spike :=
  match df_today df_daily as_of_date with
  | [] => []
  | _ =>
      let merged :=
        scored_rows df_daily as_of_date base_start base_end
                    min_baseline_mean in
      let merged := filter (passes_delta min_delta_rel) merged in
      let merged := sort_values S c_delta_percent merged in
      map (with_as_of as_of_date) merged
  end.

(** [base_start] and [base_end], the two ends of the window: either
    subtraction can raise OverflowError. *)
Definition baseline_window (as_of_date baseline_days : Z) : result (Z * Z) :=
  days <- timedelta baseline_days ;;
  base_start <- date_sub as_of_date days ;;
  one_day <- timedelta 1 ;;
  base_end <- date_sub as_of_date one_day ;;
  Ok (base_start, base_end).

(** [detect_spikes]: the window is computed before the table is looked
    at. *)
Definition detect_spikes (S : Sorter) (df_daily : list DailyRow)
    (as_of_date baseline_days : Z) (min_baseline_mean min_delta_rel : Q)
  : result (list Spike) :=
  window <- baseline_window as_of_date baseline_days ;;
  Ok (spikes_in_window S df_daily as_of_date (fst window) (snd window)
        min_baseline_mean min_delta_rel).

(** ** The event graph and the daily counts *)

(** The attributes a node may carry, each as [data.get(...)] gives it
    and as [str(...)] prints it. *)
Record NodeData : Type := {
  attr_type : option string;
  attr_label : option string;
  attr_date : option string;
  attr_country : option string;
  attr_cameo : option string
}.

(** The loaded graph: its nodes in iteration order with their data, and
    the neighbours of each node. *)
Record Graph : Type := {
  nodes : list (string * NodeData);
  adj : list (string * list string)
}.

Definition NODE_ATTR_none : NodeData :=
  {| attr_type := None; attr_label := None; attr_date := None;
     attr_country := None; attr_cameo := None |}.

Definition EVENT_NODE_TYPE : string := "Event".
Definition LOCATION_NODE_TYPE : string := "Location".
Definition THEME_NODE_TYPE : string := "Theme".

(** [G.nodes[n]] *)
Definition node_data (G : Graph) (n : string) : NodeData :=
  match lookup string_dec n (nodes G) with
  | Some d => d
  | None => NODE_ATTR_none
  end.

(** [G.neighbors(n)] *)
Definition neighbors (G : Graph) (n : string) : list string :=
  match lookup string_dec n (adj G) with
  | Some l => l
  | None => []
  end.

(** An attribute that passes [if value:]. *)
Definition truthy (a : option string) : option string :=
  match a with
  | Some EmptyString => None
  | other => other
  end.

Definition has_type (d : NodeData) (t : string) : bool :=
  match attr_type d with
  | Some s => String.eqb s t
  | None => false
  end.

(** [countries.add(x)] on a set kept as a list without repetition.  The
    order in which Python walks a set is not specified; the rows of an
    event are only counted, so the order plays no part. *)
Definition set_add (x : string) (s : list string) : list string :=
  if in_dec string_dec x s then s else (s ++ [x])%list.

(** One turn of the loop over the neighbours of an event. *)
Definition visit_neighbor (G : Graph) (acc : list string * list string)
    (nbr : string) : list string * list string :=
  let nbr_data := node_data G nbr in
  if has_type nbr_data LOCATION_NODE_TYPE then
    match truthy (attr_country nbr_data) with
    | Some cc => (set_add cc (fst acc), snd acc)
    | None => acc
    end
  else if has_type nbr_data THEME_NODE_TYPE then
    match truthy (attr_label nbr_data) with
    | Some lab => (fst acc, (snd acc ++ [lab])%list)
    | None => acc
    end
  else acc.

(** An event that the loop does not skip. *)
Record EventRecord : Type := {
  ev_date : Z;
  ev_cameo : option string;
  ev_countries : list string;
  ev_theme_labels : list string
}.

(** A row of [rows], the frame before grouping. *)
Record EventRow : Type := {
  r_date : Z;
  r_country_code : string;
  r_risk_type : string
}.

Definition DayKey : Type := (Z * string * string)%type.

Definition DayKey_eq_dec (a b : DayKey) : {a = b} + {a <> b}.
Proof. decide equality; [apply string_dec | decide equality];
       [apply string_dec | apply Z.eq_dec]. Defined.

Definition DayKey_leb (a b : DayKey) : bool :=
  match Z.compare (fst (fst a)) (fst (fst b)) with
  | Lt => true
  | Eq => Pair_leb (snd (fst a), snd a) (snd (fst b), snd b)
  | Gt => false
  end.

Definition day_key (r : EventRow) : DayKey :=
  (r_date r, r_country_code r, r_risk_type r).

(** [df.groupby(["date", "country_code", "risk_type"]).size()], with the
    index reset and the rows sorted by the three keys. *)
Definition daily_counts (rows : list EventRow) : list DailyRow :=
  map (fun kv => {| date := fst (fst (fst kv));
                    country_code := snd (fst (fst kv));
                    risk_type := snd (fst kv);
                    count := snd kv |})
      (groupby day_key DayKey_eq_dec DayKey_leb
               (fun g => Z.of_nat (List.length g)) rows).

Section Extraction.

(** [datetime.strptime(s, "%Y%m%d").date()] as a day number, [None]
    when it raises. *)
Variable strptime_Ymd : string -> option Z.

(** The part of the loop body that decides whether a node is an event
    to count, and gathers its countries and theme labels. *)
Definition event_record (G : Graph) (node : string * NodeData)
  : option EventRecord :=
  let node_id := fst node in
  let data := snd node in
  if negb (has_type data EVENT_NODE_TYPE) then None
  else
    match truthy (attr_date data) with
    | None => None
    | Some date_str =>
        match strptime_Ymd date_str with
        | None => None
        | Some event_date =>
            let found :=
              fold_left (visit_neighbor G) (neighbors G node_id) ([], []) in
            match fst found with
            | [] => None
            | countries =>
                Some {| ev_date := event_date;
                        ev_cameo := attr_cameo data;
                        ev_countries := countries;
                        ev_theme_labels := snd found |}
            end
        end
    end.

(** The rows an event appends: one for each of its countries. *)
Definition rows_of_event (ev : EventRecord) : result (list EventRow) :=
  risk_type <- classify_event_risk (ev_cameo ev) (ev_theme_labels ev) ;;
  Ok (map (fun cc => {| r_date := ev_date ev;
                        r_country_code := cc;
                        r_risk_type := risk_type |})
          (ev_countries ev)).

(** The loop over [G.nodes(data=True)]. *)
Fixpoint extract_rows (G : Graph) (todo : list (string * NodeData))
  : result (list EventRow) :=
  match todo with
  | [] => Ok []
  | node :: todo' =>
      here <- match event_record G node with
              | None => Ok []
              | Some ev => rows_of_event ev
              end ;;
      rest <- extract_rows G todo' ;;
      Ok (here ++ rest)%list
  end.

(** [graphml_to_daily_counts] on the graph [nx.read_graphml] loaded. *)
Definition graphml_to_daily_counts (G : Graph) : result (list DailyRow) :=
  rows <- extract_rows G (nodes G) ;;
  match rows with
  | [] => Raise RuntimeError
  | _ => Ok (daily_counts rows)
  end.

(** The events the loop does not skip, in node order. *)
Definition events (G : Graph) : list EventRecord :=
  filter_map (event_record G) (nodes G).


End Extraction.

(** ** The command line of [graphml_to_spikes.py] *)

(** The options [parse_args] reads, without the two file paths. *)
Record Args : Type := {
  arg_as_of : option string;
  arg_baseline_days : Z;
  arg_min_baseline_mean : Q;
  arg_min_delta_rel : Q
}.

(** The defaults of [parse_args]. *)
Definition default_args : Args :=
  {| arg_as_of := None;
     arg_baseline_days := 7;
     arg_min_baseline_mean := 1;
     arg_min_delta_rel := 1 |}.

(** [df_daily["date"].max()]; [None] is the NaT of an empty column. *)
Definition max_date (df_daily : list DailyRow) : option Z :=
  match df_daily with
  | [] => None
  | r :: rows => Some (fold_left (fun m x => Z.max m (date x)) rows (date r))
  end.

Section Main.

(** [datetime.strptime(s, "%Y%m%d")] and [datetime.strptime(s,
    "%Y-%m-%d")] as dates, [None] when they raise ValueError. *)
Variable strptime_Ymd : string -> option Z.
Variable strptime_Y_m_d : string -> option Z.

(** [main], up to the frame it hands to [to_csv].  With NaT for
    [as_of] no row is dated [as_of] and the frame is empty. *)
Definition main (S : Sorter) (G : Graph) (args : Args)
  : result (list Spike) :=
  df_daily <- graphml_to_daily_counts strptime_Ymd G ;;
  match truthy (arg_as_of args) with
  | Some s =>
      match strptime_Y_m_d s with
      | Some as_of =>
          detect_spikes S df_daily as_of (arg_baseline_days args)
            (arg_min_baseline_mean args) (arg_min_delta_rel args)
      | None => Raise ValueError
      end
  | None =>
      match max_date df_daily with
      | Some as_of =>
          detect_spikes S df_daily as_of (arg_baseline_days args)
            (arg_min_baseline_mean args) (arg_min_delta_rel args)
      | None => Ok []
      end
  end.

End Main.

(** ** From the CSV of spikes to events: [gdelt_spike_to_events.py] *)

(** The type [Severity]. *)
Inductive Severity : Type :=
| LOW
| MEDIUM
| HIGH
| EXTREME.

(** [classify_severity]; a comparison with NaN is false. *)
Definition classify_severity (delta_percent : F64) : Severity :=
  if f64_geq delta_percent 1000 then EXTREME
  else if f64_geq delta_percent 500 then HIGH
  else if f64_geq delta_percent 200 then MEDIUM
  else LOW.

(** A row of the frame [pd.read_csv] returns: the date as the text of
    the file, an integer column and two [float64] columns. *)
Record CsvRow : Type := {
  csv_as_of : string;
  csv_country_code : string;
  csv_risk_type : string;
  csv_today : Z;
  csv_baseline : F64;
  csv_delta_percent : F64
}.

(** The frame with the names of its columns. *)
Record CsvFrame : Type := {
  csv_columns : list string;
  csv_rows : list CsvRow
}.

(** The dataclass [SpikeEvent] of [gdelt_spike_to_events.py]. *)
Record SpikeEvent : Type := {
  se_date : string;
  se_country_code : string;
  se_risk_type : string;
  se_today_count : Z;
  se_baseline_mean : F64;
  se_delta_percent : F64;
  se_severity : Severity
}.

Definition DEFAULT_MIN_TODAY : Z := 10.
Definition DEFAULT_MIN_BASELINE : Q := 1.
Definition DEFAULT_MIN_DELTA_PERCENT : Q := 100.

Definition REQUIRED_COLUMNS : list string :=
  ["as_of"; "country_code"; "risk_type"; "today"; "baseline";
   "delta_percent"].

(** [REQUIRED_COLUMNS - set(df.columns)] *)
Definition missing_columns (df : CsvFrame) : list string :=
  filter (fun c => negb (existsb (String.eqb c) (csv_columns df)))
         REQUIRED_COLUMNS.

(** The threshold mask of [load_spike_events_from_csv]. *)
Definition csv_mask (min_today : Z) (min_baseline min_delta_percent : Q)
    (r : CsvRow) : bool :=
  (min_today <=? csv_today r)
  && f64_geq (csv_baseline r) min_baseline
  && f64_geq (csv_delta_percent r) min_delta_percent.

(** The body of the loop over [df.iterrows()]. *)
Definition event_of_row (row : CsvRow) : SpikeEvent :=
  {| se_date := csv_as_of row;
     se_country_code := csv_country_code row;
     se_risk_type := csv_risk_type row;
     se_today_count := csv_today row;
     se_baseline_mean := csv_baseline row;
     se_delta_percent := csv_delta_percent row;
     se_severity := classify_severity (csv_delta_percent row) |}.

(** [load_spike_events_from_csv] on the frame [pd.read_csv] returned. *)
Definition load_spike_events_from_csv (S : Sorter) (df : CsvFrame)
    (min_today : Z) (min_baseline min_delta_percent : Q)
  : result (list SpikeEvent) :=
  match missing_columns df with
  | _ :: _ => Raise ValueError
  | [] =>
      let df := filter (csv_mask min_today min_baseline min_delta_percent)
                       (csv_rows df) in
      let df := sort_values S csv_delta_percent df in
      Ok (map event_of_row df)
  end.

(** ** From spikes to notifications: [gdelt_to_spike.py] *)

(** [x < y] for a finite [y]; a comparison with NaN is false. *)
Definition f64_ltb (x : F64) (y : Q) : bool :=
  match x with
  | Fin q => Qlt_bool q y
  | NegInf => true
  | PosInf | NaN => false
  end.

(** [infer_level] *)
Definition infer_level (delta_percent : F64) : string :=
  if f64_geq delta_percent 400 then "critical"
  else if f64_geq delta_percent 250 then "alert"
  else if f64_geq delta_percent 150 then "warning"
  else "info".

(** The three labels [infer_confidence] returns: high, middle and low. *)
Inductive Confidence : Type :=
| conf_high
| conf_middle
| conf_low.

(** [infer_confidence] *)
Definition infer_confidence (delta_percent : F64) (abs_count : Z)
    (baseline : F64) (source_count : option Z) : Confidence :=
  if (abs_count <? 5) || f64_ltb baseline 1 then conf_low
  else
    match source_count with
    | Some n =>
        if (10 <=? n) && f64_geq delta_percent 200 then conf_high
        else if 5 <=? n then conf_middle
        else conf_low
    | None =>
        if f64_geq delta_percent 300 && (30 <=? abs_count) then conf_high
        else if f64_geq delta_percent 150 && (10 <=? abs_count)
             then conf_middle
        else conf_low
    end.

(** ** Sending to the webhook: [send_discord.py] *)

(** What a POST to the webhook gives: a response with its status code
    and its Retry-After header, or an exception of [requests]. *)
Inductive PostResult : Type :=
| Response (status_code : Z) (retry_after : option string)
| PostRaises.

(** What the sender did, in order. *)
Inductive Action : Type :=
| Post
| Sleep (seconds : F64).

(** How a call ends: it returns, it raises DiscordSenderError, or it is
    left by the exception of a [time.sleep] no handler catches. *)
Inductive Sent : Type :=
| Delivered
| SenderError
| SleepError.

Section Sender.

(** The outside world: the result of the POST of each attempt, the
    reading [float(retry_after)] ([None] when it raises ValueError), and
    the arguments on which [time.sleep] raises. *)
Variable post : Z -> PostResult.
Variable float_of : string -> option F64.
Variable sleep_raises : F64 -> bool.

Variable max_retries : Z.
Variable retry_backoff_sec : Q.

(** The [except Exception] handler of attempt [attempt]; [next] is the
    rest of the loop. *)
Definition on_exception (attempt : Z) (next : list Action -> Sent * list Action)
    (done : list Action) : Sent * list Action :=
  if attempt =? max_retries then (SenderError, done)
  else
    let sleep_sec := Fin (retry_backoff_sec * inject_Z attempt)%Q in
    if sleep_raises sleep_sec then (SleepError, (done ++ [Sleep sleep_sec])%list)
    else next (done ++ [Sleep sleep_sec])%list.

(** The attempts [attempt], [attempt + 1], ... of the loop, [todo] of
    them; [done] holds the actions so far. *)
Fixpoint attempts (todo : nat) (attempt : Z) (done : list Action)
  : Sent * list Action :=
  match todo with
  | O => (SenderError, done)
  | S todo' =>
      let next := attempts todo' (attempt + 1) in
      let done := (done ++ [Post])%list in
      match post attempt with
      | Response status_code retry_after =>
          if status_code =? 204 then (Delivered, done)
          else if status_code =? 429 then
            let backoff := Fin (retry_backoff_sec * inject_Z attempt)%Q in
            let sleep_sec :=
              match retry_after with
              | Some text => match float_of text with
                             | Some x => x
                             | None => backoff
                             end
              | None => backoff
              end in
            if sleep_raises sleep_sec
            then on_exception attempt next (done ++ [Sleep sleep_sec])%list
            else next (done ++ [Sleep sleep_sec])%list
          else on_exception attempt next done
      | PostRaises => on_exception attempt next done
      end
  end.

(** [send_discord_payload]: the loop over [range(1, max_retries + 1)]
    and the final raise. *)
Definition send_discord_payload : Sent * list Action :=
  attempts (Z.to_nat max_retries) 1 [].

End Sender.

Section Batch.

Context {Event : Type}.

(** [send_spike_event] on one event: true when it returns, false when
    it raises (never, in a dry run). *)
Variable send_spike_event : Event -> bool.
Variable max_events : Z.
(** [not dry_run and sleep_between_sec > 0], for an interval that
    [time.sleep] accepts. *)
Variable pause : bool.

(** The loop of [send_spike_events_batch] from index [i] on: the events
    sent and the number of pauses, or [None] when a send raises. *)
Fixpoint batch_from (i : Z) (events : list Event) (sent : list Event)
    (pauses : nat) : option (list Event * nat) :=
  match events with
  | [] => Some (sent, pauses)
  | ev :: rest =>
      if max_events <=? i then Some (sent, pauses)
      else if send_spike_event ev then
        let sent := (sent ++ [ev])%list in
        let pauses :=
          if pause && (i <? max_events - 1) then S pauses else pauses in
        batch_from (i + 1) rest sent pauses
      else None
  end.

(** [send_spike_events_batch] *)
Definition send_spike_events_batch (events : list Event)
  : option (list Event * nat) :=
  batch_from 0 events [] 0.

End Batch.

(** ** The themes column: [df_to_spike_events] of [gdelt_to_spike.py] *)

(** What [row.get("main_themes", [])] may hold. *)
Inductive ThemesCell : Type :=
| ThemesText (text : string)
| ThemesList (themes : list string)
| ThemesOther.

(** [s.replace(",", ";")] *)
Fixpoint replace_commas (s : string) : string :=
  match s with
  | EmptyString => EmptyString
  | String c s' =>
      String (if (c =? ",")%char then ";"%char else c) (replace_commas s')
  end.

(** [s.split(sep)] for a separator of one character. *)
Fixpoint split_on (sep : ascii) (s : string) : list string :=
  match s with
  | EmptyString => [EmptyString]
  | String c s' =>
      if (c =? sep)%char then EmptyString :: split_on sep s'
      else match split_on sep s' with
           | p :: ps => String c p :: ps
           | [] => [String c EmptyString]
           end
  end.

(** The branch of [df_to_spike_events] that reads [main_themes]. *)
Definition parse_main_themes (main_themes_raw : ThemesCell) : list string :=
  match main_themes_raw with
  | ThemesText text =>
      let parts := map PyStr.strip (split_on ";" (replace_commas text)) in
      filter (fun p => negb (p =? "")%string) parts
  | ThemesList themes => themes
  | ThemesOther => []
  end.

(** * Definitions for the statements *)

(** ** Classification: the tables of the specification *)

(** The two characters [_classify_by_cameo] reads as the root. *)
Definition cameo_root_str (cameo : string) : string :=
  PyStr.take2 (PyStr.strip cameo).

(** The root of the action code, when there is one, is made of decimal
    digits only or is not a digit string at all. *)
Definition cameo_decimal (cameo : option string) : bool :=
  match cameo with
  | None => true
  | Some c =>
      negb (PyStr.isdigit (cameo_root_str c))
      || PyStr.all_chars PyStr.isdecimal_char (cameo_root_str c)
  end.

(** The table of roots as the specification gives it. *)
Definition cameo_table (root : Z) : option string :=
  if mem_Z root [15; 17; 18; 19; 20] then Some RISK_MILITARY
  else if mem_Z root [14] then Some RISK_CIVIL_UNREST
  else if mem_Z root [10; 11; 12; 13; 16] then Some RISK_POLITICAL
  else if mem_Z root [6; 7] then Some RISK_ECONOMIC
  else None.

(** The value of a decimal digit. *)
Definition digit_of (c : ascii) : Z := Z.of_N (PyStr.code c) - 48.

(** The keyword buckets in the order the code tries them, each with the
    category it gives. *)
Definition theme_buckets : list (list string * string) :=
  [ (kw_natural_disaster, RISK_NATURAL_DISASTER);
    (kw_military, RISK_MILITARY);
    (kw_protest, RISK_CIVIL_UNREST);
    (kw_terror, RISK_MILITARY);
    (kw_political, RISK_POLITICAL);
    (kw_economic, RISK_ECONOMIC) ].

(** The category of the first bucket one of whose keywords occurs in one
    of the labels [up]. *)
Definition first_match (up : list string)
    (buckets : list (list string * string)) : option string :=
  option_map snd (find (fun b => contains_any up (fst b)) buckets).

(** ** Baselines: the records of the specification *)

(** The rows of a frame that belong to one (country, risk) pair. *)
Definition rows_of_pair (rows : list DailyRow) (k : Pair) : list DailyRow :=
  group pair_of Pair_eq_dec rows k.

(** The pairs that have a row dated [as_of_date], in the order of the
    grouped frame: by country code, then by risk type. *)
Definition today_pairs (df_daily : list DailyRow) (as_of_date : Z)
  : list Pair :=
  group_keys pair_of Pair_eq_dec Pair_leb (df_today df_daily as_of_date).

Inductive Source : Type :=
| primary
| fallback.

(** The BaselineRecord of the specification: the mean over the window
    tagged [primary] when the pair has a row there, else the mean over
    all earlier rows tagged [fallback] when there is one, else nothing. *)
Definition baseline_record (df_daily : list DailyRow)
    (as_of_date baseline_days : Z) (k : Pair) : option (Q * Source) :=
  match rows_of_pair
          (df_base df_daily (as_of_date - baseline_days) (as_of_date - 1)) k
  with
  | (_ :: _) as g => Some (mean_count g, primary)
  | [] =>
      match rows_of_pair (df_all_before df_daily as_of_date) k with
      | (_ :: _) as g => Some (mean_count g, fallback)
      | [] => None
      end
  end.

(** The row of a pair in [merged] at the [dropna], by the two-step
    rule. *)
Definition merged_row (df_daily : list DailyRow)
    (as_of_date baseline_days : Z) (k : Pair) : Merged :=
  {| m_country_code := fst k;
     m_risk_type := snd k;
     m_today := sum_int64 (rows_of_pair (df_today df_daily as_of_date) k);
     m_baseline :=
       option_map fst (baseline_record df_daily as_of_date baseline_days k) |}.

(** The rows whose mean is the baseline of a pair: those of the window
    when there are any, else all those before [as_of_date]. *)
Definition baseline_rows (df_daily : list DailyRow)
    (as_of_date baseline_days : Z) (k : Pair) : list DailyRow :=
  match rows_of_pair
          (df_base df_daily (as_of_date - baseline_days) (as_of_date - 1)) k
  with
  | [] => rows_of_pair (df_all_before df_daily as_of_date) k
  | g => g
  end.

Definition c_pair (c : Scored) : Pair := (c_country_code c, c_risk_type c).

(** *** The baselines in the words of the specification *)

Definition is_pair (k : Pair) (r : DailyRow) : bool :=
  if Pair_eq_dec (pair_of r) k then true else false.

(** The counts of a pair on the dates from [as_of - baseline_days] to
    [as_of - 1]. *)
Definition window_counts (df_daily : list DailyRow)
    (as_of baseline_days : Z) (k : Pair) : list Z :=
  map count
      (filter (fun r => is_pair k r
                        && ((as_of - baseline_days <=? date r)
                            && (date r <=? as_of - 1)))
              df_daily).

(** The counts of a pair on all the dates before [as_of]. *)
Definition earlier_counts (df_daily : list DailyRow) (as_of : Z) (k : Pair)
  : list Z :=
  map count (filter (fun r => is_pair k r && (date r <? as_of)) df_daily).

(** The counts of a pair on [as_of]. *)
Definition today_counts (df_daily : list DailyRow) (as_of : Z) (k : Pair)
  : list Z :=
  map count (filter (fun r => is_pair k r && (date r =? as_of)) df_daily).

(** The mean of some numbers: their sum over how many they are. *)
Definition mean_of (counts : list Z) : Q :=
  inject_Z (sum_Z counts) / inject_Z (Z.of_nat (List.length counts)).

(** The counts the baseline of a pair is the mean of: those of the
    window when there are any, else all the earlier ones. *)
Definition baseline_counts (df_daily : list DailyRow)
    (as_of baseline_days : Z) (k : Pair) : list Z :=
  match window_counts df_daily as_of baseline_days k with
  | [] => earlier_counts df_daily as_of k
  | counts => counts
  end.

(** The dates for which [detect_spikes] can form its window. *)
Definition window_dates_exist (as_of baseline_days : Z) : Prop :=
  Z.abs baseline_days <= 999999999
  /\ 1 <= as_of - baseline_days <= 3652059
  /\ 1 <= as_of - 1 <= 3652059.

(** ** Orders on the returned rows *)

(** [by_delta_desc s1 s2]: the delta of [s1] is not below that of [s2]. *)
Definition by_delta_desc (s1 s2 : Spike) : Prop :=
  f64_desc (sp_delta_percent s1) (sp_delta_percent s2) = true.

(** Strictly larger key. *)
Definition f64_gtb (x y : F64) : bool := f64_desc x y && negb (f64_desc y x).

(** Larger key first; for equal keys, the order [leb]. *)
Definition tie_order {A : Type} (f : A -> F64) (leb : A -> A -> bool)
    (x y : A) : bool :=
  if f64_gtb (f x) (f y) then true
  else if f64_gtb (f y) (f x) then false
  else leb x y.

(** The order C1 claims: larger delta first, and for equal deltas the
    smaller country code first, then the smaller risk category. *)
Definition claimed_order (s1 s2 : Spike) : bool :=
  tie_order sp_delta_percent (fun x y => Pair_leb (sp_pair x) (sp_pair y))
            s1 s2.

(** ** Events and their rows *)

(** The category of an event; the default stands for a raised error and
    is never read when [cameo_decimal] holds. *)
Definition risk_of (ev : EventRecord) : string :=
  match classify_event_risk (ev_cameo ev) (ev_theme_labels ev) with
  | Ok r => r
  | Raise _ => RISK_OTHER
  end.

(** The rows of an event whose classification returns. *)
Definition event_rows_of (ev : EventRecord) : list EventRow :=
  map (fun cc => {| r_date := ev_date ev;
                    r_country_code := cc;
                    r_risk_type := risk_of ev |})
      (ev_countries ev).

Definition event_decimal (ev : EventRecord) : bool :=
  cameo_decimal (ev_cameo ev).

(** ** Tables and graphs of the examples *)

(** The day [d] of November 2025: [date(2025, 11, d).toordinal()]. *)
Definition nov (d : Z) : Z := 739555 + d.

Definition daily (d : Z) (cc rt : string) (n : Z) : DailyRow :=
  {| date := d; country_code := cc; risk_type := rt; count := n |}.

(** Two pairs that both rise from 1 to 3. *)
Definition tied_table : list DailyRow :=
  [ daily (nov 23) "JP" "MILITARY" 1; daily (nov 24) "JP" "MILITARY" 3;
    daily (nov 23) "US" "MILITARY" 1; daily (nov 24) "US" "MILITARY" 3 ].

(** Four pairs: two rise from 1 to 3 and two from 1 to 4. *)
Definition four_pair_table : list DailyRow :=
  [ daily (nov 23) "CN" "MILITARY" 1; daily (nov 24) "CN" "MILITARY" 3;
    daily (nov 23) "JP" "MILITARY" 1; daily (nov 24) "JP" "MILITARY" 3;
    daily (nov 23) "KR" "MILITARY" 1; daily (nov 24) "KR" "MILITARY" 4;
    daily (nov 23) "US" "MILITARY" 1; daily (nov 24) "US" "MILITARY" 4 ].

Definition recent_table : list DailyRow :=
  [ daily (nov 23) "JP" "MILITARY" 2; daily (nov 24) "JP" "MILITARY" 8 ].

Definition old_table : list DailyRow :=
  [ daily (nov 15) "JP" "MILITARY" 2; daily (nov 24) "JP" "MILITARY" 8 ].

Definition jp_spike : Spike :=
  {| sp_as_of := nov 24; sp_country_code := "JP"; sp_risk_type := "MILITARY";
     sp_today := 8; sp_baseline := 2; sp_delta_percent := Fin 300 |}.

Definition rise_80_table : list DailyRow :=
  [ daily (nov 23) "JP" "MILITARY" 5; daily (nov 24) "JP" "MILITARY" 9 ].

(** A fall of 150 percent needs a negative count, which the frame type
    allows. *)
Definition fall_150_table : list DailyRow :=
  [ daily (nov 23) "JP" "MILITARY" 2; daily (nov 24) "JP" "MILITARY" (-1) ].

(** A zero baseline that the configuration lets through. *)
Definition zero_baseline_table : list DailyRow :=
  [ daily (nov 23) "JP" "MILITARY" 0; daily (nov 24) "JP" "MILITARY" 5 ].

(** Two rows of one pair on one day whose counts add up to 2^63. *)
Definition wrapped_sum_table : list DailyRow :=
  [ daily (nov 23) "JP" "MILITARY" 1;
    daily (nov 24) "JP" "MILITARY" (2 ^ 62); daily (nov 24) "JP" "MILITARY" (2 ^ 62) ].

Definition event_node (d : string) (cameo : option string) : NodeData :=
  {| attr_type := Some EVENT_NODE_TYPE; attr_label := None;
     attr_date := Some d; attr_country := None; attr_cameo := cameo |}.

Definition location_node (cc : string) : NodeData :=
  {| attr_type := Some LOCATION_NODE_TYPE; attr_label := None;
     attr_date := None; attr_country := Some cc; attr_cameo := None |}.

Definition theme_node (lab : string) : NodeData :=
  {| attr_type := Some THEME_NODE_TYPE; attr_label := Some lab;
     attr_date := None; attr_country := None; attr_cameo := None |}.

(** One protest seen in two countries, and one earthquake. *)
Definition small_graph : Graph :=
  {| nodes := [ ("e1", event_node "20251124" (Some "141"));
                ("e2", event_node "20251124" None);
                ("e3", event_node "2025-11-24" (Some "190"));
                ("jp", location_node "JP");
                ("us", location_node "US");
                ("us2", location_node "US");
                ("quake", theme_node "Earthquake") ];
     adj := [ ("e1", ["jp"; "us"; "us2"]);
              ("e2", ["jp"; "quake"]);
              ("e3", ["us"]) ] |}.

(** A well-formed event next to one whose action code starts with a
    superscript two. *)
Definition superscript_graph : Graph :=
  {| nodes := [ ("e1", event_node "20251124" (Some "141"));
                ("e2", event_node "20251124"
                                  (Some (String superscript_two "5")));
                ("us", location_node "US") ];
     adj := [ ("e1", ["us"]); ("e2", ["us"]) ] |}.

(** ** Further statements on the classification *)

(** The keywords of the economic bucket that are not in the political
    bucket as well. *)
Definition kw_economic_only : list string :=
  ["ECONOMY"; "TRADE"; "TARIFF"; "EXPORT"; "IMPORT"].

(** ** Further statements on the extracted table *)

(** The key of a row of the table. *)
Definition daily_key (r : DailyRow) : DayKey :=
  (date r, country_code r, risk_type r).

(** All the (event, country) pairs of the kept events. *)
Definition all_event_pairs (strptime_Ymd : string -> option Z) (G : Graph)
  : list (EventRecord * string) :=
  flat_map (fun ev => map (fun cc => (ev, cc)) (ev_countries ev))
           (events strptime_Ymd G).

(** The key under which an (event, country) pair is counted. *)
Definition pair_key (p : EventRecord * string) : DayKey :=
  (ev_date (fst p), snd p, risk_of (fst p)).

(** A graph without any event. *)
Definition location_only_graph : Graph :=
  {| nodes := [("us", location_node "US")]; adj := [] |}.

(** One protest in Japan on a day, three on the next. *)
Definition two_day_graph : Graph :=
  {| nodes := [ ("e0", event_node "20251123" (Some "141"));
                ("e1", event_node "20251124" (Some "141"));
                ("e2", event_node "20251124" (Some "145"));
                ("e3", event_node "20251124" (Some "14"));
                ("jp", location_node "JP") ];
     adj := [ ("e0", ["jp"]); ("e1", ["jp"]); ("e2", ["jp"]);
              ("e3", ["jp"]) ] |}.

Definition two_day_table : list DailyRow :=
  [ daily 739578 "JP" "CIVIL_UNREST" 1; daily 739579 "JP" "CIVIL_UNREST" 3 ].

Definition two_day_spike : Spike :=
  {| sp_as_of := 739579; sp_country_code := "JP";
     sp_risk_type := "CIVIL_UNREST"; sp_today := 3; sp_baseline := 1;
     sp_delta_percent := Fin 200 |}.

(** The command line with the default thresholds. *)
Definition args_of (as_of : option string) (baseline_days : Z) : Args :=
  {| arg_as_of := as_of;
     arg_baseline_days := baseline_days;
     arg_min_baseline_mean := 1;
     arg_min_delta_rel := 1 |}.

(** ** Statements on severities and levels *)

(** The place of a severity on the scale LOW, MEDIUM, HIGH, EXTREME. *)
Definition severity_rank (v : Severity) : Z :=
  match v with
  | LOW => 0
  | MEDIUM => 1
  | HIGH => 2
  | EXTREME => 3
  end.

Definition csv (d : string) (cc rt : string) (today : Z) (b delta : Q)
  : CsvRow :=
  {| csv_as_of := d; csv_country_code := cc; csv_risk_type := rt;
     csv_today := today; csv_baseline := Fin b; csv_delta_percent := Fin delta |}.

(** A file of four rows: one with too few events today, one fall. *)
Definition sample_csv : CsvFrame :=
  {| csv_columns := ["as_of"; "country_code"; "risk_type"; "today";
                     "baseline"; "delta_percent"];
     csv_rows := [ csv "2025-11-24" "JP" "MILITARY" 40 5 700;
                   csv "2025-11-24" "US" "POLITICAL" 8 2 300;
                   csv "2025-11-24" "FR" "ECONOMIC" 12 40 (-70);
                   csv "2025-11-24" "DE" "CIVIL_UNREST" 120 10 1100 ] |}.

(** ** Statements on the sender *)

Definition is_post (a : Action) : bool :=
  match a with
  | Post => true
  | Sleep _ => false
  end.

(** The number of POSTs in a list of actions. *)
Definition posts (trace : list Action) : nat :=
  List.length (filter is_post trace).

(** The POST returned the status 204. *)
Definition is_204 (r : PostResult) : bool :=
  match r with
  | Response status_code _ => status_code =? 204
  | PostRaises => false
  end.

(** A webhook that is rate limited once, fails once and then accepts. *)
Definition flaky_webhook (attempt : Z) : PostResult :=
  if attempt =? 1 then Response 429 (Some "soon")
  else if attempt =? 2 then Response 500 None
  else Response 204 None.

(** ** Statements on the themes column *)

(** A theme as [parse_main_themes] returns them: not empty, without
    comma or semicolon, without blanks at its ends. *)
Definition clean_theme (p : string) : Prop :=
  p <> EmptyString
  /\ PyStr.all_chars (fun c => negb (c =? ";")%char && negb (c =? ",")%char) p
     = true
  /\ PyStr.strip p = p.

(** * Properties *)

(** ** Classification *)

Example upper_mixed : PyStr.upper "Armed_Conflict" = "ARMED_CONFLICT".
Proof. reflexivity. Qed.

Example strip_blanks : PyStr.strip "  141 " = "141".
Proof. reflexivity. Qed.

Example cameo_141 : _classify_by_cameo "141" = Ok (Some RISK_CIVIL_UNREST).
Proof. reflexivity. Qed.

Example cameo_061 : _classify_by_cameo "061" = Ok (Some RISK_ECONOMIC).
Proof. reflexivity. Qed.

Example cameo_leading_blank :
  _classify_by_cameo " 141" = Ok (Some RISK_CIVIL_UNREST).
Proof. reflexivity. Qed.

Example cameo_one_digit : _classify_by_cameo "6" = Ok (Some RISK_ECONOMIC).
Proof. reflexivity. Qed.

Example cameo_unmapped_root : _classify_by_cameo "042" = Ok None.
Proof. reflexivity. Qed.

Ltac each_char c :=
  destruct c as [[] [] [] [] [] [] [] []]; vm_compute; try reflexivity;
  try discriminate.

Lemma upper_app (s t : string) :
  PyStr.upper (s ++ t) = PyStr.upper s ++ PyStr.upper t.
Proof.
  induction s as [|c s IH]; simpl; [reflexivity|].
  rewrite IH.
  generalize (PyStr.upper_char c) as u; intros u.
  induction u as [|d u IHu]; simpl; [reflexivity | now rewrite IHu].
Qed.

Lemma upper_char_fixed (c : ascii) :
  PyStr.upper (PyStr.upper_char c) = PyStr.upper_char c.
Proof. each_char c. Qed.

(** Upper-casing twice is upper-casing once. *)
Lemma upper_idempotent (s : string) :
  PyStr.upper (PyStr.upper s) = PyStr.upper s.
Proof.
  induction s as [|c s IH]; simpl; [reflexivity|].
  now rewrite upper_app, upper_char_fixed, IH.
Qed.

Lemma contains_any_nil (kws : list string) : contains_any [] kws = false.
Proof. reflexivity. Qed.

Lemma theme_labels_first_match (labels : list string) :
  _classify_by_theme_labels labels
  = first_match (map PyStr.upper labels) theme_buckets.
Proof.
  destruct labels as [|l ls]; [reflexivity|].
  unfold _classify_by_theme_labels, first_match, theme_buckets.
  set (up := map PyStr.upper (l :: ls)).
  cbn [find fst snd].
  repeat (match goal with
          | |- context [contains_any up ?k] =>
              destruct (contains_any up k); [reflexivity|]
          end).
  reflexivity.
Qed.

Lemma theme_labels_case_insensitive (labels : list string) :
  _classify_by_theme_labels (map PyStr.upper labels)
  = _classify_by_theme_labels labels.
Proof.
  rewrite !theme_labels_first_match, map_map.
  f_equal. apply map_ext. intros; apply upper_idempotent.
Qed.

(** C3, as stated, fails: the labels "terror" and "protest" match a terror
    keyword and a protest keyword, and the event is classified
    CIVIL_UNREST, not MILITARY, because the protest bucket is tried
    before the terror bucket. *)
Lemma terror_and_protest_is_civil_unrest :
  let labels := ["terror"; "protest"] in
  contains_any (map PyStr.upper labels) kw_terror = true
  /\ contains_any (map PyStr.upper labels) kw_protest = true
  /\ _classify_by_cameo "042" = Ok None
  /\ classify_event_risk (Some "042") labels = Ok RISK_CIVIL_UNREST
  /\ classify_event_risk None labels <> Ok RISK_MILITARY.
Proof. vm_compute. repeat split; discriminate. Qed.

(** C3, amended: the theme labels are upper-cased and searched for the
    keywords of six buckets tried in the order natural disaster,
    military/conflict, protest/unrest, terror, political, economic; the
    first bucket with a keyword inside a label gives the category
    (MILITARY for the terror bucket), and the result does not depend on
    the case of the labels.  In particular labels that match the
    protest/unrest bucket and neither of the two buckets before it are
    classified CIVIL_UNREST, whether or not they match a terror
    keyword. *)
Theorem theme_bucket_precedence (labels : list string) :
  _classify_by_theme_labels labels
  = first_match (map PyStr.upper labels) theme_buckets
  /\ _classify_by_theme_labels (map PyStr.upper labels)
     = _classify_by_theme_labels labels
  /\ (contains_any (map PyStr.upper labels) kw_natural_disaster = false ->
      contains_any (map PyStr.upper labels) kw_military = false ->
      contains_any (map PyStr.upper labels) kw_protest = true ->
      _classify_by_theme_labels labels = Some RISK_CIVIL_UNREST)
  /\ (contains_any (map PyStr.upper labels) kw_natural_disaster = false ->
      contains_any (map PyStr.upper labels) kw_military = false ->
      contains_any (map PyStr.upper labels) kw_protest = false ->
      contains_any (map PyStr.upper labels) kw_terror = true ->
      _classify_by_theme_labels labels = Some RISK_MILITARY).
Proof.
  split; [apply theme_labels_first_match|].
  split; [apply theme_labels_case_insensitive|].
  split; intros; rewrite theme_labels_first_match;
    unfold first_match, theme_buckets; cbn [find fst snd option_map];
    repeat match goal with H : _ = _ |- _ => rewrite H; clear H end;
    reflexivity.
Qed.

Lemma theme_bucket_precedence_witness :
  _classify_by_theme_labels ["Bombing"; "general strike"]
  = Some RISK_CIVIL_UNREST
  /\ _classify_by_theme_labels ["TAX_TERROR"] = Some RISK_MILITARY.
Proof.
  split.
  - apply (theme_bucket_precedence ["Bombing"; "general strike"]);
      reflexivity.
  - apply (theme_bucket_precedence ["TAX_TERROR"]); reflexivity.
Defined.

Lemma digits_value_decimal (s : string) :
  PyStr.all_chars PyStr.isdecimal_char s = true ->
  forall acc, exists n, PyStr.digits_value acc s = Some n.
Proof.
  induction s as [|c s IH]; simpl; intros H acc.
  - now exists acc.
  - apply andb_true_iff in H as [Hc Hs]. rewrite Hc. now apply IH.
Qed.

Lemma digits_value_not_decimal (s : string) :
  PyStr.all_chars PyStr.isdecimal_char s = false ->
  forall acc, PyStr.digits_value acc s = None.
Proof.
  induction s as [|c s IH]; simpl; intros H acc; [discriminate|].
  destruct (PyStr.isdecimal_char c); [now apply IH | reflexivity].
Qed.

Lemma cameo_table_categories (root : Z) (r : string) :
  cameo_table root = Some r -> In r risk_categories.
Proof.
  unfold cameo_table.
  repeat match goal with
         | |- context [if ?b then _ else _] => destruct b
         end; intros [= <-]; simpl; auto 10.
Qed.

Lemma cameo_branches_table (root : Z) :
  (if mem_Z root [18; 19; 20; 15; 17] then Ok (Some RISK_MILITARY)
   else if root =? 14 then Ok (Some RISK_CIVIL_UNREST)
   else if mem_Z root [10; 11; 12; 13; 16] then Ok (Some RISK_POLITICAL)
   else if mem_Z root [6; 7] then Ok (Some RISK_ECONOMIC)
   else Ok None) = Ok (cameo_table root).
Proof.
  unfold cameo_table, mem_Z; cbn [existsb].
  repeat match goal with
         | |- context [Z.eqb ?a ?b] => destruct (Z.eqb_spec a b); subst
         end; cbn; try reflexivity; try lia.
Qed.

(** What [_classify_by_cameo] returns, by the shape of the root. *)
Lemma classify_by_cameo_cases (cameo : string) :
  _classify_by_cameo cameo =
  match cameo with
  | EmptyString => Ok None
  | _ =>
      if negb (PyStr.isdigit (cameo_root_str cameo)) then Ok None
      else match PyStr.digits_value 0 (cameo_root_str cameo) with
           | Some root => Ok (cameo_table root)
           | None => Raise ValueError
           end
  end.
Proof.
  destruct cameo as [|a s]; [reflexivity|].
  unfold _classify_by_cameo. fold (cameo_root_str (String a s)).
  destruct (PyStr.isdigit (cameo_root_str (String a s))) eqn:D;
    cbn [negb]; [|reflexivity].
  unfold PyStr.int.
  destruct (cameo_root_str (String a s)) as [|b t] eqn:E;
    [discriminate D|].
  destruct (PyStr.digits_value 0 (String b t)); cbn [bind];
    [apply cameo_branches_table | reflexivity].
Qed.

Lemma classify_by_cameo_decimal (c : string) :
  cameo_decimal (Some c) = true ->
  exists o, _classify_by_cameo c = Ok o
            /\ forall r, o = Some r -> In r risk_categories.
Proof.
  intros H. rewrite classify_by_cameo_cases.
  destruct c as [|a s]; [exists None; split; [reflexivity | discriminate]|].
  cbn [cameo_decimal] in H.
  destruct (PyStr.isdigit (cameo_root_str (String a s))); cbn [negb orb] in *.
  - destruct (digits_value_decimal _ H 0) as [n ->].
    exists (cameo_table n); split; [reflexivity|].
    intros r; apply cameo_table_categories.
  - exists None; split; [reflexivity | discriminate].
Qed.

Lemma classify_by_cameo_not_decimal (c : string) :
  cameo_decimal (Some c) = false -> _classify_by_cameo c = Raise ValueError.
Proof.
  intros H. rewrite classify_by_cameo_cases. cbn [cameo_decimal] in H.
  apply orb_false_iff in H as [H1 H2].
  destruct c as [|a s]; [discriminate H1|].
  rewrite H1. now rewrite digits_value_not_decimal.
Qed.

Lemma themes_or_other_categories (labels : list string) :
  In (classify_by_themes_or_other labels) risk_categories.
Proof.
  unfold classify_by_themes_or_other.
  destruct labels as [|l ls]; [simpl; auto 10|].
  unfold _classify_by_theme_labels.
  repeat match goal with
         | |- context [if ?b then _ else _] => destruct b
         end; simpl; auto 10.
Qed.

(** Away from the superscript digits the classifier returns, and returns
    one of the six categories. *)
Theorem classify_event_risk_total (cameo : option string)
    (labels : list string) :
  cameo_decimal cameo = true ->
  exists r, classify_event_risk cameo labels = Ok r
            /\ In r risk_categories.
Proof.
  intros H. unfold classify_event_risk.
  destruct cameo as [[|a s]|];
    try (eexists; split; [reflexivity | apply themes_or_other_categories]).
  destruct (classify_by_cameo_decimal _ H) as (o & -> & Ho). cbn [bind].
  destruct o as [r|]; eexists; (split; [reflexivity|]);
    [now apply Ho | apply themes_or_other_categories].
Qed.

(** On a root with a superscript digit it raises, whatever the labels. *)
Theorem classify_event_risk_raises (cameo : option string)
    (labels : list string) :
  cameo_decimal cameo = false ->
  classify_event_risk cameo labels = Raise ValueError.
Proof.
  intros H. unfold classify_event_risk.
  destruct cameo as [[|a s]|]; try discriminate H.
  now rewrite (classify_by_cameo_not_decimal _ H).
Qed.

Lemma decimal_not_space (c : ascii) :
  PyStr.isdecimal_char c = true -> PyStr.isspace_char c = false.
Proof. each_char c. Qed.

Lemma decimal_is_digit (c : ascii) :
  PyStr.isdecimal_char c = true -> PyStr.isdigit_char c = true.
Proof. unfold PyStr.isdigit_char; now intros ->. Qed.

Lemma rstrip_cons (c : ascii) (s : string) :
  PyStr.isspace_char c = false ->
  PyStr.rstrip (String c s) = String c (PyStr.rstrip s).
Proof.
  intros H; cbn [PyStr.rstrip]. rewrite H. now destruct (PyStr.rstrip s).
Qed.

Lemma root_of_two_decimals (a b : ascii) (rest : string) :
  PyStr.isdecimal_char a = true -> PyStr.isdecimal_char b = true ->
  cameo_root_str (String a (String b rest)) = String a (String b EmptyString).
Proof.
  intros Ha Hb. unfold cameo_root_str, PyStr.strip.
  cbn [PyStr.lstrip]. rewrite (decimal_not_space _ Ha).
  rewrite !rstrip_cons by now apply decimal_not_space.
  reflexivity.
Qed.

(** When the first two characters of the action code are decimal digits,
    the code reads the root they spell off the table. *)
Theorem classify_by_cameo_two_digits (a b : ascii) (rest : string) :
  PyStr.isdecimal_char a = true -> PyStr.isdecimal_char b = true ->
  _classify_by_cameo (String a (String b rest))
  = Ok (cameo_table (10 * digit_of a + digit_of b)).
Proof.
  intros Ha Hb. rewrite classify_by_cameo_cases, root_of_two_decimals by easy.
  cbn [PyStr.isdigit PyStr.all_chars PyStr.digits_value].
  rewrite (decimal_is_digit _ Ha), (decimal_is_digit _ Hb), Ha, Hb.
  cbn [andb negb]. unfold digit_of.
  replace (10 * (10 * 0 + (Z.of_N (PyStr.code a) - 48))
           + (Z.of_N (PyStr.code b) - 48))
    with (10 * (Z.of_N (PyStr.code a) - 48) + (Z.of_N (PyStr.code b) - 48))
    by lia.
  reflexivity.
Qed.

(** The coded mapping goes before the themes; an unmapped root leaves
    the decision to the themes, and OTHER is what remains. *)
Theorem coded_mapping_precedes_themes (a b : ascii) (rest : string)
    (labels : list string) :
  PyStr.isdecimal_char a = true -> PyStr.isdecimal_char b = true ->
  classify_event_risk (Some (String a (String b rest))) labels
  = Ok match cameo_table (10 * digit_of a + digit_of b) with
       | Some r => r
       | None => match _classify_by_theme_labels labels with
                 | Some r => r
                 | None => RISK_OTHER
                 end
       end.
Proof.
  intros Ha Hb. unfold classify_event_risk.
  rewrite classify_by_cameo_two_digits by easy. cbn [bind].
  destruct (cameo_table _); [reflexivity|].
  unfold classify_by_themes_or_other. now destruct labels.
Qed.

Example coded_before_theme :
  classify_event_risk (Some "141") ["EARTHQUAKE"] = Ok RISK_CIVIL_UNREST.
Proof. reflexivity. Qed.

Example unmapped_root_uses_theme :
  classify_event_risk (Some "042") ["EARTHQUAKE"] = Ok RISK_NATURAL_DISASTER.
Proof. reflexivity. Qed.

Example nothing_matches :
  classify_event_risk (Some "042") ["SPORT"] = Ok RISK_OTHER.
Proof. reflexivity. Qed.

(** C4: the classifier is not total.  For the action code made of the
    superscript two (U+00B2) and the digit five, [isdigit] accepts the
    root, [int] rejects it, and the call raises ValueError instead of
    returning a category, whatever the theme labels. *)
Theorem classify_event_risk_superscript_root (labels : list string) :
  PyStr.isdigit (cameo_root_str (String superscript_two "5")) = true
  /\ classify_event_risk (Some (String superscript_two "5")) labels
     = Raise ValueError.
Proof.
  split; [reflexivity|].
  apply classify_event_risk_raises. reflexivity.
Qed.

(** ** Grouping *)

Section FramesFacts.

Context {R K : Type}.
Variable key : R -> K.
Variable key_eq_dec : forall a b : K, {a = b} + {a <> b}.
Variable key_leb : K -> K -> bool.

Lemma insert_sorted_perm (k : K) (ks : list K) :
  Permutation (k :: ks) (insert_sorted key_leb k ks).
Proof.
  induction ks as [|k' ks IH]; simpl; [reflexivity|].
  destruct (key_leb k k'); [reflexivity|].
  rewrite perm_swap. now constructor.
Qed.

Lemma sort_keys_perm (ks : list K) :
  Permutation ks (sort_keys key_leb ks).
Proof.
  induction ks as [|k ks IH]; simpl; [reflexivity|].
  rewrite <- insert_sorted_perm. now constructor.
Qed.

Lemma group_keys_NoDup (rows : list R) :
  NoDup (group_keys key key_eq_dec key_leb rows).
Proof.
  unfold group_keys.
  eapply Permutation_NoDup; [apply sort_keys_perm | apply NoDup_nodup].
Qed.

Lemma group_keys_In (rows : list R) (k : K) :
  In k (group_keys key key_eq_dec key_leb rows)
  <-> exists r, In r rows /\ key r = k.
Proof.
  unfold group_keys. split.
  - intros H.
    apply (Permutation_in _ (Permutation_sym (sort_keys_perm _))) in H.
    apply nodup_In, in_map_iff in H as (r & Hr & Hin). eauto.
  - intros (r & Hin & Hr).
    apply (Permutation_in _ (sort_keys_perm _)).
    apply nodup_In, in_map_iff. eauto.
Qed.

Lemma group_In (rows : list R) (k : K) (r : R) :
  In r (group key key_eq_dec rows k) <-> In r rows /\ key r = k.
Proof.
  unfold group. rewrite filter_In.
  destruct (key_eq_dec (key r) k) as [E|E]; split; intros [H1 H2];
    (split; [exact H1|]); [exact E | reflexivity | discriminate
    | contradiction].
Qed.

Lemma group_nil (rows : list R) (k : K) :
  group key key_eq_dec rows k = []
  <-> ~ In k (group_keys key key_eq_dec key_leb rows).
Proof.
  rewrite group_keys_In. split.
  - intros E (r & Hin & Hr).
    assert (In r (group key key_eq_dec rows k)) as Hg
        by now apply group_In.
    now rewrite E in Hg.
  - intros H. destruct (group key key_eq_dec rows k) as [|r g] eqn:E;
      [reflexivity|].
    exfalso; apply H. exists r. apply group_In. rewrite E. now left.
Qed.

Lemma lookup_tabulate {V : Type} (f : K -> V) (ks : list K) (k : K) :
  lookup key_eq_dec k (map (fun x => (x, f x)) ks)
  = if in_dec key_eq_dec k ks then Some (f k) else None.
Proof.
  induction ks as [|k' ks IH]; simpl; [reflexivity|].
  destruct (key_eq_dec k k') as [->|Hne].
  - now destruct (key_eq_dec k' k').
  - rewrite IH. destruct (key_eq_dec k' k); [congruence|].
    now destruct (in_dec key_eq_dec k ks).
Qed.

(** A key has a row in the grouped frame exactly when its group is not
    empty, and the row holds the aggregate of the group. *)
Lemma lookup_groupby {V : Type} (agg : list R -> V) (rows : list R)
    (k : K) :
  lookup key_eq_dec k (groupby key key_eq_dec key_leb agg rows)
  = match group key key_eq_dec rows k with
    | [] => None
    | g => Some (agg g)
    end.
Proof.
  unfold groupby. rewrite lookup_tabulate.
  destruct (in_dec _ _ _) as [Hin|Hnin].
  - destruct (group key key_eq_dec rows k) eqn:E; [|reflexivity].
    now apply group_nil in E.
  - apply group_nil in Hnin. now rewrite Hnin.
Qed.

Lemma groupby_keys {V : Type} (agg : list R -> V) (rows : list R) :
  map fst (groupby key key_eq_dec key_leb agg rows)
  = group_keys key key_eq_dec key_leb rows.
Proof.
  unfold groupby. rewrite map_map. simpl. apply map_id.
Qed.

Lemma groupby_In {V : Type} (agg : list R -> V) (rows : list R)
    (k : K) (v : V) :
  In (k, v) (groupby key key_eq_dec key_leb agg rows)
  <-> In k (group_keys key key_eq_dec key_leb rows)
      /\ v = agg (group key key_eq_dec rows k).
Proof.
  unfold groupby. rewrite in_map_iff. split.
  - intros (k' & [= -> ->] & Hin). auto.
  - intros (Hin & ->). eauto.
Qed.

End FramesFacts.

(** ** Sorting *)

Lemma Qle_bool_total (a b : Q) : Qle_bool a b = true \/ Qle_bool b a = true.
Proof.
  rewrite !Qle_bool_iff. destruct (Qlt_le_dec a b) as [H|H]; auto.
  left. now apply Qlt_le_weak.
Qed.

Lemma Qle_bool_trans (a b c : Q) :
  Qle_bool a b = true -> Qle_bool b c = true -> Qle_bool a c = true.
Proof. rewrite !Qle_bool_iff. apply Qle_trans. Qed.

Lemma f64_desc_total (x y : F64) :
  f64_desc x y = true \/ f64_desc y x = true.
Proof.
  destruct x, y; simpl; auto. apply or_comm, Qle_bool_total.
Qed.

Lemma f64_desc_trans (x y z : F64) :
  f64_desc x y = true -> f64_desc y z = true -> f64_desc x z = true.
Proof.
  destruct x, y, z; simpl; try easy. intros; eapply Qle_bool_trans; eauto.
Qed.

Section InsertionSortFacts.

Context {A : Type}.
Variable f : A -> F64.
Variable before : F64 -> F64 -> bool.
(** The order the sort is meant to establish. *)
Variable ord : F64 -> F64 -> bool.
Hypothesis ord_trans :
  forall x y z, ord x y = true -> ord y z = true -> ord x z = true.
Hypothesis before_ord :
  forall x y, before x y = true -> ord x y = true.
Hypothesis not_before_ord :
  forall x y, before x y = false -> ord y x = true.

Let sorted (x y : A) : Prop := ord (f x) (f y) = true.

Lemma insert_row_perm (x : A) (l : list A) :
  Permutation (x :: l) (insert_row f before x l).
Proof.
  induction l as [|y l IH]; simpl; [reflexivity|].
  destruct (before (f x) (f y)); [reflexivity|].
  rewrite perm_swap. now constructor.
Qed.

Lemma insertion_sort_perm (l : list A) :
  Permutation l (insertion_sort f before l).
Proof.
  induction l as [|x l IH]; simpl; [reflexivity|].
  rewrite <- insert_row_perm. now constructor.
Qed.

Lemma insert_row_sorted (x : A) (l : list A) :
  StronglySorted sorted l -> StronglySorted sorted (insert_row f before x l).
Proof.
  induction 1 as [|y l Hs IH Hall]; simpl.
  - repeat constructor.
  - destruct (before (f x) (f y)) eqn:E.
    + constructor; [now constructor|].
      apply before_ord in E. constructor; [exact E|].
      eapply Forall_impl; [|exact Hall].
      intros z Hz. unfold sorted in *. eapply ord_trans; eauto.
    + constructor; [exact IH|].
      apply not_before_ord in E.
      eapply Permutation_Forall; [apply insert_row_perm|].
      now constructor.
Qed.

Lemma insertion_sort_sorted (l : list A) :
  StronglySorted sorted (insertion_sort f before l).
Proof.
  induction l as [|x l IH]; simpl; [constructor|].
  now apply insert_row_sorted.
Qed.

End InsertionSortFacts.

Lemma f64_desc_false (x y : F64) :
  f64_desc x y = false -> f64_desc y x = true.
Proof.
  intros H. destruct (f64_desc_total x y) as [E|E]; [congruence | exact E].
Qed.

Lemma not_before_stable_desc (x y : F64) :
  before_stable x y = false -> f64_desc y x = true.
Proof. apply f64_desc_false. Qed.

(** A sort that keeps rows with equal keys in their order, as
    [kind="stable"] does. *)
Definition stable_sorter : Sorter :=
  {| sort_values := fun A f => insertion_sort f before_stable;
     sort_values_perm := fun A f => insertion_sort_perm f before_stable;
     sort_values_desc := fun A f =>
       insertion_sort_sorted f before_stable f64_desc f64_desc_trans
         (fun x y H => H) not_before_stable_desc |}.

(** *** The sort of pandas and numpy on a short frame *)

(** Saturates the context with the order facts that follow from the
    outcomes of the compare-exchanges. *)
Ltac order_facts :=
  repeat match goal with
         | H : f64_desc ?x ?y = false |- _ =>
             lazymatch goal with
             | _ : f64_desc y x = true |- _ => fail
             | _ => pose proof (f64_desc_false _ _ H)
             end
         end;
  repeat match goal with
         | H1 : f64_desc ?x ?y = true, H2 : f64_desc ?y ?z = true |- _ =>
             lazymatch goal with
             | _ : f64_desc x z = true |- _ => fail
             | _ => pose proof (f64_desc_trans _ _ _ H1 H2)
             end
         end.

(** Splits on the outcome of every compare-exchange of a network. *)
Ltac network_cases :=
  repeat (match goal with
          | |- context [compare_exchange ?f ?x ?y] =>
              unfold compare_exchange at 1;
              let E := fresh "E" in
              destruct (f64_desc (f y) (f x)) eqn:E
          end; cbv beta iota zeta).

(** Proves that one short list is a rearrangement of another. *)
Ltac rearranged :=
  repeat match goal with
         | |- Permutation [] [] => constructor
         | |- Permutation (?a :: _) (?a :: _) => apply perm_skip
         | |- Permutation (?a :: _) (?x :: ?a :: ?t) =>
             apply (Permutation_cons_app [x] t a); cbn [app]
         | |- Permutation (?a :: _) (?x :: ?y :: ?a :: ?t) =>
             apply (Permutation_cons_app [x; y] t a); cbn [app]
         | |- Permutation (?a :: _) (?x :: ?y :: ?z :: ?a :: ?t) =>
             apply (Permutation_cons_app [x; y; z] t a); cbn [app]
         end.

Section NargsortFacts.

Context {A : Type}.
Variable f : A -> F64.

Let ascending (x y : A) : Prop := f64_desc (f y) (f x) = true.
Let descending (x y : A) : Prop := f64_desc (f x) (f y) = true.

Lemma argsort_perm (rows : list A) : Permutation rows (argsort f rows).
Proof.
  destruct rows as [|a [|b [|c [|d [|e rows]]]]].
  - apply (insertion_sort_perm f before_ascending []).
  - apply (insertion_sort_perm f before_ascending [a]).
  - unfold argsort; network_cases; rearranged.
  - unfold argsort; network_cases; rearranged.
  - unfold argsort; network_cases; rearranged.
  - apply (insertion_sort_perm f before_ascending (a :: b :: c :: d :: e :: rows)).
Qed.

Lemma insertion_sort_ascending (rows : list A) :
  StronglySorted ascending (insertion_sort f before_ascending rows).
Proof.
  apply (insertion_sort_sorted f before_ascending (fun x y => f64_desc y x)).
  - intros x y z H1 H2. eapply f64_desc_trans; eauto.
  - intros x y H. exact H.
  - intros x y H. now apply f64_desc_false.
Qed.

(** Closes a goal on the order of two keys from the outcomes of the
    compare-exchanges. *)
Ltac by_order :=
  match goal with
  | |- f64_desc ?x ?y = true =>
      destruct (f64_desc x y) eqn:?; [reflexivity|]; order_facts;
      match goal with
      | H : false = true |- _ => discriminate H
      | H : true = false |- _ => discriminate H
      | H1 : ?t = true, H2 : ?t = false |- _ =>
          rewrite H1 in H2; discriminate H2
      end
  end.

Lemma argsort_sorted (rows : list A) :
  StronglySorted ascending (argsort f rows).
Proof.
  destruct rows as [|a [|b [|c [|d [|e rows]]]]].
  - apply (insertion_sort_ascending []).
  - apply (insertion_sort_ascending [a]).
  - unfold argsort; network_cases; repeat constructor; unfold ascending;
      by_order.
  - unfold argsort; network_cases; repeat constructor; unfold ascending;
      by_order.
  - unfold argsort; network_cases; repeat constructor; unfold ascending;
      by_order.
  - apply (insertion_sort_ascending (a :: b :: c :: d :: e :: rows)).
Qed.

Lemma filter_split (p : A -> bool) (l : list A) :
  Permutation l (filter (fun x => negb (p x)) l ++ filter p l)%list.
Proof.
  induction l as [|x l IH]; simpl; [constructor|].
  destruct (p x); simpl.
  - now apply Permutation_cons_app.
  - now constructor.
Qed.

Lemma StronglySorted_snoc (R : A -> A -> Prop) (l : list A) (x : A) :
  StronglySorted R l -> Forall (fun y => R y x) l ->
  StronglySorted R (l ++ [x]).
Proof.
  induction 1 as [|y l Hs IH Hall]; intros Hx; simpl.
  - repeat constructor.
  - inversion Hx as [|? ? Hy Hl]; subst. constructor; [now apply IH|].
    apply Forall_app. split; [exact Hall | now repeat constructor].
Qed.

Lemma StronglySorted_rev (R : A -> A -> Prop) (l : list A) :
  StronglySorted (fun x y => R y x) l -> StronglySorted R (rev l).
Proof.
  induction 1 as [|x l Hs IH Hall]; simpl; [constructor|].
  apply StronglySorted_snoc; [exact IH|].
  apply Forall_rev. exact Hall.
Qed.

Lemma nargsort_perm (rows : list A) : Permutation rows (nargsort f rows).
Proof.
  unfold nargsort.
  rewrite (filter_split (fun r => isnan (f r)) rows) at 1.
  apply Permutation_app_tail.
  rewrite <- Permutation_rev, <- argsort_perm, <- Permutation_rev.
  reflexivity.
Qed.

Lemma nargsort_sorted (rows : list A) :
  StronglySorted descending (nargsort f rows).
Proof.
  unfold nargsort.
  set (nans := filter (fun r => isnan (f r)) rows).
  assert (Forall (fun r => f r = NaN) nans) as Hnan.
  { apply Forall_forall. intros r Hr. apply filter_In in Hr as [_ Hr].
    now destruct (f r). }
  assert (forall l, StronglySorted descending l ->
                    StronglySorted descending (l ++ nans)) as Happ.
  { induction 1 as [|x l Hs IH Hall]; simpl.
    - clear - Hnan. induction Hnan as [|r l Hr Hl IH]; constructor; [exact IH|].
      eapply Forall_impl; [|exact Hl].
      intros y Hy. unfold descending. rewrite Hy. now destruct (f r).
    - constructor; [exact IH|]. apply Forall_app. split; [exact Hall|].
      eapply Forall_impl; [|exact Hnan].
      intros y Hy. unfold descending. rewrite Hy. now destruct (f x). }
  apply Happ, StronglySorted_rev, argsort_sorted.
Qed.

End NargsortFacts.

(** [sort_values] as pandas and numpy carry it out. *)
Definition pandas_sorter : Sorter :=
  {| sort_values := fun A f => nargsort f;
     sort_values_perm := fun A f => nargsort_perm f;
     sort_values_desc := fun A f => nargsort_sorted f |}.

(** ** Baselines *)

Lemma merge_left_groupby (agg : list DailyRow -> Z) (rows : list DailyRow)
    (base : list (Pair * Q)) :
  merge_left (groupby pair_of Pair_eq_dec Pair_leb agg rows) base
  = map (fun k => {| m_country_code := fst k;
                     m_risk_type := snd k;
                     m_today := agg (group pair_of Pair_eq_dec rows k);
                     m_baseline := lookup Pair_eq_dec k base |})
        (group_keys pair_of Pair_eq_dec Pair_leb rows).
Proof. unfold merge_left, groupby. now rewrite map_map. Qed.

Lemma first_merge_eq (t : list DailyRow) (a bd : Z) :
  first_merge t a (a - bd) (a - 1)
  = map (fun k => {| m_country_code := fst k;
                     m_risk_type := snd k;
                     m_today := sum_int64 (rows_of_pair (df_today t a) k);
                     m_baseline :=
                       match rows_of_pair (df_base t (a - bd) (a - 1)) k with
                       | [] => None
                       | g => Some (mean_count g)
                       end |})
        (today_pairs t a).
Proof.
  unfold first_merge, agg_today, agg_base. rewrite merge_left_groupby.
  apply map_ext. intros k. unfold rows_of_pair.
  now rewrite lookup_groupby.
Qed.

(** The frame at the [dropna] has one row for each pair of today, with
    the baseline the two-step rule gives it. *)
Lemma merged_baselines_eq (t : list DailyRow) (a bd : Z) :
  merged_baselines t a (a - bd) (a - 1) = map (merged_row t a bd) (today_pairs t a).
Proof.
  unfold merged_baselines. rewrite first_merge_eq.
  destruct (existsb isna _) eqn:E.
  - unfold fill_fallback. rewrite map_map. apply map_ext.
    intros [c r]. unfold merged_row, baseline_record, m_pair, isna, fb.
    cbn [m_baseline m_country_code m_risk_type m_today fst snd].
    rewrite lookup_groupby. fold (rows_of_pair (df_all_before t a) (c, r)).
    destruct (rows_of_pair (df_base t (a - bd) (a - 1)) (c, r)); [|reflexivity].
    now destruct (rows_of_pair (df_all_before t a) (c, r)).
  - apply map_ext_in. intros k Hk.
    unfold merged_row, baseline_record. f_equal.
    destruct (rows_of_pair (df_base t (a - bd) (a - 1)) k) eqn:G; [|reflexivity].
    exfalso. rewrite <- not_true_iff_false in E. apply E.
    apply existsb_exists. eexists. split.
    + apply in_map_iff. exists k. split; [reflexivity | exact Hk].
    + unfold isna. cbn [m_baseline]. now rewrite G.
Qed.

Lemma today_pairs_In (t : list DailyRow) (a : Z) (k : Pair) :
  In k (today_pairs t a) <-> rows_of_pair (df_today t a) k <> [].
Proof.
  unfold today_pairs, rows_of_pair.
  pose proof (group_nil pair_of Pair_eq_dec Pair_leb (df_today t a) k) as H.
  destruct (in_dec Pair_eq_dec k
              (group_keys pair_of Pair_eq_dec Pair_leb (df_today t a)));
    tauto.
Qed.

Lemma merged_row_pair (t : list DailyRow) (a bd : Z) (k : Pair) :
  m_pair (merged_row t a bd k) = k.
Proof. now destruct k. Qed.

Lemma merged_baselines_In (t : list DailyRow) (a bd : Z) (m : Merged) :
  In m (merged_baselines t a (a - bd) (a - 1))
  <-> rows_of_pair (df_today t a) (m_pair m) <> []
      /\ m = merged_row t a bd (m_pair m).
Proof.
  rewrite merged_baselines_eq, in_map_iff. split.
  - intros (k & <- & Hk). rewrite merged_row_pair.
    split; [now apply today_pairs_In | reflexivity].
  - intros (Hk & Hm). exists (m_pair m). split; [now symmetry|].
    now apply today_pairs_In.
Qed.

Lemma filter_map_In {A B : Type} (f : A -> option B) (l : list A) (y : B) :
  In y (filter_map f l) <-> exists x, In x l /\ f x = Some y.
Proof.
  induction l as [|x l IH]; simpl.
  - split; [easy | now intros (? & [] & _)].
  - destruct (f x) as [z|] eqn:E; simpl; rewrite IH; split.
    + intros [<-|(x' & ? & ?)]; eauto.
    + intros (x' & [<-|?] & ?); [left; congruence | eauto].
    + intros (x' & ? & ?); eauto.
    + intros (x' & [<-|?] & ?); [congruence | eauto].
Qed.

Lemma filter_map_ext_in {A B : Type} (f g : A -> option B) (l : list A) :
  (forall x, In x l -> f x = g x) -> filter_map f l = filter_map g l.
Proof.
  induction l as [|x l IH]; intros H; [reflexivity|]. cbn [filter_map].
  rewrite (H x (or_introl eq_refl)), IH by (intros; apply H; now right).
  reflexivity.
Qed.

(** The window never reaches [as_of_date]: its rows are earlier rows. *)
Lemma window_rows_are_before (t : list DailyRow) (a bd : Z) (k : Pair) :
  rows_of_pair (df_all_before t a) k = [] ->
  rows_of_pair (df_base t (a - bd) (a - 1)) k = [].
Proof.
  intros H.
  destruct (rows_of_pair (df_base t (a - bd) (a - 1)) k) as [|r g] eqn:E; [reflexivity|].
  assert (In r (rows_of_pair (df_all_before t a) k)) as Hin.
  { assert (In r (rows_of_pair (df_base t (a - bd) (a - 1)) k)) as Hr
        by (rewrite E; now left).
    unfold rows_of_pair in *. rewrite group_In in Hr. destruct Hr as [Hr Hk].
    rewrite group_In. split; [|exact Hk].
    unfold df_base, df_all_before, in_window in *.
    rewrite filter_In in Hr. destruct Hr as [Hr Hw].
    rewrite filter_In. split; [exact Hr|].
    apply andb_true_iff in Hw. destruct Hw as [_ Hw].
    apply Z.leb_le in Hw. apply Z.ltb_lt. lia. }
  now rewrite H in Hin.
Qed.

(** ** The window *)

Lemma baseline_window_Ok (a bd : Z) (w : Z * Z) :
  baseline_window a bd = Ok w
  <-> window_dates_exist a bd /\ w = (a - bd, a - 1).
Proof.
  unfold baseline_window, window_dates_exist, timedelta, date_sub,
    MINORDINAL, MAXORDINAL.
  change (Z.abs 1 <=? 999999999) with true. cbv beta iota zeta.
  destruct (Z.leb_spec (Z.abs bd) 999999999); cbn [bind];
    [|split; [discriminate | lia]].
  destruct (Z.leb_spec 1 (a - bd)), (Z.leb_spec (a - bd) 3652059);
    cbn [bind andb]; try (split; [discriminate | lia]).
  destruct (Z.leb_spec 1 (a - 1)), (Z.leb_spec (a - 1) 3652059);
    cbn [bind andb]; try (split; [discriminate | lia]).
  split.
  - intros [= <-]. split; [lia | reflexivity].
  - intros [_ ->]. reflexivity.
Qed.

Lemma baseline_window_Raise (a bd : Z) (e : exn) :
  baseline_window a bd = Raise e
  <-> ~ window_dates_exist a bd /\ e = OverflowError.
Proof.
  unfold baseline_window, window_dates_exist, timedelta, date_sub,
    MINORDINAL, MAXORDINAL.
  change (Z.abs 1 <=? 999999999) with true. cbv beta iota zeta.
  destruct (Z.leb_spec (Z.abs bd) 999999999); cbn [bind];
    [|split; [intros [= <-]; split; [lia | reflexivity] | now intros [_ ->]]].
  destruct (Z.leb_spec 1 (a - bd)), (Z.leb_spec (a - bd) 3652059);
    cbn [bind andb];
    try (split; [intros [= <-]; split; [lia | reflexivity] | now intros [_ ->]]).
  destruct (Z.leb_spec 1 (a - 1)), (Z.leb_spec (a - 1) 3652059);
    cbn [bind andb];
    try (split; [intros [= <-]; split; [lia | reflexivity] | now intros [_ ->]]).
  split; [discriminate|]. intros [Hn _]. exfalso. apply Hn. lia.
Qed.

(** A call that returns has formed its window, and returns the frame of
    that window. *)
Lemma detect_spikes_Ok (S : Sorter) (t : list DailyRow) (a bd : Z)
    (mb md : Q) (out : list Spike) :
  detect_spikes S t a bd mb md = Ok out
  <-> window_dates_exist a bd
      /\ out = spikes_in_window S t a (a - bd) (a - 1) mb md.
Proof.
  unfold detect_spikes.
  destruct (baseline_window a bd) as [w|e] eqn:E; cbn [bind].
  - apply baseline_window_Ok in E as [Hw ->]. cbn [fst snd]. split.
    + intros [= <-]. auto.
    + intros [_ ->]. reflexivity.
  - apply baseline_window_Raise in E as [Hn _]. split; [discriminate|].
    intros [Hw _]. contradiction.
Qed.

(** ** The returned frame *)

Lemma scored_rows_no_today (t : list DailyRow) (a bd : Z) (mb : Q) :
  df_today t a = [] -> scored_rows t a (a - bd) (a - 1) mb = [].
Proof.
  intros H. unfold scored_rows. rewrite merged_baselines_eq.
  unfold today_pairs. now rewrite H.
Qed.

(** The returned rows are the scored rows that pass the delta threshold,
    each once, with the date put in front. *)
Lemma spikes_in_window_perm (S : Sorter) (t : list DailyRow) (a bd : Z)
    (mb md : Q) :
  Permutation
    (map (with_as_of a) (filter (passes_delta md) (scored_rows t a (a - bd) (a - 1) mb)))
    (spikes_in_window S t a (a - bd) (a - 1) mb md).
Proof.
  unfold spikes_in_window. destruct (df_today t a) eqn:E.
  - now rewrite scored_rows_no_today.
  - apply Permutation_map, sort_values_perm.
Qed.

Lemma spikes_in_window_In (S : Sorter) (t : list DailyRow) (a bd : Z)
    (mb md : Q) (s : Spike) :
  In s (spikes_in_window S t a (a - bd) (a - 1) mb md)
  <-> exists c, In c (scored_rows t a (a - bd) (a - 1) mb)
                /\ passes_delta md c = true
                /\ s = with_as_of a c.
Proof.
  split.
  - intros H.
    apply (Permutation_in _ (Permutation_sym (spikes_in_window_perm _ _ _ _ _ _)))
      in H.
    apply in_map_iff in H as (c & <- & Hc).
    apply filter_In in Hc as [Hc Hp]. eauto.
  - intros (c & Hc & Hp & ->).
    apply (Permutation_in _ (spikes_in_window_perm _ _ _ _ _ _)).
    apply in_map. apply filter_In. auto.
Qed.

(** A scored row is the row of a pair of today whose baseline is defined
    and not below the minimum. *)
Lemma scored_rows_In (t : list DailyRow) (a bd : Z) (mb : Q) (c : Scored) :
  In c (scored_rows t a (a - bd) (a - 1) mb)
  <-> exists k b,
      rows_of_pair (df_today t a) k <> []
      /\ option_map fst (baseline_record t a bd k) = Some b
      /\ Qle_bool mb b = true
      /\ c = {| c_country_code := fst k;
                c_risk_type := snd k;
                c_today := sum_int64 (rows_of_pair (df_today t a) k);
                c_baseline := b;
                c_delta_percent :=
                  delta_of (sum_int64 (rows_of_pair (df_today t a) k)) b |}.
Proof.
  unfold scored_rows. rewrite filter_map_In. split.
  - intros (m & Hm & Hs). apply merged_baselines_In in Hm as [Hk Hm].
    exists (m_pair m). rewrite Hm in Hs. unfold score in Hs.
    cbn [m_baseline merged_row m_country_code m_risk_type m_today] in Hs.
    destruct (option_map fst (baseline_record t a bd (m_pair m))) as [b|];
      [|discriminate].
    exists b. destruct (Qle_bool mb b) eqn:Hb; [|discriminate].
    injection Hs as <-. auto.
  - intros (k & b & Hk & Hb & Hmb & ->).
    exists (merged_row t a bd k). split.
    + apply merged_baselines_In. rewrite merged_row_pair. auto.
    + unfold score. cbn [m_baseline merged_row]. rewrite Hb, Hmb.
      reflexivity.
Qed.

Lemma StronglySorted_map {A B : Type} (f : A -> B) (R : B -> B -> Prop)
    (l : list A) :
  StronglySorted (fun x y => R (f x) (f y)) l -> StronglySorted R (map f l).
Proof.
  induction 1 as [|x l Hs IH Hall]; simpl; constructor; [exact IH|].
  apply Forall_map. exact Hall.
Qed.

Lemma passes_delta_not_nan (md : Q) (c : Scored) :
  passes_delta md c = true -> c_delta_percent c <> NaN.
Proof. unfold passes_delta. now destruct (c_delta_percent c). Qed.

Lemma first_merge_In (t : list DailyRow) (a bd : Z) (m0 : Merged) :
  In m0 (first_merge t a (a - bd) (a - 1)) ->
  rows_of_pair (df_today t a) (m_pair m0) <> []
  /\ m_baseline m0
     = match rows_of_pair (df_base t (a - bd) (a - 1)) (m_pair m0) with
       | [] => None
       | g => Some (mean_count g)
       end.
Proof.
  rewrite first_merge_eq, in_map_iff. intros ([c r] & <- & Hk).
  split; [now apply today_pairs_In | reflexivity].
Qed.

Lemma lookup_fb (t : list DailyRow) (a : Z) (k : Pair) :
  lookup Pair_eq_dec k (fb t a)
  = match rows_of_pair (df_all_before t a) k with
    | [] => None
    | g => Some (mean_count g)
    end.
Proof. unfold fb. now rewrite lookup_groupby. Qed.

(** *** The code's frames and the counts of the specification *)

Lemma filter_andb {A : Type} (p q : A -> bool) (l : list A) :
  filter (fun x => p x && q x) l = filter p (filter q l).
Proof.
  induction l as [|x l IH]; simpl; [reflexivity|].
  destruct (q x); simpl; rewrite ?andb_true_r, ?andb_false_r, IH;
    reflexivity.
Qed.

Lemma window_counts_eq (t : list DailyRow) (a bd : Z) (k : Pair) :
  window_counts t a bd k
  = map count (rows_of_pair (df_base t (a - bd) (a - 1)) k).
Proof.
  unfold window_counts, rows_of_pair, group, df_base, in_window, is_pair.
  now rewrite filter_andb.
Qed.

Lemma earlier_counts_eq (t : list DailyRow) (a : Z) (k : Pair) :
  earlier_counts t a k = map count (rows_of_pair (df_all_before t a) k).
Proof.
  unfold earlier_counts, rows_of_pair, group, df_all_before, is_pair.
  now rewrite filter_andb.
Qed.

Lemma today_counts_eq (t : list DailyRow) (a : Z) (k : Pair) :
  today_counts t a k = map count (rows_of_pair (df_today t a) k).
Proof.
  unfold today_counts, rows_of_pair, group, df_today, is_pair.
  now rewrite filter_andb.
Qed.

Lemma map_nil_iff {A B : Type} (f : A -> B) (l : list A) :
  map f l = [] <-> l = [].
Proof. destruct l; simpl; split; congruence. Qed.

(** The mean the code computes is the sum of the counts over their
    number. *)
Lemma mean_count_spec (g : list DailyRow) :
  g <> [] -> (mean_count g == mean_of (map count g))%Q.
Proof.
  intros Hg. unfold mean_count, mean_of, sum_count.
  rewrite Qred_correct, length_map.
  destruct g as [|r g]; [contradiction|].
  rewrite (Qmake_Qdiv (sum_Z (map count (r :: g)))).
  rewrite <- positive_nat_Z, Nat2Pos.id by (simpl; discriminate).
  reflexivity.
Qed.

Example recent_table_spikes :
  detect_spikes pandas_sorter recent_table (nov 24) 7 1 1 = Ok [jp_spike]
  /\ window_counts recent_table (nov 24) 7 ("JP", "MILITARY") = [2].
Proof. vm_compute. split; reflexivity. Qed.

Example old_table_spikes :
  detect_spikes pandas_sorter old_table (nov 24) 7 1 1 = Ok [jp_spike]
  /\ window_counts old_table (nov 24) 7 ("JP", "MILITARY") = []
  /\ earlier_counts old_table (nov 24) ("JP", "MILITARY") = [2].
Proof. vm_compute. repeat split; reflexivity. Qed.

(** C2, as stated, fails: the returned record has the columns [as_of],
    [country_code], [risk_type], [today], [baseline] and [delta_percent]
    and no source tag, and none can be read off it: a table whose pair
    is served by the window and a table whose pair is served by the
    fallback return the same record. *)
Lemma source_not_in_record :
  ~ exists tag : Spike -> Source,
      forall (S : Sorter) (t : list DailyRow) (a bd : Z) (mb md : Q)
             (out : list Spike) (s : Spike),
        detect_spikes S t a bd mb md = Ok out -> In s out ->
        (tag s = fallback <-> window_counts t a bd (sp_pair s) = []).
Proof.
  intros [tag H].
  destruct recent_table_spikes as [R1 R2], old_table_spikes as (O1 & O2 & _).
  pose proof (H pandas_sorter recent_table (nov 24) 7 1%Q 1%Q _ jp_spike R1
                (or_introl eq_refl)) as H1.
  pose proof (H pandas_sorter old_table (nov 24) 7 1%Q 1%Q _ jp_spike O1
                (or_introl eq_refl)) as H2.
  change (sp_pair jp_spike) with ("JP", "MILITARY") in H1, H2.
  rewrite R2 in H1. rewrite O2 in H2.
  destruct H2 as [_ H2]. specialize (H2 eq_refl).
  destruct H1 as [H1 _]. specialize (H1 H2). discriminate H1.
Qed.

(** C2, amended: for a pair with a row dated as_of, the baseline is
    missing after the first join exactly when the pair has no row dated
    from as_of - baseline_days to as_of - 1; it comes out of the
    fallback defined exactly when, besides, the pair has a row dated
    before as_of, and it is then the mean of the counts of all those
    earlier rows; a baseline found by the first join is kept, and is
    the mean of the counts of the window.  The returned record carries
    no source tag. *)
Theorem fallback_exactly_when (t : list DailyRow) (a bd bs be : Z)
    (k : Pair) (m0 m : Merged) :
  baseline_window a bd = Ok (bs, be) ->
  In m0 (first_merge t a bs be) -> m_pair m0 = k ->
  In m (merged_baselines t a bs be) -> m_pair m = k ->
  (isna m0 = true <-> window_counts t a bd k = [])
  /\ (isna m0 = true /\ isna m = false
      <-> window_counts t a bd k = [] /\ earlier_counts t a k <> [])
  /\ (isna m0 = true ->
      match earlier_counts t a k with
      | [] => m_baseline m = None
      | counts => exists b, m_baseline m = Some b /\ (b == mean_of counts)%Q
      end)
  /\ (isna m0 = false ->
      m_baseline m = m_baseline m0
      /\ exists b, m_baseline m = Some b
                   /\ (b == mean_of (window_counts t a bd k))%Q).
Proof.
  intros Hw H0 K0 Hm Km.
  apply baseline_window_Ok in Hw as [_ [= -> ->]].
  apply first_merge_In in H0 as [_ B0]. rewrite K0 in B0.
  apply merged_baselines_In in Hm as [_ Em]. rewrite Km in Em.
  unfold isna. rewrite B0, Em.
  rewrite window_counts_eq, earlier_counts_eq.
  unfold merged_row, baseline_record. cbn [m_baseline].
  destruct (rows_of_pair (df_base t (a - bd) (a - 1)) k) as [|r g] eqn:W;
    destruct (rows_of_pair (df_all_before t a) k) as [|r' g'] eqn:B;
    cbn [option_map fst map].
  - intuition (discriminate || congruence).
  - split; [tauto|]. split; [split; [split; [reflexivity | discriminate]
                                    | tauto]|].
    split; [|discriminate]. intros _. eexists. split; [reflexivity|].
    now apply (mean_count_spec (r' :: g')).
  - split; [split; discriminate|].
    split; [split; [intros [H _] | intros [H _]]; discriminate|].
    split; [discriminate|]. intros _. split; [reflexivity|].
    eexists. split; [reflexivity|]. now apply (mean_count_spec (r :: g)).
  - split; [split; discriminate|].
    split; [split; [intros [H _] | intros [H _]]; discriminate|].
    split; [discriminate|]. intros _. split; [reflexivity|].
    eexists. split; [reflexivity|]. now apply (mean_count_spec (r :: g)).
Qed.

Lemma fallback_exactly_when_witness :
  let k := ("JP", "MILITARY") in
  let m0 := {| m_country_code := "JP"; m_risk_type := "MILITARY";
               m_today := 8; m_baseline := None |} in
  let m := {| m_country_code := "JP"; m_risk_type := "MILITARY";
              m_today := 8; m_baseline := Some 2%Q |} in
  (isna m0 = true <-> window_counts old_table (nov 24) 7 k = [])
  /\ (isna m0 = true /\ isna m = false
      <-> window_counts old_table (nov 24) 7 k = []
          /\ earlier_counts old_table (nov 24) k <> [])
  /\ (isna m0 = true ->
      match earlier_counts old_table (nov 24) k with
      | [] => m_baseline m = None
      | counts => exists b, m_baseline m = Some b /\ (b == mean_of counts)%Q
      end)
  /\ (isna m0 = false ->
      m_baseline m = m_baseline m0
      /\ exists b, m_baseline m = Some b
                   /\ (b == mean_of (window_counts old_table (nov 24) 7 k))%Q).
Proof.
  intros k m0 m.
  apply (fallback_exactly_when old_table (nov 24) 7 (nov 17) (nov 23) k m0 m);
    vm_compute; auto.
Defined.

Lemma with_as_of_pair (a : Z) (c : Scored) :
  sp_pair (with_as_of a c) = (c_country_code c, c_risk_type c).
Proof. reflexivity. Qed.

(** The baseline of a returned row is the baseline of its pair. *)
Lemma spikes_in_window_baseline (S : Sorter) (t : list DailyRow) (a bd : Z)
    (mb md : Q) (s : Spike) :
  In s (spikes_in_window S t a (a - bd) (a - 1) mb md) ->
  rows_of_pair (df_today t a) (sp_pair s) <> []
  /\ option_map fst (baseline_record t a bd (sp_pair s))
     = Some (sp_baseline s)
  /\ Qle_bool mb (sp_baseline s) = true
  /\ sp_today s = sum_int64 (rows_of_pair (df_today t a) (sp_pair s))
  /\ sp_delta_percent s = delta_of (sp_today s) (sp_baseline s).
Proof.
  intros H. apply spikes_in_window_In in H as (c & Hc & _ & ->).
  apply scored_rows_In in Hc as ([cc rt] & b & Hk & Hb & Hmb & ->).
  cbn. auto.
Qed.

(** C5: a pair with a row dated as_of has one row in the joined frame.
    Its baseline there is the mean of its counts over the dates from
    as_of - baseline_days to as_of - 1 when it has a row on one of them;
    else the mean of its counts over all the dates before as_of when it
    has a row there; else it is missing.  A returned record of the pair
    has that mean as its baseline, so that a pair without any row
    before as_of is not returned. *)
Theorem baseline_of_pair (S : Sorter) (t : list DailyRow) (a bd bs be : Z)
    (mb md : Q) (k : Pair) (out : list Spike) :
  baseline_window a bd = Ok (bs, be) ->
  detect_spikes S t a bd mb md = Ok out ->
  today_counts t a k <> [] ->
  (exists m, In m (merged_baselines t a bs be) /\ m_pair m = k)
  /\ (forall m, In m (merged_baselines t a bs be) -> m_pair m = k ->
      (window_counts t a bd k <> [] ->
       exists b, m_baseline m = Some b
                 /\ (b == mean_of (window_counts t a bd k))%Q)
      /\ (window_counts t a bd k = [] -> earlier_counts t a k <> [] ->
          exists b, m_baseline m = Some b
                    /\ (b == mean_of (earlier_counts t a k))%Q)
      /\ (earlier_counts t a k = [] -> m_baseline m = None))
  /\ (forall s, In s out -> sp_pair s = k ->
      earlier_counts t a k <> []
      /\ (sp_baseline s == mean_of (baseline_counts t a bd k))%Q).
Proof.
  intros Hw Hout Hk.
  apply baseline_window_Ok in Hw as [_ [= -> ->]].
  apply detect_spikes_Ok in Hout as [_ ->].
  rewrite today_counts_eq, map_nil_iff in Hk.
  unfold baseline_counts.
  rewrite window_counts_eq, earlier_counts_eq.
  pose proof (window_rows_are_before t a bd k) as Hsub.
  split; [|split].
  - exists (merged_row t a bd k). split; [|apply merged_row_pair].
    apply merged_baselines_In. now rewrite merged_row_pair.
  - intros m Hm Km. apply merged_baselines_In in Hm as [_ ->].
    rewrite Km. unfold merged_row, baseline_record. cbn [m_baseline].
    destruct (rows_of_pair (df_base t (a - bd) (a - 1)) k) as [|r g] eqn:W;
      destruct (rows_of_pair (df_all_before t a) k) as [|r' g'] eqn:B;
      cbn [option_map fst map].
    + split; [intros H; now contradiction H|].
      split; [intros _ H; now contradiction H | reflexivity].
    + split; [intros H; now contradiction H|]. split; [|discriminate].
      intros _ _. eexists. split; [reflexivity|].
      now apply (mean_count_spec (r' :: g')).
    + specialize (Hsub eq_refl). discriminate Hsub.
    + split; [|split; discriminate].
      intros _. eexists. split; [reflexivity|].
      now apply (mean_count_spec (r :: g)).
  - intros s Hs Ks. apply spikes_in_window_baseline in Hs as (_ & Hb & _).
    rewrite Ks in Hb. unfold baseline_record in Hb.
    destruct (rows_of_pair (df_base t (a - bd) (a - 1)) k) as [|r g] eqn:W;
      destruct (rows_of_pair (df_all_before t a) k) as [|r' g'] eqn:B;
      cbn [option_map fst map] in *.
    + discriminate Hb.
    + injection Hb as <-. split; [discriminate|].
      now apply (mean_count_spec (r' :: g')).
    + specialize (Hsub eq_refl). discriminate Hsub.
    + injection Hb as <-. split; [discriminate|].
      now apply (mean_count_spec (r :: g)).
Qed.

Lemma baseline_of_pair_witness :
  (exists m, In m (merged_baselines old_table (nov 24) (nov 17) (nov 23))
             /\ m_pair m = ("JP", "MILITARY"))
  /\ (forall s, In s [jp_spike] -> sp_pair s = ("JP", "MILITARY") ->
      earlier_counts old_table (nov 24) ("JP", "MILITARY") <> []
      /\ (sp_baseline s
          == mean_of (baseline_counts old_table (nov 24) 7 ("JP", "MILITARY")))%Q).
Proof.
  assert (baseline_window (nov 24) 7 = Ok (nov 17, nov 23)) as Hw by reflexivity.
  assert (detect_spikes pandas_sorter old_table (nov 24) 7 1 1 = Ok [jp_spike])
    as Hout by (vm_compute; reflexivity).
  assert (today_counts old_table (nov 24) ("JP", "MILITARY") <> [])
    as H by (vm_compute; discriminate).
  pose proof (baseline_of_pair pandas_sorter old_table (nov 24) 7 (nov 17) (nov 23) 1 1
                ("JP", "MILITARY") [jp_spike] Hw Hout H) as (H1 & _ & H3).
  split; [exact H1 | exact H3].
Defined.

(** A pair seen for the first time on as_of is not returned. *)
Example new_pair_dropped :
  detect_spikes pandas_sorter [daily (nov 24) "JP" "MILITARY" 50] (nov 24) 7 1 1 = Ok [].
Proof. vm_compute. reflexivity. Qed.

(** Five events a day for seven days, forty on as_of: baseline 5, delta
    700. *)
Example seven_days_of_five :
  detect_spikes pandas_sorter
    (map (fun d => daily (nov d) "JP" "MILITARY" 5)
         [17; 18; 19; 20; 21; 22; 23]
     ++ [daily (nov 24) "JP" "MILITARY" 40]) (nov 24) 7 1 1
  = Ok [ {| sp_as_of := nov 24; sp_country_code := "JP";
            sp_risk_type := "MILITARY"; sp_today := 40; sp_baseline := 5;
            sp_delta_percent := Fin 700 |} ].
Proof. vm_compute. reflexivity. Qed.

(** ** Thresholds *)

Lemma with_as_of_inj (a : Z) (c c' : Scored) :
  with_as_of a c = with_as_of a c' -> c = c'.
Proof. destruct c, c'. unfold with_as_of. cbn. intros [=]. congruence. Qed.

Lemma passes_delta_finite (md : Q) (c : Scored) (q : Q) :
  c_delta_percent c = Fin q ->
  (passes_delta md c = true <-> (md * 100 <= Qabs q)%Q).
Proof.
  intros E. unfold passes_delta. rewrite E. cbn [f64_abs f64_geq].
  apply Qle_bool_iff.
Qed.

Example rise_80_scored :
  map c_delta_percent (scored_rows rise_80_table (nov 24) (nov 17) (nov 23) 1) = [Fin 80]
  /\ detect_spikes pandas_sorter rise_80_table (nov 24) 7 1 1 = Ok [].
Proof. vm_compute. split; reflexivity. Qed.

Example fall_150_scored :
  map c_delta_percent (scored_rows fall_150_table (nov 24) (nov 17) (nov 23) 1) = [Fin (-150)]
  /\ detect_spikes pandas_sorter fall_150_table (nov 24) 7 1 1
     = Ok [ {| sp_as_of := nov 24; sp_country_code := "JP";
               sp_risk_type := "MILITARY"; sp_today := -1; sp_baseline := 2;
               sp_delta_percent := Fin (-150) |} ].
Proof. vm_compute. split; reflexivity. Qed.

(** C6: the returned rows are, each once, the joined rows that passed
    the minimum-baseline filter and whose delta is at least
    [min_delta_rel * 100] in absolute value; for a finite delta the test
    is on its absolute value, so that with [min_delta_rel = 1] a delta of
    80 is dropped and a delta of -150 is kept. *)
Theorem delta_threshold (S : Sorter) (t : list DailyRow) (a bd : Z)
    (mb md : Q) (out : list Spike) :
  detect_spikes S t a bd mb md = Ok out ->
  Permutation
    (map (with_as_of a)
         (filter (passes_delta md) (scored_rows t a (a - bd) (a - 1) mb)))
    out
  /\ (forall c, In c (scored_rows t a (a - bd) (a - 1) mb) ->
      (In (with_as_of a c) out
       <-> f64_geq (f64_abs (c_delta_percent c)) (md * 100)%Q = true))
  /\ (forall c q, In c (scored_rows t a (a - bd) (a - 1) mb) ->
      c_delta_percent c = Fin q ->
      (In (with_as_of a c) out <-> (md * 100 <= Qabs q)%Q))
  /\ (forall c q out1, detect_spikes S t a bd mb 1 = Ok out1 ->
      In c (scored_rows t a (a - bd) (a - 1) mb) ->
      c_delta_percent c = Fin q -> (q == 80)%Q ->
      ~ In (with_as_of a c) out1)
  /\ (forall c q out1, detect_spikes S t a bd mb 1 = Ok out1 ->
      In c (scored_rows t a (a - bd) (a - 1) mb) ->
      c_delta_percent c = Fin q -> (q == -150)%Q ->
      In (with_as_of a c) out1).
Proof.
  intros Hout. apply detect_spikes_Ok in Hout as [_ ->].
  assert (forall md' c, In c (scored_rows t a (a - bd) (a - 1) mb) ->
            (In (with_as_of a c)
                (spikes_in_window S t a (a - bd) (a - 1) mb md')
             <-> passes_delta md' c = true)) as Hiff.
  { intros md' c Hc. rewrite spikes_in_window_In. split.
    - intros (c' & _ & Hp & E). apply with_as_of_inj in E. now subst.
    - intros Hp. eauto. }
  split; [apply spikes_in_window_perm|].
  split; [intros c Hc; now apply Hiff|].
  split; [|split].
  - intros c q Hc E. rewrite (Hiff md c Hc). now apply passes_delta_finite.
  - intros c q out1 Hout1 Hc E Hq.
    apply detect_spikes_Ok in Hout1 as [_ ->].
    rewrite (Hiff 1%Q c Hc), (passes_delta_finite _ _ _ E).
    rewrite Hq. intros H. vm_compute in H. now apply H.
  - intros c q out1 Hout1 Hc E Hq.
    apply detect_spikes_Ok in Hout1 as [_ ->].
    rewrite (Hiff 1%Q c Hc), (passes_delta_finite _ _ _ E).
    rewrite Hq. vm_compute. discriminate.
Qed.

Lemma delta_threshold_witness :
  let up := {| c_country_code := "JP"; c_risk_type := "MILITARY";
               c_today := 9; c_baseline := 5;
               c_delta_percent := Fin 80 |} in
  let down := {| c_country_code := "JP"; c_risk_type := "MILITARY";
                 c_today := -1; c_baseline := 2;
                 c_delta_percent := Fin (-150) |} in
  exists rise fall,
    detect_spikes pandas_sorter rise_80_table (nov 24) 7 1 1 = Ok rise
    /\ detect_spikes pandas_sorter fall_150_table (nov 24) 7 1 1 = Ok fall
    /\ ~ In (with_as_of (nov 24) up) rise
    /\ In (with_as_of (nov 24) down) fall.
Proof.
  intros up down.
  destruct rise_80_scored as [_ Hrise], fall_150_scored as [_ Hfall].
  eexists. eexists. split; [exact Hrise|]. split; [exact Hfall|]. split.
  - pose proof (delta_threshold pandas_sorter rise_80_table (nov 24) 7 1 1 _ Hrise)
      as (_ & _ & _ & H & _).
    refine (H up 80%Q _ Hrise _ eq_refl _); [vm_compute; auto | reflexivity].
  - pose proof (delta_threshold pandas_sorter fall_150_table (nov 24) 7 1 1 _ Hfall)
      as (_ & _ & _ & _ & H).
    refine (H down (-150)%Q _ Hfall _ eq_refl _);
      [vm_compute; auto | reflexivity].
Defined.

Example zero_baseline_spikes :
  detect_spikes pandas_sorter zero_baseline_table (nov 24) 7 0 1
  = Ok [ {| sp_as_of := nov 24; sp_country_code := "JP";
            sp_risk_type := "MILITARY"; sp_today := 5; sp_baseline := 0;
            sp_delta_percent := PosInf |} ].
Proof. vm_compute. reflexivity. Qed.

Example wrapped_sum_spikes :
  (forall r, In r wrapped_sum_table -> 0 <= count r)
  /\ exists out,
       detect_spikes pandas_sorter wrapped_sum_table (nov 24) 7 1 1 = Ok out
       /\ map sp_today out = [- 2 ^ 63]
       /\ map sp_baseline out = [1%Q].
Proof.
  split.
  - intros r Hr. repeat destruct Hr as [<-|Hr]; try contradiction;
      vm_compute; discriminate.
  - eexists. split; [vm_compute; reflexivity|].
    split; vm_compute; reflexivity.
Qed.

(** C8, as stated, fails on both counts.  With [min_baseline_mean = 0]
    a pair whose earlier count is 0 passes the baseline filter, the
    division by the zero baseline gives an infinite delta, and the
    record is returned with baseline 0.  And the today count is a sum
    of [int64] that wraps around: two rows of 2^62 on as_of give the
    record a today count of -2^63, although no count of the table is
    negative. *)
Lemma zero_baseline_and_negative_today :
  (exists out s,
      detect_spikes pandas_sorter zero_baseline_table (nov 24) 7 0 1 = Ok out
      /\ In s out /\ ~ (0 < sp_baseline s)%Q)
  /\ (exists out s,
         detect_spikes pandas_sorter wrapped_sum_table (nov 24) 7 1 1 = Ok out
         /\ (forall r, In r wrapped_sum_table -> 0 <= count r)
         /\ In s out /\ ~ 0 <= sp_today s).
Proof.
  split.
  - eexists. eexists. split; [apply zero_baseline_spikes|].
    split; [now left|]. vm_compute. discriminate.
  - destruct wrapped_sum_spikes as [Hc _].
    eexists. eexists. split; [vm_compute; reflexivity|]. split; [exact Hc|].
    split; [now left|]. vm_compute. intros H. now apply H.
Qed.

Lemma sum_Z_nonneg (l : list Z) :
  (forall x, In x l -> 0 <= x) -> 0 <= sum_Z l.
Proof.
  induction l as [|x l IH]; simpl; intros H; [lia|].
  assert (0 <= x) by (apply H; now left).
  assert (0 <= sum_Z l) by (apply IH; intros; apply H; now right). lia.
Qed.

Lemma delta_of_finite (today : Z) (b : Q) :
  (0 < b)%Q -> exists q, delta_of today b = Fin q.
Proof.
  intros Hb. unfold delta_of, f64_div.
  destruct (Qeq_bool b 0) eqn:E.
  - apply Qeq_bool_iff in E. rewrite E in Hb. now apply Qlt_irrefl in Hb.
  - eexists. reflexivity.
Qed.

Lemma wrap_int64_small (z : Z) :
  - 2 ^ 63 <= z < 2 ^ 63 -> wrap_int64 z = z.
Proof.
  intros H. unfold wrap_int64.
  rewrite Z.mod_small by lia. lia.
Qed.

(** C8, amended: the baseline of a returned record is at least
    [min_baseline_mean]; when [min_baseline_mean] is positive it is
    positive and the delta is a finite quotient.  The today count is
    the sum of the pair's counts on as_of as 64 bits hold it; it is not
    negative when no count of the table is negative and that sum is
    below 2^63. *)
Theorem returned_baseline_bounds (S : Sorter) (t : list DailyRow) (a bd : Z)
    (mb md : Q) (out : list Spike) (s : Spike) :
  detect_spikes S t a bd mb md = Ok out -> In s out ->
  (mb <= sp_baseline s)%Q
  /\ ((0 < mb)%Q ->
      (0 < sp_baseline s)%Q /\ exists q, sp_delta_percent s = Fin q)
  /\ sp_today s = wrap_int64 (sum_Z (today_counts t a (sp_pair s)))
  /\ ((forall r, In r t -> 0 <= count r) ->
      sum_Z (today_counts t a (sp_pair s)) < 2 ^ 63 ->
      0 <= sp_today s).
Proof.
  intros Hout H. apply detect_spikes_Ok in Hout as [_ ->].
  apply spikes_in_window_baseline in H as (_ & _ & Hmb & Ht & Hd).
  apply Qle_bool_iff in Hmb. split; [exact Hmb|].
  assert (sp_today s = wrap_int64 (sum_Z (today_counts t a (sp_pair s))))
    as Ht' by (rewrite Ht, today_counts_eq; reflexivity).
  split; [|split; [exact Ht'|]].
  - intros Hpos.
    assert (0 < sp_baseline s)%Q as Hb by (eapply Qlt_le_trans; eauto).
    split; [exact Hb|]. rewrite Hd. now apply delta_of_finite.
  - intros Hc Hsum. rewrite Ht'.
    assert (0 <= sum_Z (today_counts t a (sp_pair s))) as Hnn.
    { apply sum_Z_nonneg. intros x Hx. unfold today_counts in Hx.
      apply in_map_iff in Hx as (r & <- & Hr). apply Hc.
      apply filter_In in Hr. tauto. }
    rewrite wrap_int64_small; lia.
Qed.

Lemma returned_baseline_bounds_witness :
  (1 <= sp_baseline jp_spike)%Q
  /\ ((0 < 1)%Q ->
      (0 < sp_baseline jp_spike)%Q
      /\ exists q, sp_delta_percent jp_spike = Fin q)
  /\ sp_today jp_spike
     = wrap_int64 (sum_Z (today_counts recent_table (nov 24) (sp_pair jp_spike)))
  /\ ((forall r, In r recent_table -> 0 <= count r) ->
      sum_Z (today_counts recent_table (nov 24) (sp_pair jp_spike)) < 2 ^ 63 ->
      0 <= sp_today jp_spike).
Proof.
  apply (returned_baseline_bounds pandas_sorter recent_table (nov 24) 7 1 1
           [jp_spike] jp_spike).
  - vm_compute. reflexivity.
  - now left.
Defined.

(** ** Extraction of the daily counts *)
(** ** Extraction of the daily counts *)

Section ExtractionFacts.

Variable strptime_Ymd : string -> option Z.

Lemma rows_of_event_cases (ev : EventRecord) :
rows_of_event ev
= if event_decimal ev then Ok (event_rows_of ev) else Raise ValueError.
Proof.
unfold rows_of_event, event_decimal, event_rows_of, risk_of.
destruct (cameo_decimal (ev_cameo ev)) eqn:E.
- destruct (classify_event_risk_total _ (ev_theme_labels ev) E)
    as (r & -> & _). reflexivity.
- now rewrite classify_event_risk_raises.
Qed.

Lemma extract_rows_cases (G : Graph) (todo : list (string * NodeData)) :
extract_rows strptime_Ymd G todo
= if forallb event_decimal (filter_map (event_record strptime_Ymd G) todo)
  then Ok (flat_map event_rows_of
                    (filter_map (event_record strptime_Ymd G) todo))
  else Raise ValueError.
Proof.
induction todo as [|node todo IH]; [reflexivity|].
cbn [extract_rows filter_map].
destruct (event_record strptime_Ymd G node) as [ev|].
- rewrite rows_of_event_cases. cbn [forallb flat_map].
  destruct (event_decimal ev); [|reflexivity]. cbn [bind andb].
  rewrite IH. now destruct (forallb event_decimal _).
- cbn [bind]. rewrite IH. now destruct (forallb event_decimal _).
Qed.

Lemma set_add_NoDup (x : string) (s : list string) :
NoDup s -> NoDup (set_add x s).
Proof.
intros H. unfold set_add. destruct (in_dec string_dec x s) as [|Hn];
  [exact H|].
apply NoDup_rev in H. apply (NoDup_cons x) in H.
- apply NoDup_rev in H. simpl in H. now rewrite rev_involutive in H.
- now rewrite <- in_rev.
Qed.

Lemma visit_neighbor_NoDup (G : Graph) (acc : list string * list string)
  (nbr : string) :
NoDup (fst acc) -> NoDup (fst (visit_neighbor G acc nbr)).
Proof.
intros H. unfold visit_neighbor.
destruct (has_type _ LOCATION_NODE_TYPE).
- destruct (truthy _); [now apply set_add_NoDup | exact H].
- destruct (has_type _ THEME_NODE_TYPE); [|exact H].
  destruct (truthy _); exact H.
Qed.

Lemma fold_visit_NoDup (G : Graph) (nbrs : list string)
  (acc : list string * list string) :
NoDup (fst acc) -> NoDup (fst (fold_left (visit_neighbor G) nbrs acc)).
Proof.
revert acc. induction nbrs as [|n nbrs IH]; intros acc H; [exact H|].
simpl. apply IH. now apply visit_neighbor_NoDup.
Qed.

(** An event that is kept has at least one country, and each once. *)
Lemma event_record_countries (G : Graph) (node : string * NodeData)
  (ev : EventRecord) :
event_record strptime_Ymd G node = Some ev ->
ev_countries ev <> [] /\ NoDup (ev_countries ev).
Proof.
unfold event_record.
destruct (negb _); [discriminate|].
destruct (truthy _); [|discriminate].
destruct (strptime_Ymd _); [|discriminate].
pose proof (fold_visit_NoDup G (neighbors G (fst node)) ([], [])
              (NoDup_nil _)) as Hnd.
destruct (fst (fold_left _ _ _)) as [|c cs] eqn:E; [discriminate|].
intros [= <-]. cbn [ev_countries]. split; [discriminate | exact Hnd].
Qed.

Lemma events_countries (G : Graph) (ev : EventRecord) :
In ev (events strptime_Ymd G) ->
ev_countries ev <> [] /\ NoDup (ev_countries ev).
Proof.
unfold events. rewrite filter_map_In. intros (node & _ & H).
eapply event_record_countries; eauto.
Qed.

Lemma flat_map_rows_nil (evs : list EventRecord) :
(forall ev, In ev evs -> ev_countries ev <> []) ->
flat_map event_rows_of evs = [] -> evs = [].
Proof.
destruct evs as [|ev evs]; [reflexivity|]. intros H E. exfalso.
simpl in E. apply app_eq_nil in E as [E _].
unfold event_rows_of in E. apply map_eq_nil in E.
now apply (H ev (or_introl eq_refl)).
Qed.

(** What [graphml_to_daily_counts] does, by cases: a superscript digit
  in the root of some kept event raises ValueError; else no kept event
  raises RuntimeError; else the table is returned. *)
Lemma graphml_to_daily_counts_cases (G : Graph) :
graphml_to_daily_counts strptime_Ymd G
= if forallb event_decimal (events strptime_Ymd G) then
    match events strptime_Ymd G with
    | [] => Raise RuntimeError
    | evs => Ok (daily_counts (flat_map event_rows_of evs))
    end
  else Raise ValueError.
Proof.
unfold graphml_to_daily_counts. rewrite extract_rows_cases.
fold (events strptime_Ymd G).
destruct (forallb event_decimal (events strptime_Ymd G)); [|reflexivity].
cbn [bind].
destruct (flat_map event_rows_of (events strptime_Ymd G)) as [|r rs] eqn:E.
- apply flat_map_rows_nil in E; [now rewrite E|].
  intros ev Hev. now apply events_countries in Hev.
- destruct (events strptime_Ymd G) as [|ev evs]; [discriminate E|].
  now rewrite E.
Qed.

End ExtractionFacts.

(** ** Counting rows through a grouping *)

Section GroupSize.

Context {R K : Type}.
Variable key : R -> K.
Variable key_eq_dec : forall a b : K, {a = b} + {a <> b}.
Variable P : K -> bool.

Lemma sum_Z_map_add (f g : K -> Z) (ks : list K) :
sum_Z (map (fun k => f k + g k) ks) = sum_Z (map f ks) + sum_Z (map g ks).
Proof. induction ks as [|k ks IH]; simpl; lia. Qed.

Definition hit (x k : K) : Z :=
if P k && (if key_eq_dec x k then true else false) then 1 else 0.

Lemma sum_hit_absent (x : K) (ks : list K) :
~ In x ks -> sum_Z (map (hit x) ks) = 0.
Proof.
induction ks as [|k ks IH]; simpl; intros H; [reflexivity|].
rewrite IH by tauto. unfold hit.
destruct (key_eq_dec x k) as [->|]; [tauto|].
now rewrite andb_false_r.
Qed.

Lemma sum_hit_once (x : K) (ks : list K) :
NoDup ks -> In x ks ->
sum_Z (map (hit x) ks) = if P x then 1 else 0.
Proof.
induction 1 as [|k ks Hk Hnd IH]; simpl; [easy|].
intros [->|Hin].
- rewrite sum_hit_absent by exact Hk. unfold hit.
  destruct (key_eq_dec x x); [|congruence].
  rewrite andb_true_r. destruct (P x); reflexivity.
- rewrite IH by exact Hin. unfold hit.
  destruct (key_eq_dec x k) as [->|]; [contradiction|].
  rewrite andb_false_r. reflexivity.
Qed.

(** Over keys listed once that cover the rows, the sizes of the groups
  with a property add up to the number of rows with it. *)
Lemma sum_group_sizes (rows : list R) (ks : list K) :
NoDup ks -> (forall r, In r rows -> In (key r) ks) ->
sum_Z (map (fun k => if P k
                     then Z.of_nat (List.length (group key key_eq_dec rows k))
                     else 0) ks)
= Z.of_nat (List.length (filter (fun r => P (key r)) rows)).
Proof.
intros Hnd. induction rows as [|r rows IH]; intros Hcov.
- simpl. clear Hnd Hcov. induction ks as [|k ks IHk]; simpl; [reflexivity|].
  rewrite IHk. now destruct (P k).
- rewrite (map_ext _ (fun k =>
     (if P k then Z.of_nat (List.length (group key key_eq_dec rows k)) else 0)
     + hit (key r) k)).
  + rewrite sum_Z_map_add, IH by (intros; apply Hcov; now right).
    rewrite sum_hit_once by (auto; apply Hcov; now left).
    cbn [filter]. destruct (P (key r)); cbn [List.length]; lia.
  + intros k. unfold hit, group. cbn [filter].
    destruct (key_eq_dec (key r) k); destruct (P k);
      cbn [andb List.length]; lia.
Qed.

End GroupSize.

Lemma daily_counts_eq (rows : list EventRow) :
  daily_counts rows
  = map (fun k => {| date := fst (fst k);
                     country_code := snd (fst k);
                     risk_type := snd k;
                     count := Z.of_nat
                                (List.length (group day_key DayKey_eq_dec rows k)) |})
        (group_keys day_key DayKey_eq_dec DayKey_leb rows).
Proof. unfold daily_counts, groupby. now rewrite map_map. Qed.

Lemma sum_count_filter_map (f : DayKey -> DailyRow) (p : DailyRow -> bool)
    (ks : list DayKey) :
  sum_count (filter p (map f ks))
  = sum_Z (map (fun k => if p (f k) then count (f k) else 0) ks).
Proof.
  unfold sum_count. induction ks as [|k ks IH]; simpl; [reflexivity|].
  destruct (p (f k)); simpl; rewrite IH; reflexivity.
Qed.

(** The counts of a date add up to the number of rows of that date. *)
Lemma daily_counts_sum (rows : list EventRow) (d : Z) :
  sum_count (filter (fun r => date r =? d) (daily_counts rows))
  = Z.of_nat (List.length (filter (fun r => r_date r =? d) rows)).
Proof.
  rewrite daily_counts_eq, sum_count_filter_map. cbn [date count].
  rewrite (sum_group_sizes day_key DayKey_eq_dec
             (fun k => fst (fst k) =? d) rows).
  - reflexivity.
  - apply group_keys_NoDup.
  - intros r Hr. apply group_keys_In. eauto.
Qed.

(** Every count of the table is at least one. *)
Lemma daily_counts_positive (rows : list EventRow) (r : DailyRow) :
  In r (daily_counts rows) -> 1 <= count r.
Proof.
  rewrite daily_counts_eq, in_map_iff. intros (k & <- & Hk). cbn [count].
  apply group_keys_In in Hk as (x & Hx & Hkx).
  assert (In x (group day_key DayKey_eq_dec rows k)) as Hg
      by (rewrite group_In; auto).
  destruct (group day_key DayKey_eq_dec rows k); [contradiction|].
  simpl List.length. lia.
Qed.


(** ** The extracted table *)

Example small_graph_counts :
  graphml_to_daily_counts strptime_digits small_graph
  = Ok [ daily 739579 "JP" "CIVIL_UNREST" 1;
         daily 739579 "JP" "NATURAL_DISASTER" 1;
         daily 739579 "US" "CIVIL_UNREST" 1 ].
Proof. vm_compute. reflexivity. Qed.

Example two_day_graph_counts :
  graphml_to_daily_counts strptime_digits two_day_graph = Ok two_day_table.
Proof. vm_compute. reflexivity. Qed.

Example no_event_is_fatal :
  graphml_to_daily_counts strptime_digits
    {| nodes := [("us", location_node "US")]; adj := [] |}
  = Raise RuntimeError.
Proof. reflexivity. Qed.

(** C7: the extraction can raise although valid event rows exist.  In
    [superscript_graph] both events have a date and a country, the first
    one alone would give the table its row, and the call raises
    ValueError from the classification of the second. *)
Theorem superscript_graph_raises :
  map ev_countries (events strptime_digits superscript_graph)
  = [["US"]; ["US"]]
  /\ graphml_to_daily_counts strptime_digits superscript_graph
     = Raise ValueError.
Proof. vm_compute. split; reflexivity. Qed.


Lemma Permutation_nil_eq {A : Type} (l : list A) :
  Permutation [] l -> l = [].
Proof. apply Permutation_nil. Qed.

(** X14: [detect_spikes] raises exactly when the dates of its window
    cannot be formed: [baseline_days] beyond 999999999 either way, or
    [as_of - baseline_days] or [as_of - 1] outside the dates from
    0001-01-01 to 9999-12-31.  The error is OverflowError and does not
    depend on the table: the window is computed before the rows of the
    day are looked for.  In every other case the call returns, and it
    returns the empty frame when no row is dated [as_of]. *)
Theorem detect_spikes_raises (S : Sorter) (t : list DailyRow) (a bd : Z)
    (mb md : Q) :
  match detect_spikes S t a bd mb md with
  | Raise e => e = OverflowError /\ ~ window_dates_exist a bd
  | Ok out =>
      window_dates_exist a bd
      /\ ((forall r, In r t -> date r <> a) -> out = [])
  end.
Proof.
  destruct (detect_spikes S t a bd mb md) as [out|e] eqn:E.
  - apply detect_spikes_Ok in E as [Hw ->]. split; [exact Hw|].
    intros Hno. unfold spikes_in_window.
    destruct (df_today t a) as [|r rows] eqn:Et; [reflexivity|].
    assert (In r (df_today t a)) as Hr by (rewrite Et; now left).
    unfold df_today in Hr. apply filter_In in Hr as [Hr Hd].
    apply Z.eqb_eq in Hd. now apply Hno in Hr.
  - unfold detect_spikes in E.
    destruct (baseline_window a bd) as [w|e'] eqn:Ew; cbn [bind] in E;
      [discriminate|].
    injection E as <-. apply baseline_window_Raise in Ew as [Hn ->]. auto.
Qed.

Example window_before_the_first_date :
  detect_spikes pandas_sorter recent_table (nov 24) 739579 1 1 = Raise OverflowError
  /\ detect_spikes pandas_sorter recent_table (nov 25) 739580 1 1 = Raise OverflowError
  /\ detect_spikes pandas_sorter recent_table (nov 24) 1000000000 1 1
     = Raise OverflowError
  /\ detect_spikes pandas_sorter recent_table 1 0 1 1 = Raise OverflowError
  /\ detect_spikes pandas_sorter recent_table (nov 25) 7 1 1 = Ok [].
Proof. vm_compute. repeat split; reflexivity. Qed.



Lemma sum_count_ge_length (g : list DailyRow) :
  (forall r, In r g -> 1 <= count r) ->
  Z.of_nat (List.length g) <= sum_count g.
Proof.
  unfold sum_count. induction g as [|r g IH]; intros H; [simpl; lia|].
  assert (1 <= count r) by (apply H; now left).
  assert (Z.of_nat (List.length g) <= sum_Z (map count g))
    by (apply IH; intros; apply H; now right).
  cbn [map sum_Z fold_right List.length] in *. unfold sum_Z in *. lia.
Qed.

Lemma mean_count_ge_1 (g : list DailyRow) :
  g <> [] -> (forall r, In r g -> 1 <= count r) -> (1 <= mean_count g)%Q.
Proof.
  intros Hg H. unfold mean_count. rewrite Qred_correct.
  apply sum_count_ge_length in H.
  destruct g as [|r g]; [contradiction|].
  unfold Qle. cbn [Qnum Qden].
  pose proof (positive_nat_Z (Pos.of_nat (List.length (r :: g)))) as Hp.
  rewrite Nat2Pos.id in Hp by (simpl; discriminate). lia.
Qed.

Lemma rows_of_pair_sub (t : list DailyRow) (p : DailyRow -> bool) (k : Pair)
    (r : DailyRow) :
  In r (rows_of_pair (filter p t) k) -> In r t.
Proof.
  unfold rows_of_pair. rewrite group_In, filter_In. tauto.
Qed.

(** A defined baseline is the mean of a non-empty group of rows of the
    table. *)
Lemma baseline_record_mean (t : list DailyRow) (a bd : Z) (k : Pair) (b : Q)
    (src : Source) :
  baseline_record t a bd k = Some (b, src) ->
  exists g, g <> [] /\ (forall r, In r g -> In r t) /\ b = mean_count g.
Proof.
  unfold baseline_record.
  destruct (rows_of_pair (df_base t (a - bd) (a - 1)) k) as [|r g] eqn:W.
  - destruct (rows_of_pair (df_all_before t a) k) as [|r' g'] eqn:B;
      [discriminate|].
    intros [= <- _]. exists (r' :: g'). split; [discriminate|].
    split; [|reflexivity]. intros x Hx. rewrite <- B in Hx.
    now apply rows_of_pair_sub in Hx.
  - intros [= <- _]. exists (r :: g). split; [discriminate|].
    split; [|reflexivity]. intros x Hx. rewrite <- W in Hx.
    now apply rows_of_pair_sub in Hx.
Qed.

(** C10: every count of the table [graphml_to_daily_counts] returns is
    at least one; so every baseline [detect_spikes] finds on that table
    is at least one, [min_baseline_mean = 1] lets every row with a
    baseline through, and the scored rows are those of any lower
    minimum. *)
Theorem counts_at_least_one (strptime_Ymd : string -> option Z) (G : Graph)
    (T : list DailyRow) :
  graphml_to_daily_counts strptime_Ymd G = Ok T ->
  (forall r, In r T -> 1 <= count r)
  /\ (forall a bd m b,
      In m (merged_baselines T a (a - bd) (a - 1)) -> m_baseline m = Some b ->
      (1 <= b)%Q /\ exists c, score 1 m = Some c /\ c_baseline c = b)
  /\ (forall a bd mb, (mb <= 1)%Q ->
      scored_rows T a (a - bd) (a - 1) 1 = scored_rows T a (a - bd) (a - 1) mb).
Proof.
  intros HT.
  assert (forall r, In r T -> 1 <= count r) as Hpos.
  { rewrite graphml_to_daily_counts_cases in HT.
    destruct (forallb _ _); [|discriminate].
    destruct (events strptime_Ymd G); [discriminate|].
    injection HT as <-. intros r. apply daily_counts_positive. }
  assert (forall a bd m b,
             In m (merged_baselines T a (a - bd) (a - 1)) -> m_baseline m = Some b ->
             (1 <= b)%Q) as Hb.
  { intros a bd m b Hm Hmb. apply merged_baselines_In in Hm as [_ Em].
    rewrite Em in Hmb. cbn [m_baseline merged_row] in Hmb.
    destruct (baseline_record T a bd (m_pair m)) as [[b' src]|] eqn:E;
      [|discriminate].
    injection Hmb as <-.
    apply baseline_record_mean in E as (g & Hg & Hsub & ->).
    apply mean_count_ge_1; auto. }
  split; [exact Hpos|]. split.
  - intros a bd m b Hm Hmb. split; [eauto|].
    unfold score. rewrite Hmb.
    assert (Qle_bool 1 b = true) as -> by (apply Qle_bool_iff; eauto).
    eexists; split; reflexivity.
  - intros a bd mb Hle. unfold scored_rows.
    apply filter_map_ext_in. intros m Hm.
    unfold score. destruct (m_baseline m) as [b|] eqn:Hmb; [|reflexivity].
    assert (1 <= b)%Q as H1 by (eapply Hb; eauto).
    assert (Qle_bool 1 b = true) as -> by now apply Qle_bool_iff.
    assert (Qle_bool mb b = true) as ->
        by (apply Qle_bool_iff; eapply Qle_trans; eauto).
    reflexivity.
Qed.

Lemma counts_at_least_one_witness :
  let m := {| m_country_code := "JP"; m_risk_type := "CIVIL_UNREST";
              m_today := 3; m_baseline := Some 1%Q |} in
  1 <= count (daily 739579 "JP" "CIVIL_UNREST" 3)
  /\ ((1 <= 1)%Q /\ exists c, score 1 m = Some c /\ c_baseline c = 1%Q)
  /\ scored_rows two_day_table 739579 (739579 - 7) (739579 - 1) 1
     = scored_rows two_day_table 739579 (739579 - 7) (739579 - 1) 0.
Proof.
  intros m.
  pose proof (counts_at_least_one strptime_digits two_day_graph _
                two_day_graph_counts) as (H1 & H2 & H3).
  split; [|split].
  - apply H1. simpl. auto.
  - apply (H2 739579 7 m 1%Q); [vm_compute; auto | reflexivity].
  - apply (H3 739579 7). discriminate.
Defined.

(** ** The order of tied rows under a stable sort *)

Lemma ascii_compare_refl (c : ascii) : Ascii.compare c c = Eq.
Proof. apply N.compare_refl. Qed.

Lemma string_compare_refl (s : string) : String.compare s s = Eq.
Proof.
  induction s as [|c s IH]; simpl; [reflexivity|].
  now rewrite ascii_compare_refl.
Qed.

Lemma string_compare_lt_trans (a b c : string) :
  String.compare a b = Lt -> String.compare b c = Lt ->
  String.compare a c = Lt.
Proof.
  revert b c. induction a as [|x a IH]; intros [|y b] [|z c]; simpl;
    try easy.
  destruct (Ascii.compare x y) eqn:Exy; try easy;
    destruct (Ascii.compare y z) eqn:Eyz; try easy.
  - apply Ascii.compare_eq_iff in Exy, Eyz. subst.
    rewrite ascii_compare_refl. apply IH.
  - apply Ascii.compare_eq_iff in Exy. subst. now rewrite Eyz.
  - apply Ascii.compare_eq_iff in Eyz. subst. now rewrite Exy.
  - unfold Ascii.compare in *.
    rewrite N.compare_lt_iff in Exy, Eyz.
    assert ((N_of_ascii x ?= N_of_ascii z)%N = Lt) as ->
        by (apply N.compare_lt_iff; lia).
    reflexivity.
Qed.

Lemma string_leb_trans (a b c : string) :
  String.leb a b = true -> String.leb b c = true -> String.leb a c = true.
Proof.
  unfold String.leb.
  destruct (String.compare a b) eqn:Eab; try easy;
    destruct (String.compare b c) eqn:Ebc; try easy; intros _ _.
  - apply String.compare_eq_iff in Eab, Ebc. subst.
    now rewrite string_compare_refl.
  - apply String.compare_eq_iff in Eab. subst. now rewrite Ebc.
  - apply String.compare_eq_iff in Ebc. subst. now rewrite Eab.
  - now rewrite (string_compare_lt_trans _ _ _ Eab Ebc).
Qed.

Lemma Pair_leb_trans (a b c : Pair) :
  Pair_leb a b = true -> Pair_leb b c = true -> Pair_leb a c = true.
Proof.
  unfold Pair_leb.
  destruct (String.compare (fst a) (fst b)) eqn:Eab; try easy;
    destruct (String.compare (fst b) (fst c)) eqn:Ebc; try easy.
  - apply String.compare_eq_iff in Eab, Ebc. rewrite Eab, Ebc.
    rewrite string_compare_refl. apply string_leb_trans.
  - apply String.compare_eq_iff in Eab. rewrite Eab, Ebc. reflexivity.
  - apply String.compare_eq_iff in Ebc. rewrite <- Ebc, Eab. reflexivity.
  - now rewrite (string_compare_lt_trans _ _ _ Eab Ebc).
Qed.

Lemma Pair_leb_total (a b : Pair) :
  Pair_leb a b = true \/ Pair_leb b a = true.
Proof.
  unfold Pair_leb. rewrite (String.compare_antisym (fst b) (fst a)).
  destruct (String.compare (fst a) (fst b)); simpl; auto.
  apply String.leb_total.
Qed.

Section SortedKeys.

Context {K : Type}.
Variable key_leb : K -> K -> bool.
Hypothesis key_leb_total :
  forall a b, key_leb a b = true \/ key_leb b a = true.
Hypothesis key_leb_trans :
  forall a b c, key_leb a b = true -> key_leb b c = true ->
                key_leb a c = true.

Lemma insert_sorted_sorted (k : K) (ks : list K) :
  StronglySorted (fun a b => key_leb a b = true) ks ->
  StronglySorted (fun a b => key_leb a b = true) (insert_sorted key_leb k ks).
Proof.
  induction 1 as [|k' ks Hs IH Hall]; simpl.
  - repeat constructor.
  - destruct (key_leb k k') eqn:E.
    + constructor; [now constructor|]. constructor; [exact E|].
      eapply Forall_impl; [|exact Hall]. intros z Hz. eauto.
    + constructor; [exact IH|].
      eapply Permutation_Forall; [apply insert_sorted_perm|].
      constructor; [|exact Hall].
      destruct (key_leb_total k k'); congruence.
Qed.

Lemma sort_keys_sorted (ks : list K) :
  StronglySorted (fun a b => key_leb a b = true) (sort_keys key_leb ks).
Proof.
  induction ks as [|k ks IH]; simpl; [constructor|].
  now apply insert_sorted_sorted.
Qed.

End SortedKeys.

(** The pairs of today come in country order, then risk order. *)
Lemma today_pairs_sorted (t : list DailyRow) (a : Z) :
  StronglySorted (fun x y => Pair_leb x y = true) (today_pairs t a).
Proof.
  apply sort_keys_sorted; [apply Pair_leb_total | apply Pair_leb_trans].
Qed.

Lemma StronglySorted_filter_map {A B : Type} (f : A -> option B)
    (RA : A -> A -> Prop) (RB : B -> B -> Prop) (l : list A) :
  (forall x y x' y', f x = Some x' -> f y = Some y' -> RA x y -> RB x' y') ->
  StronglySorted RA l -> StronglySorted RB (filter_map f l).
Proof.
  intros Hf. induction 1 as [|x l Hs IH Hall]; simpl; [constructor|].
  destruct (f x) as [x'|] eqn:E; [|exact IH].
  constructor; [exact IH|].
  apply Forall_forall. intros y' Hy'.
  apply filter_map_In in Hy' as (y & Hy & Ey).
  rewrite Forall_forall in Hall. eauto.
Qed.

Lemma StronglySorted_impl {A : Type} (R R' : A -> A -> Prop) (l : list A) :
  (forall x y, R x y -> R' x y) -> StronglySorted R l -> StronglySorted R' l.
Proof.
  intros HR. induction 1 as [|x l Hs IH Hall]; constructor; [exact IH|].
  eapply Forall_impl; [|exact Hall]. intros y. apply HR.
Qed.

Lemma StronglySorted_filter {A : Type} (p : A -> bool) (R : A -> A -> Prop)
    (l : list A) :
  StronglySorted R l -> StronglySorted R (filter p l).
Proof.
  induction 1 as [|x l Hs IH Hall]; simpl; [constructor|].
  destruct (p x); [|exact IH]. constructor; [exact IH|].
  apply Forall_forall. intros y Hy. apply filter_In in Hy as [Hy _].
  rewrite Forall_forall in Hall. auto.
Qed.

Lemma scored_rows_sorted (t : list DailyRow) (a bd : Z) (mb : Q) :
  StronglySorted (fun x y => Pair_leb (c_pair x) (c_pair y) = true)
                 (scored_rows t a (a - bd) (a - 1) mb).
Proof.
  unfold scored_rows. rewrite merged_baselines_eq.
  apply (StronglySorted_filter_map _
           (fun x y => Pair_leb (m_pair x) (m_pair y) = true)).
  - intros x y x' y' Hx Hy H. unfold score in Hx, Hy.
    destruct (m_baseline x); [|discriminate].
    destruct (Qle_bool mb q); [|discriminate].
    destruct (m_baseline y); [|discriminate].
    destruct (Qle_bool mb q0); [|discriminate].
    injection Hx as <-. injection Hy as <-. exact H.
  - apply StronglySorted_map.
    eapply StronglySorted_impl; [|apply today_pairs_sorted].
    intros x y. now rewrite !merged_row_pair.
Qed.

Section StableSort.

Context {A : Type}.
Variable f : A -> F64.
Variable leb : A -> A -> bool.

Lemma tie_order_desc (x y : A) :
  tie_order f leb x y = true -> f64_desc (f x) (f y) = true.
Proof.
  unfold tie_order, f64_gtb.
  destruct (f64_desc_total (f x) (f y)) as [E|E]; [now rewrite E|].
  rewrite E. destruct (f64_desc (f x) (f y)); simpl; [reflexivity|].
  discriminate.
Qed.

Lemma tie_order_of_desc (x y : A) :
  f64_desc (f x) (f y) = true -> leb x y = true -> tie_order f leb x y = true.
Proof.
  intros E L. unfold tie_order, f64_gtb. rewrite E. cbn [negb andb].
  rewrite andb_false_r. now destruct (f64_desc (f y) (f x)).
Qed.

Lemma tie_order_of_gt (x y : A) :
  f64_desc (f y) (f x) = false -> tie_order f leb x y = true.
Proof.
  intros E. unfold tie_order, f64_gtb. rewrite E.
  destruct (f64_desc_total (f x) (f y)) as [E'|E']; [|congruence].
  now rewrite E'.
Qed.

Lemma insert_stable_sorted (x : A) (l : list A) :
  Forall (fun y => leb x y = true) l ->
  StronglySorted (fun a b => tie_order f leb a b = true) l ->
  StronglySorted (fun a b => tie_order f leb a b = true)
                 (insert_row f before_stable x l).
Proof.
  intros Hx Hs. revert Hx.
  induction Hs as [|y l Hs IH Hall]; intros Hx; simpl.
  - repeat constructor.
  - unfold before_stable at 1. destruct (f64_desc (f x) (f y)) eqn:E.
    + constructor; [now constructor|].
      rewrite Forall_forall in Hx, Hall. apply Forall_forall.
      intros z [<-|Hz].
      * apply tie_order_of_desc; [exact E | apply Hx; now left].
      * apply tie_order_of_desc; [|apply Hx; now right].
        eapply f64_desc_trans; [exact E|]. apply tie_order_desc. auto.
    + inversion Hx as [|? ? _ Hx']; subst.
      constructor; [now apply IH|].
      eapply Permutation_Forall; [apply insert_row_perm|].
      constructor; [|exact Hall]. now apply tie_order_of_gt.
Qed.

(** A stable sort of rows that arrive in the order [leb] returns the
    rows of equal key in that order. *)
Lemma insertion_sort_stable (l : list A) :
  StronglySorted (fun a b => leb a b = true) l ->
  StronglySorted (fun a b => tie_order f leb a b = true)
                 (insertion_sort f before_stable l).
Proof.
  induction 1 as [|x l Hs IH Hall]; simpl; [constructor|].
  apply insert_stable_sorted; [|exact IH].
  eapply Permutation_Forall; [apply insertion_sort_perm | exact Hall].
Qed.

End StableSort.

Example tied_table_order :
  option_map (map sp_country_code)
    (match detect_spikes pandas_sorter tied_table (nov 24) 7 1 1 with
     | Ok out => Some out
     | Raise _ => None
     end)
  = Some ["JP"; "US"].
Proof. vm_compute. reflexivity. Qed.

Example four_pair_table_order :
  detect_spikes pandas_sorter four_pair_table (nov 24) 7 1 1
  = Ok [ {| sp_as_of := nov 24; sp_country_code := "US";
            sp_risk_type := "MILITARY"; sp_today := 4; sp_baseline := 1;
            sp_delta_percent := Fin 300 |};
         {| sp_as_of := nov 24; sp_country_code := "KR";
            sp_risk_type := "MILITARY"; sp_today := 4; sp_baseline := 1;
            sp_delta_percent := Fin 300 |};
         {| sp_as_of := nov 24; sp_country_code := "JP";
            sp_risk_type := "MILITARY"; sp_today := 3; sp_baseline := 1;
            sp_delta_percent := Fin 200 |};
         {| sp_as_of := nov 24; sp_country_code := "CN";
            sp_risk_type := "MILITARY"; sp_today := 3; sp_baseline := 1;
            sp_delta_percent := Fin 200 |} ].
Proof. vm_compute. reflexivity. Qed.

Example four_pair_table_stable :
  option_map (map sp_country_code)
    (match detect_spikes stable_sorter four_pair_table (nov 24) 7 1 1 with
     | Ok out => Some out
     | Raise _ => None
     end)
  = Some ["KR"; "US"; "CN"; "JP"].
Proof. vm_compute. reflexivity. Qed.

(** C1, as stated, fails: [sort_values] is asked to sort by
    [delta_percent] alone, with the default [kind], and the sort of
    numpy does not keep rows of equal key in their order.  On
    [four_pair_table] two pairs rise by 300 percent and two by 200, and
    each tie comes out with the larger country code first. *)
Lemma ties_not_ordered_by_country :
  exists out,
    detect_spikes pandas_sorter four_pair_table (nov 24) 7 1 1 = Ok out
    /\ ~ StronglySorted (fun s1 s2 => claimed_order s1 s2 = true) out.
Proof.
  eexists. split; [apply four_pair_table_order|]. intros H.
  apply StronglySorted_inv in H as [_ H].
  apply Forall_inv in H. vm_compute in H. discriminate H.
Qed.

(** C1, amended: whatever the table, the configuration and the sort, the
    returned rows stand by [delta_percent] descending, and none of them
    has a NaN delta.  The code names no further key: the order of rows
    with equal delta is the one the sort leaves, and it is the order by
    country code and then risk category when the sort is stable, because
    that is the order in which the rows reach the sort. *)
Theorem detect_spikes_sorted_by_delta (S : Sorter) (t : list DailyRow)
    (a bd : Z) (mb md : Q) (out : list Spike) :
  detect_spikes S t a bd mb md = Ok out ->
  StronglySorted by_delta_desc out
  /\ Forall (fun s => sp_delta_percent s <> NaN) out
  /\ (forall stable,
        detect_spikes stable_sorter t a bd mb md = Ok stable ->
        StronglySorted (fun s1 s2 => claimed_order s1 s2 = true) stable).
Proof.
  intros Hout. apply detect_spikes_Ok in Hout as [_ ->].
  split; [|split].
  - unfold spikes_in_window. destruct (df_today t a); [constructor|].
    apply StronglySorted_map. unfold by_delta_desc.
    cbn [with_as_of sp_delta_percent]. apply sort_values_desc.
  - apply Forall_forall. intros s Hs.
    apply spikes_in_window_In in Hs as (c & _ & Hp & ->).
    cbn. now apply passes_delta_not_nan in Hp.
  - intros stable Hst. apply detect_spikes_Ok in Hst as [_ ->].
    unfold spikes_in_window. destruct (df_today t a); [constructor|].
    apply StronglySorted_map.
    apply (insertion_sort_stable c_delta_percent
             (fun x y => Pair_leb (c_pair x) (c_pair y))).
    apply StronglySorted_filter, scored_rows_sorted.
Qed.

Lemma detect_spikes_sorted_by_delta_witness :
  exists out,
    detect_spikes pandas_sorter four_pair_table (nov 24) 7 1 1 = Ok out
    /\ StronglySorted by_delta_desc out
    /\ Forall (fun s => sp_delta_percent s <> NaN) out
    /\ (forall stable,
          detect_spikes stable_sorter four_pair_table (nov 24) 7 1 1 = Ok stable ->
          StronglySorted (fun s1 s2 => claimed_order s1 s2 = true) stable).
Proof.
  eexists. split; [apply four_pair_table_order|].
  apply (detect_spikes_sorted_by_delta pandas_sorter four_pair_table (nov 24) 7
           1 1).
  apply four_pair_table_order.
Defined.

(** * Further properties of the code *)

(** ** Classification *)

(** X1: [classify_event_risk] raises ValueError exactly when the root it
    reads from the action code passes [isdigit] and holds a character
    that is not a decimal digit; on every other input it returns one of
    the six categories. *)
Theorem classify_event_risk_returns_or_raises (cameo : option string)
    (labels : list string) :
  if cameo_decimal cameo
  then exists r, classify_event_risk cameo labels = Ok r
                 /\ In r risk_categories
  else classify_event_risk cameo labels = Raise ValueError.
Proof.
  destruct (cameo_decimal cameo) eqn:E.
  - now apply classify_event_risk_total.
  - now apply classify_event_risk_raises.
Qed.

Lemma coded_mapping_precedes_themes_witness :
  classify_event_risk (Some "190") ["FLOOD"] = Ok RISK_MILITARY
  /\ classify_event_risk (Some "042") ["FLOOD"] = Ok RISK_NATURAL_DISASTER.
Proof.
  split.
  - exact (coded_mapping_precedes_themes "1" "9" "0" ["FLOOD"]
             eq_refl eq_refl).
  - exact (coded_mapping_precedes_themes "0" "4" "2" ["FLOOD"]
             eq_refl eq_refl).
Defined.

Lemma contains_any_iff (up kws : list string) :
  contains_any up kws = true
  <-> exists t s, In t up /\ In s kws /\ PyStr.contains s t = true.
Proof.
  unfold contains_any. rewrite existsb_exists. split.
  - intros (t & Ht & H). apply existsb_exists in H as (s & Hs & H). eauto.
  - intros (t & s & Ht & Hs & H). exists t. split; [exact Ht|].
    apply existsb_exists. eauto.
Qed.

Lemma contains_any_incl (up up' kws : list string) :
  (forall t, In t up -> In t up') ->
  contains_any up kws = true -> contains_any up' kws = true.
Proof.
  intros Hsub. rewrite !contains_any_iff.
  intros (t & s & Ht & Hs & H). exists t, s. auto.
Qed.

Lemma contains_any_same_set (up up' kws : list string) :
  (forall t, In t up <-> In t up') ->
  contains_any up kws = contains_any up' kws.
Proof.
  intros H.
  destruct (contains_any up kws) eqn:E, (contains_any up' kws) eqn:E';
    try reflexivity.
  - apply (contains_any_incl up up') in E; [congruence | apply H].
  - apply (contains_any_incl up' up) in E'; [congruence | apply H].
Qed.

Lemma find_pointwise {A : Type} (p q : A -> bool) (l : list A) :
  (forall x, p x = q x) -> find p l = find q l.
Proof.
  intros H. induction l as [|x l IH]; simpl; [reflexivity|].
  rewrite H, IH. reflexivity.
Qed.

(** X3: the classification reads the theme labels as a set: two label
    lists with the same members, in any order and with any repetition,
    give the same result for every action code. *)
Theorem classification_reads_labels_as_set (cameo : option string)
    (labels labels' : list string) :
  (forall x, In x labels <-> In x labels') ->
  classify_event_risk cameo labels = classify_event_risk cameo labels'.
Proof.
  intros H.
  assert (_classify_by_theme_labels labels
          = _classify_by_theme_labels labels') as Ht.
  { rewrite !theme_labels_first_match. unfold first_match. f_equal.
    apply find_pointwise. intros b.
    apply contains_any_same_set. intros t. rewrite !in_map_iff.
    split; intros (x & <- & Hx); exists x; (split; [reflexivity|]);
      now apply H. }
  assert (classify_by_themes_or_other labels
          = classify_by_themes_or_other labels') as Ho.
  { unfold classify_by_themes_or_other. rewrite Ht.
    destruct labels as [|l ls], labels' as [|l' ls']; try reflexivity.
    exfalso. apply (proj2 (H l')). now left. }
  unfold classify_event_risk. now rewrite Ho.
Qed.

Lemma classification_reads_labels_as_set_witness :
  classify_event_risk (Some "042") ["riot"; "flood"]
  = classify_event_risk (Some "042") ["flood"; "riot"; "flood"].
Proof.
  apply (classification_reads_labels_as_set (Some "042")).
  intros x. simpl. tauto.
Defined.

(** X4: the keyword SANCTION of the economic bucket is never reached,
    because the political bucket holds it too and is tried first: theme
    labels classified ECONOMIC hold one of the other five economic
    keywords and no political keyword. *)
Theorem economic_needs_an_economic_keyword (labels : list string) :
  _classify_by_theme_labels labels = Some RISK_ECONOMIC ->
  contains_any (map PyStr.upper labels) kw_economic_only = true
  /\ contains_any (map PyStr.upper labels) kw_political = false.
Proof.
  rewrite theme_labels_first_match. unfold first_match, theme_buckets.
  cbn [find fst snd].
  set (up := map PyStr.upper labels).
  destruct (contains_any up kw_natural_disaster); [discriminate|].
  destruct (contains_any up kw_military); [discriminate|].
  destruct (contains_any up kw_protest); [discriminate|].
  destruct (contains_any up kw_terror); [discriminate|].
  destruct (contains_any up kw_political) eqn:P; [discriminate|].
  destruct (contains_any up kw_economic) eqn:E; [|discriminate].
  intros _. split; [|reflexivity].
  apply contains_any_iff in E as (t & s & Ht & Hs & H).
  apply contains_any_iff.
  assert (s <> "SANCTION") as Hne.
  { intros ->. rewrite <- not_true_iff_false in P. apply P.
    apply contains_any_iff. exists t, "SANCTION". repeat split; auto.
    simpl. auto 10. }
  exists t, s. repeat split; auto.
  simpl in Hs. simpl. intuition congruence.
Qed.

Lemma economic_needs_an_economic_keyword_witness :
  contains_any (map PyStr.upper ["Free trade talks"]) kw_economic_only = true
  /\ contains_any (map PyStr.upper ["Free trade talks"]) kw_political = false.
Proof.
  apply (economic_needs_an_economic_keyword ["Free trade talks"]).
  reflexivity.
Defined.

Example sanction_is_political :
  _classify_by_theme_labels ["New sanction list"] = Some RISK_POLITICAL.
Proof. reflexivity. Qed.

(** ** Spike detection *)

Lemma inject_Z_pos (z : Z) : (0 < inject_Z z)%Q <-> 0 < z.
Proof. unfold Qlt. simpl. lia. Qed.

Lemma inject_Z_neg (z : Z) : (inject_Z z < 0)%Q <-> z < 0.
Proof. unfold Qlt. simpl. lia. Qed.

Lemma Qlt_bool_iff (a b : Q) : Qlt_bool a b = true <-> (a < b)%Q.
Proof.
  unfold Qlt_bool. rewrite negb_true_iff, <- not_true_iff_false, Qle_bool_iff.
  split; [apply Qnot_le_lt | apply Qlt_not_le].
Qed.

(** The value of [(today - baseline) / baseline * 100.0], by cases on
    the baseline. *)
Lemma delta_of_cases (today : Z) (b : Q) :
  match delta_of today b with
  | Fin q => ~ (b == 0)%Q
             /\ (q == (inject_Z today - b) / b * 100)%Q
  | PosInf => (b == 0)%Q /\ 0 < today
  | NegInf => (b == 0)%Q /\ today < 0
  | NaN => (b == 0)%Q /\ today = 0
  end.
Proof.
  unfold delta_of, f64_div.
  destruct (Qeq_bool b 0) eqn:E.
  - apply Qeq_bool_iff in E.
    destruct (Qlt_bool 0 (inject_Z today - b)) eqn:P.
    + cbn. split; [exact E|]. apply Qlt_bool_iff in P.
      apply inject_Z_pos. rewrite E in P. lra.
    + destruct (Qlt_bool (inject_Z today - b) 0) eqn:N.
      * cbn. split; [exact E|]. apply Qlt_bool_iff in N.
        apply inject_Z_neg. rewrite E in N. lra.
      * cbn. split; [exact E|].
        rewrite <- not_true_iff_false, Qlt_bool_iff in P, N.
        rewrite E in P, N.
        assert (~ 0 < today) by (rewrite <- inject_Z_pos; lra).
        assert (~ today < 0) by (rewrite <- inject_Z_neg; lra).
        lia.
  - cbn [f64_times_100]. split.
    + intros H. apply Qeq_bool_iff in H. congruence.
    + rewrite !Qred_correct. reflexivity.
Qed.

(** X5: the [delta_percent] of a returned record is the quotient
    [(today - baseline) / baseline * 100] of its own two columns when
    the baseline is not zero; when the baseline is zero it is the
    infinity of the sign of [today], and [today] is then not zero. *)
Theorem delta_percent_of_record (S : Sorter) (t : list DailyRow) (a bd : Z)
    (mb md : Q) (out : list Spike) (s : Spike) :
  detect_spikes S t a bd mb md = Ok out -> In s out ->
  match sp_delta_percent s with
  | Fin q => ~ (sp_baseline s == 0)%Q
             /\ (q == (inject_Z (sp_today s) - sp_baseline s)
                      / sp_baseline s * 100)%Q
  | PosInf => (sp_baseline s == 0)%Q /\ 0 < sp_today s
  | NegInf => (sp_baseline s == 0)%Q /\ sp_today s < 0
  | NaN => False
  end.
Proof.
  intros Hout H. apply detect_spikes_Ok in Hout as [_ ->].
  pose proof (spikes_in_window_baseline _ _ _ _ _ _ _ H) as (_ & _ & _ & _ & Hd).
  pose proof (delta_of_cases (sp_today s) (sp_baseline s)) as Hc.
  rewrite <- Hd in Hc.
  apply spikes_in_window_In in H as (c & _ & Hp & ->).
  apply passes_delta_not_nan in Hp. cbn in *.
  destruct (c_delta_percent c); try exact Hc. now apply Hp.
Qed.

Lemma delta_percent_of_record_witness :
  match sp_delta_percent jp_spike with
  | Fin q => ~ (sp_baseline jp_spike == 0)%Q
             /\ (q == (inject_Z (sp_today jp_spike) - sp_baseline jp_spike)
                      / sp_baseline jp_spike * 100)%Q
  | PosInf => (sp_baseline jp_spike == 0)%Q /\ 0 < sp_today jp_spike
  | NegInf => (sp_baseline jp_spike == 0)%Q /\ sp_today jp_spike < 0
  | NaN => False
  end.
Proof.
  apply (delta_percent_of_record pandas_sorter recent_table (nov 24) 7 1 1
           [jp_spike]).
  - vm_compute. reflexivity.
  - now left.
Defined.

Lemma score_pair (mb : Q) (m : Merged) (c : Scored) :
  score mb m = Some c -> c_pair c = m_pair m.
Proof.
  unfold score. destruct (m_baseline m); [|discriminate].
  destruct (Qle_bool mb q); [|discriminate]. now intros [= <-].
Qed.

Lemma NoDup_map_filter_map {A B C : Type} (f : A -> option B) (kA : A -> C)
    (kB : B -> C) (l : list A) :
  (forall x y, f x = Some y -> kB y = kA x) ->
  NoDup (map kA l) -> NoDup (map kB (filter_map f l)).
Proof.
  intros Hk. induction l as [|x l IH]; simpl; intros Hnd; [constructor|].
  inversion Hnd as [|? ? Hx Hl]; subst.
  destruct (f x) as [y|] eqn:E; [|now apply IH].
  simpl. constructor; [|now apply IH].
  rewrite (Hk _ _ E). intros Hin. apply Hx.
  apply in_map_iff in Hin as (y' & Hy' & Hin').
  apply filter_map_In in Hin' as (x' & Hx' & E').
  apply in_map_iff. exists x'. split; [|exact Hx'].
  now rewrite <- (Hk _ _ E').
Qed.

Lemma filter_as_filter_map {Row : Type} (keep : Row -> bool)
    (rows : list Row) :
  filter keep rows
  = filter_map (fun r => if keep r then Some r else None) rows.
Proof.
  induction rows as [|r rows IH]; simpl; [reflexivity|].
  destruct (keep r); now rewrite IH.
Qed.

Lemma NoDup_map_filter {Row Key : Type} (key : Row -> Key)
    (keep : Row -> bool) (rows : list Row) :
  NoDup (map key rows) -> NoDup (map key (filter keep rows)).
Proof.
  intros Hnd. rewrite filter_as_filter_map.
  apply (NoDup_map_filter_map
           (fun r => if keep r then Some r else None) key key rows).
  - intros x y. destruct (keep x); [now intros [= <-] | discriminate].
  - exact Hnd.
Qed.

Lemma scored_rows_pairs_NoDup (t : list DailyRow) (a bd : Z) (mb : Q) :
  NoDup (map c_pair (scored_rows t a (a - bd) (a - 1) mb)).
Proof.
  unfold scored_rows. rewrite merged_baselines_eq.
  apply (NoDup_map_filter_map _ m_pair); [apply score_pair|].
  rewrite map_map.
  rewrite (map_ext _ (fun k => k)) by (intros; apply merged_row_pair).
  rewrite map_id. apply group_keys_NoDup.
Qed.

(** X6: a (country, risk) pair has at most one record in the returned
    frame, and two sorts return the same records, each the same number
    of times. *)
Theorem one_record_per_pair (S S' : Sorter) (t : list DailyRow) (a bd : Z)
    (mb md : Q) (out : list Spike) :
  detect_spikes S t a bd mb md = Ok out ->
  NoDup (map sp_pair out)
  /\ exists out', detect_spikes S' t a bd mb md = Ok out'
                  /\ Permutation out out'.
Proof.
  intros Hout. apply detect_spikes_Ok in Hout as [Hw ->].
  split; [|exists (spikes_in_window S' t a (a - bd) (a - 1) mb md);
           split; [now apply detect_spikes_Ok|]].
  - eapply Permutation_NoDup.
    + apply Permutation_map, spikes_in_window_perm.
    + rewrite map_map.
      rewrite (map_ext _ c_pair) by reflexivity.
      apply NoDup_map_filter, scored_rows_pairs_NoDup.
  - rewrite <- (spikes_in_window_perm S). apply spikes_in_window_perm.
Qed.

Lemma one_record_per_pair_witness :
  exists out,
    detect_spikes pandas_sorter tied_table (nov 24) 7 1 1 = Ok out
    /\ NoDup (map sp_pair out)
    /\ exists out', detect_spikes stable_sorter tied_table (nov 24) 7 1 1
                    = Ok out'
                    /\ Permutation out out'.
Proof.
  eexists. split; [vm_compute; reflexivity|].
  apply (one_record_per_pair pandas_sorter stable_sorter tied_table
           (nov 24) 7 1 1).
  vm_compute. reflexivity.
Defined.

Lemma f64_geq_weaken (x : F64) (y y' : Q) :
  (y <= y')%Q -> f64_geq x y' = true -> f64_geq x y = true.
Proof.
  intros Hle. destruct x; simpl; try easy.
  rewrite !Qle_bool_iff. intros H. eapply Qle_trans; eauto.
Qed.

(** X7: lowering a threshold never loses a record.  A record returned
    under [min_baseline_mean] and [min_delta_rel] is returned, the same,
    under every lower pair of thresholds, whatever the sort. *)
Theorem thresholds_only_remove (S S' : Sorter) (t : list DailyRow) (a bd : Z)
    (mb mb' md md' : Q) (out : list Spike) (s : Spike) :
  (mb <= mb')%Q -> (md <= md')%Q ->
  detect_spikes S t a bd mb' md' = Ok out -> In s out ->
  exists lower, detect_spikes S' t a bd mb md = Ok lower /\ In s lower.
Proof.
  intros Hmb Hmd Hout. apply detect_spikes_Ok in Hout as [Hw ->].
  exists (spikes_in_window S' t a (a - bd) (a - 1) mb md).
  split; [now apply detect_spikes_Ok|]. revert H.
  rewrite !spikes_in_window_In.
  intros (c & Hc & Hp & ->). exists c. split; [|split; [|reflexivity]].
  - apply scored_rows_In in Hc as (k & b & Hk & Hb & Hle & ->).
    apply scored_rows_In. exists k, b. repeat split; auto.
    apply Qle_bool_iff. apply Qle_bool_iff in Hle.
    eapply Qle_trans; eauto.
  - unfold passes_delta in *. eapply f64_geq_weaken; [|exact Hp]. lra.
Qed.

Lemma thresholds_only_remove_witness :
  exists lower,
    detect_spikes stable_sorter recent_table (nov 24) 7 0 (1 # 2) = Ok lower
    /\ In jp_spike lower.
Proof.
  apply (thresholds_only_remove pandas_sorter stable_sorter recent_table
           (nov 24) 7 0 1 (1 # 2) 1 [jp_spike] jp_spike); [lra | lra | |].
  - vm_compute. reflexivity.
  - now left.
Defined.

Lemma filter_filter_implied {A : Type} (p q : A -> bool) (l : list A) :
  (forall x, q x = true -> p x = true) ->
  filter q (filter p l) = filter q l.
Proof.
  intros H. induction l as [|x l IH]; simpl; [reflexivity|].
  destruct (p x) eqn:P; simpl; rewrite IH; [reflexivity|].
  destruct (q x) eqn:Q; [|reflexivity].
  apply H in Q. congruence.
Qed.

Lemma filter_comm {A : Type} (p q : A -> bool) (l : list A) :
  filter p (filter q l) = filter q (filter p l).
Proof.
  induction l as [|x l IH]; simpl; [reflexivity|].
  destruct (p x) eqn:P, (q x) eqn:Q; simpl; rewrite ?P, ?Q, IH; reflexivity.
Qed.

Lemma filter_none {A : Type} (p : A -> bool) (l : list A) :
  (forall x, p x = false) -> filter p l = [].
Proof.
  intros H. induction l as [|x l IH]; simpl; [reflexivity|].
  now rewrite H.
Qed.

(** X8: rows dated after [as_of] play no part: the frame returned for a
    table is the frame returned for its rows dated up to [as_of]. *)
Theorem later_rows_ignored (S : Sorter) (t : list DailyRow) (a bd : Z)
    (mb md : Q) :
  detect_spikes S (filter (fun r => date r <=? a) t) a bd mb md
  = detect_spikes S t a bd mb md.
Proof.
  unfold detect_spikes.
  destruct (baseline_window a bd) as [[bs be]|e] eqn:Ew; cbn [bind];
    [|reflexivity].
  apply baseline_window_Ok in Ew as [_ [= -> ->]]. cbn [fst snd]. f_equal.
  set (t' := filter (fun r => date r <=? a) t).
  assert (df_today t' a = df_today t a) as H1.
  { apply filter_filter_implied. intros r H.
    apply Z.eqb_eq in H. apply Z.leb_le. lia. }
  assert (df_base t' (a - bd) (a - 1) = df_base t (a - bd) (a - 1)) as H2.
  { apply filter_filter_implied. intros r H. unfold in_window in H.
    apply andb_true_iff in H as [_ H]. apply Z.leb_le in H.
    apply Z.leb_le. lia. }
  assert (df_all_before t' a = df_all_before t a) as H3.
  { apply filter_filter_implied. intros r H.
    apply Z.ltb_lt in H. apply Z.leb_le. lia. }
  unfold spikes_in_window, scored_rows, merged_baselines, first_merge,
    agg_today, agg_base, fb.
  now rewrite H1, H2, H3.
Qed.

Lemma rows_of_pair_filter (p : DailyRow -> bool) (t : list DailyRow)
    (k : Pair) :
  rows_of_pair (filter p t) k = filter p (rows_of_pair t k).
Proof. unfold rows_of_pair, group. apply filter_comm. Qed.

Lemma own_rows_decide (S S' : Sorter) (t t' : list DailyRow) (a bd : Z)
    (mb md : Q) (s : Spike) :
  rows_of_pair t (sp_pair s) = rows_of_pair t' (sp_pair s) ->
  In s (spikes_in_window S t a (a - bd) (a - 1) mb md) ->
  In s (spikes_in_window S' t' a (a - bd) (a - 1) mb md).
Proof.
  intros E. rewrite !spikes_in_window_In.
  intros (c & Hc & Hp & ->). exists c. split; [|split; [exact Hp|reflexivity]].
  apply scored_rows_In in Hc as (k & b & Hk & Hb & Hle & ->).
  assert (rows_of_pair t k = rows_of_pair t' k) as E'
      by (destruct k; exact E).
  assert (forall p, rows_of_pair (filter p t) k = rows_of_pair (filter p t') k)
    as Hf by (intros p; now rewrite !rows_of_pair_filter, E').
  apply scored_rows_In. exists k, b.
  unfold baseline_record, df_today, df_base, df_all_before in *.
  rewrite <- !Hf. auto.
Qed.

(** X9: the record of a pair depends on the rows of that pair alone: two
    tables that hold the same rows for a pair return the same record
    for it, or none at all, whatever their other rows. *)
Theorem record_depends_on_own_rows (S S' : Sorter) (t t' : list DailyRow)
    (a bd : Z) (mb md : Q) (out out' : list Spike) (s : Spike) :
  rows_of_pair t (sp_pair s) = rows_of_pair t' (sp_pair s) ->
  detect_spikes S t a bd mb md = Ok out ->
  detect_spikes S' t' a bd mb md = Ok out' ->
  (In s out <-> In s out').
Proof.
  intros E Hout Hout'.
  apply detect_spikes_Ok in Hout as [_ ->].
  apply detect_spikes_Ok in Hout' as [_ ->].
  split; apply own_rows_decide; congruence.
Qed.

Lemma record_depends_on_own_rows_witness :
  exists out out',
    detect_spikes pandas_sorter recent_table (nov 24) 7 1 1 = Ok out
    /\ detect_spikes stable_sorter
         (daily (nov 23) "US" "MILITARY" 4 :: recent_table) (nov 24) 7 1 1 = Ok out'
    /\ (In jp_spike out <-> In jp_spike out').
Proof.
  exists [jp_spike], [jp_spike].
  split; [vm_compute; reflexivity|]. split; [vm_compute; reflexivity|].
  apply (record_depends_on_own_rows pandas_sorter stable_sorter
           recent_table (daily (nov 23) "US" "MILITARY" 4 :: recent_table)
           (nov 24) 7 1 1 [jp_spike] [jp_spike] jp_spike).
  - reflexivity.
  - vm_compute. reflexivity.
  - vm_compute. reflexivity.
Defined.

(** X10: with [baseline_days] zero or negative the window holds no date,
    and every returned baseline is the fallback: the mean of the pair's
    counts over all its rows dated before [as_of]. *)
Theorem no_window_all_fallback (S : Sorter) (t : list DailyRow) (a bd : Z)
    (mb md : Q) (out : list Spike) (s : Spike) :
  bd <= 0 ->
  detect_spikes S t a bd mb md = Ok out -> In s out ->
  df_base t (a - bd) (a - 1) = []
  /\ baseline_record t a bd (sp_pair s) = Some (sp_baseline s, fallback)
  /\ sp_baseline s
     = mean_count (rows_of_pair (df_all_before t a) (sp_pair s)).
Proof.
  intros Hbd Hout H. apply detect_spikes_Ok in Hout as [_ ->].
  assert (df_base t (a - bd) (a - 1) = []) as Hw.
  { apply filter_none. intros r. unfold in_window.
    apply andb_false_iff.
    destruct (Z.leb_spec (a - bd) (date r)); [right | now left].
    apply Z.leb_gt. lia. }
  split; [exact Hw|].
  apply spikes_in_window_baseline in H as (_ & Hb & _).
  unfold baseline_record in *. rewrite Hw in *.
  change (rows_of_pair [] (sp_pair s)) with (@nil DailyRow) in *.
  destruct (rows_of_pair (df_all_before t a) (sp_pair s)) as [|r g];
    [discriminate|].
  cbn [option_map fst] in Hb. injection Hb as Hb.
  split; congruence.
Qed.

Lemma no_window_all_fallback_witness :
  df_base recent_table (nov 24) (nov 23) = []
  /\ baseline_record recent_table (nov 24) 0 (sp_pair jp_spike)
     = Some (sp_baseline jp_spike, fallback)
  /\ sp_baseline jp_spike
     = mean_count (rows_of_pair (df_all_before recent_table (nov 24))
                                (sp_pair jp_spike)).
Proof.
  apply (no_window_all_fallback pandas_sorter recent_table (nov 24) 0 1 1
           [jp_spike] jp_spike);
    [lia | vm_compute; reflexivity | now left].
Defined.

(** ** The extracted table *)

Lemma DayKey_leb_total (a b : DayKey) :
  DayKey_leb a b = true \/ DayKey_leb b a = true.
Proof.
  unfold DayKey_leb.
  destruct (Z.compare_spec (fst (fst a)) (fst (fst b)));
    destruct (Z.compare_spec (fst (fst b)) (fst (fst a)));
    try lia; auto.
  apply Pair_leb_total.
Qed.

Lemma DayKey_leb_trans (a b c : DayKey) :
  DayKey_leb a b = true -> DayKey_leb b c = true -> DayKey_leb a c = true.
Proof.
  unfold DayKey_leb.
  destruct (Z.compare_spec (fst (fst a)) (fst (fst b)));
    destruct (Z.compare_spec (fst (fst b)) (fst (fst c)));
    destruct (Z.compare_spec (fst (fst a)) (fst (fst c)));
    try lia; try easy.
  apply Pair_leb_trans.
Qed.

Lemma daily_counts_keys (rows : list EventRow) :
  map daily_key (daily_counts rows)
  = group_keys day_key DayKey_eq_dec DayKey_leb rows.
Proof.
  rewrite daily_counts_eq, map_map. unfold daily_key. cbn [date country_code risk_type].
  rewrite (map_ext _ (fun k => k)) by (now intros [[d c] r]).
  apply map_id.
Qed.

Lemma table_of_events (strptime_Ymd : string -> option Z) (G : Graph)
    (T : list DailyRow) :
  graphml_to_daily_counts strptime_Ymd G = Ok T ->
  T = daily_counts (flat_map event_rows_of (events strptime_Ymd G))
  /\ forallb event_decimal (events strptime_Ymd G) = true.
Proof.
  rewrite graphml_to_daily_counts_cases.
  destruct (forallb event_decimal (events strptime_Ymd G)); [|discriminate].
  destruct (events strptime_Ymd G); [discriminate|].
  now intros [= <-].
Qed.

(** X11: the table [graphml_to_daily_counts] returns has one row for each
    key (date, country, risk) and its rows stand in the order of the
    keys: by date, then country code, then risk type. *)
Theorem table_sorted_by_key (strptime_Ymd : string -> option Z) (G : Graph)
    (T : list DailyRow) :
  graphml_to_daily_counts strptime_Ymd G = Ok T ->
  NoDup (map daily_key T)
  /\ StronglySorted
       (fun r1 r2 => DayKey_leb (daily_key r1) (daily_key r2) = true) T.
Proof.
  intros H. apply table_of_events in H as [-> _]. split.
  - rewrite daily_counts_keys. apply group_keys_NoDup.
  - assert (StronglySorted (fun a b => DayKey_leb a b = true)
              (map daily_key
                 (daily_counts
                    (flat_map event_rows_of (events strptime_Ymd G)))))
      as Hs.
    { rewrite daily_counts_keys.
      apply sort_keys_sorted;
        [apply DayKey_leb_total | apply DayKey_leb_trans]. }
    revert Hs. generalize (daily_counts
                 (flat_map event_rows_of (events strptime_Ymd G))) as l.
    induction l as [|r l IH]; simpl; intros Hs; [constructor|].
    apply StronglySorted_inv in Hs as [Hs Hall].
    constructor; [now apply IH|]. now rewrite Forall_map in Hall.
Qed.

Lemma table_sorted_by_key_witness :
  NoDup (map daily_key
           [ daily 739579 "JP" "CIVIL_UNREST" 1;
             daily 739579 "JP" "NATURAL_DISASTER" 1;
             daily 739579 "US" "CIVIL_UNREST" 1 ]).
Proof.
  apply (table_sorted_by_key strptime_digits small_graph _ small_graph_counts).
Defined.

Lemma event_rows_as_pairs (evs : list EventRecord) :
  map day_key (flat_map event_rows_of evs)
  = map pair_key
        (flat_map (fun ev => map (fun cc => (ev, cc)) (ev_countries ev)) evs).
Proof.
  induction evs as [|ev evs IH]; [reflexivity|].
  cbn [flat_map]. rewrite !map_app, IH. f_equal.
  unfold event_rows_of. rewrite !map_map. reflexivity.
Qed.

Lemma length_filter_map {A B : Type} (f : A -> B) (q : B -> bool)
    (l : list A) :
  List.length (filter q (map f l))
  = List.length (filter (fun x => q (f x)) l).
Proof.
  induction l as [|x l IH]; simpl; [reflexivity|].
  destruct (q (f x)); simpl; now rewrite IH.
Qed.

Lemma group_size_by_key (rows : list EventRow) (k : DayKey) :
  List.length (group day_key DayKey_eq_dec rows k)
  = List.length
      (filter (fun k' => if DayKey_eq_dec k' k then true else false)
              (map day_key rows)).
Proof. unfold group. now rewrite length_filter_map. Qed.

(** X12: a row is in the table exactly when its count is at least one
    and is the number of (event, country) pairs of the kept events that
    have the row's date, country and risk category. *)
Theorem table_rows_count_pairs (strptime_Ymd : string -> option Z)
    (G : Graph) (T : list DailyRow) (r : DailyRow) :
  graphml_to_daily_counts strptime_Ymd G = Ok T ->
  (In r T
   <-> 1 <= count r
       /\ count r
          = Z.of_nat
              (List.length
                 (filter (fun p => if DayKey_eq_dec (pair_key p) (daily_key r)
                                   then true else false)
                         (all_event_pairs strptime_Ymd G)))).
Proof.
  intros H. apply table_of_events in H as [-> _].
  set (rows := flat_map event_rows_of (events strptime_Ymd G)).
  assert (forall k,
            List.length (group day_key DayKey_eq_dec rows k)
            = List.length
                (filter (fun p => if DayKey_eq_dec (pair_key p) k
                                  then true else false)
                        (all_event_pairs strptime_Ymd G))) as Hn.
  { intros k. rewrite group_size_by_key. unfold rows.
    rewrite event_rows_as_pairs. apply length_filter_map. }
  rewrite daily_counts_eq, in_map_iff. split.
  - intros (k & <- & Hk). unfold daily_key.
    cbn [count date country_code risk_type].
    replace (fst (fst k), snd (fst k), snd k) with k
      by (now destruct k as [[? ?] ?]).
    rewrite <- Hn. split; [|reflexivity].
    apply group_keys_In in Hk as (x & Hx & Hkx).
    assert (In x (group day_key DayKey_eq_dec rows k)) as Hg
        by (rewrite group_In; auto).
    destruct (group day_key DayKey_eq_dec rows k); [contradiction|].
    simpl List.length. lia.
  - intros [Hpos Hc]. exists (daily_key r). rewrite <- Hn in Hc. split.
    + destruct r as [d c rt n]. cbn in *. now rewrite Hc.
    + destruct (group day_key DayKey_eq_dec rows (daily_key r)) as [|x g] eqn:E.
      * simpl in Hc. lia.
      * apply group_keys_In. exists x.
        assert (In x (group day_key DayKey_eq_dec rows (daily_key r))) as Hx
            by (rewrite E; now left).
        rewrite group_In in Hx. exact Hx.
Qed.

Lemma table_rows_count_pairs_witness :
  In (daily 739579 "US" "CIVIL_UNREST" 1)
     [ daily 739579 "JP" "CIVIL_UNREST" 1;
       daily 739579 "JP" "NATURAL_DISASTER" 1;
       daily 739579 "US" "CIVIL_UNREST" 1 ]
  <-> 1 <= 1
      /\ 1 = Z.of_nat
               (List.length
                  (filter (fun p => if DayKey_eq_dec (pair_key p)
                                         (739579, "US", "CIVIL_UNREST")
                                    then true else false)
                          (all_event_pairs strptime_digits small_graph))).
Proof.
  apply (table_rows_count_pairs strptime_digits small_graph _
           (daily 739579 "US" "CIVIL_UNREST" 1) small_graph_counts).
Defined.


Lemma sum_count_ge_1 (g : list DailyRow) :
  g <> [] -> (forall r, In r g -> 1 <= count r) -> 1 <= sum_count g.
Proof.
  intros Hg H. apply sum_count_ge_length in H.
  destruct g; [contradiction|]. simpl List.length in H. lia.
Qed.

Lemma sum_count_filter_le (p : DailyRow -> bool) (l : list DailyRow) :
  (forall r, In r l -> 0 <= count r) ->
  sum_count (filter p l) <= sum_count l.
Proof.
  unfold sum_count, sum_Z.
  induction l as [|r l IH]; intros H; simpl; [lia|].
  assert (0 <= count r) by (apply H; now left).
  assert (fold_right Z.add 0 (map count (filter p l))
          <= fold_right Z.add 0 (map count l))
    by (apply IH; intros; apply H; now right).
  destruct (p r); simpl; lia.
Qed.

(** The counts of one day of the extracted table add up to no more than
    the number of rows the extraction appended. *)
Lemma extracted_day_total (strptime_Ymd : string -> option Z) (G : Graph)
    (T : list DailyRow) (a : Z) :
  graphml_to_daily_counts strptime_Ymd G = Ok T ->
  sum_count (df_today T a)
  <= Z.of_nat (List.length (all_event_pairs strptime_Ymd G)).
Proof.
  intros HT. apply table_of_events in HT as [-> _].
  unfold df_today. rewrite daily_counts_sum.
  assert (List.length (flat_map event_rows_of (events strptime_Ymd G))
          = List.length (all_event_pairs strptime_Ymd G)) as <-.
  { unfold all_event_pairs.
    rewrite <- (length_map day_key), event_rows_as_pairs.
    apply length_map. }
  pose proof (filter_length_le (fun r => r_date r =? a)
                (flat_map event_rows_of (events strptime_Ymd G))).
  lia.
Qed.

(** X15: on a table returned by [graphml_to_daily_counts], whose rows
    come from a list of fewer than 2^63 entries, every returned record
    has a today count and a baseline of at least one, and a finite
    delta above -100; so with [min_delta_rel] at least one (the
    default) every returned record is a rise of at least
    [min_delta_rel * 100] percent, and a fall is never returned. *)
Theorem extracted_table_spikes (strptime_Ymd : string -> option Z)
    (G : Graph) (T : list DailyRow) (S : Sorter) (a bd : Z) (mb md : Q)
    (out : list Spike) (s : Spike) :
  graphml_to_daily_counts strptime_Ymd G = Ok T ->
  Z.of_nat (List.length (all_event_pairs strptime_Ymd G)) < 2 ^ 63 ->
  detect_spikes S T a bd mb md = Ok out -> In s out ->
  1 <= sp_today s
  /\ (1 <= sp_baseline s)%Q
  /\ exists q, sp_delta_percent s = Fin q
               /\ (-100 < q)%Q
               /\ ((1 <= md)%Q -> (md * 100 <= q)%Q).
Proof.
  intros HT Hlen Hout Hs. apply detect_spikes_Ok in Hout as [_ ->].
  pose proof (extracted_day_total _ _ _ a HT) as Hday.
  assert (forall r, In r T -> 1 <= count r) as Hpos.
  { apply table_of_events in HT as [-> _]. intros r.
    apply daily_counts_positive. }
  pose proof Hs as Hin. apply spikes_in_window_In in Hin as (c & _ & Hp & Es).
  apply spikes_in_window_baseline in Hs as (Hk & Hb & _ & Ht & Hdelta).
  pose proof (delta_of_cases (sp_today s) (sp_baseline s)) as Hd.
  rewrite <- Hdelta in Hd.
  assert (1 <= sp_today s) as H1.
  { assert (1 <= sum_count (rows_of_pair (df_today T a) (sp_pair s))) as Hlo.
    { apply sum_count_ge_1; [exact Hk|].
      intros r Hr. apply Hpos. now apply rows_of_pair_sub in Hr. }
    assert (sum_count (rows_of_pair (df_today T a) (sp_pair s))
            <= sum_count (df_today T a)) as Hhi.
    { unfold rows_of_pair, group. apply sum_count_filter_le.
      intros r Hr. unfold df_today in Hr. apply filter_In in Hr as [Hr _].
      apply Hpos in Hr. lia. }
    rewrite Ht. unfold sum_int64. rewrite wrap_int64_small; lia. }
  assert (1 <= sp_baseline s)%Q as H2.
  { destruct (baseline_record T a bd (sp_pair s)) as [[b src]|] eqn:E;
      [|discriminate].
    cbn [option_map fst] in Hb. injection Hb as <-.
    apply baseline_record_mean in E as (g & Hg & Hsub & ->).
    apply mean_count_ge_1; auto. }
  split; [exact H1|]. split; [exact H2|].
  destruct (sp_delta_percent s) as [q| | |] eqn:Eq;
    try (destruct Hd as [Hz _]; rewrite Hz in H2; lra).
  destruct Hd as [Hnz Hq]. exists q. split; [reflexivity|].
  assert (1 <= inject_Z (sp_today s))%Q as Hx
      by (unfold Qle; simpl; lia).
  assert (q + 100 == inject_Z (sp_today s) / sp_baseline s * 100)%Q as Hq'
      by (rewrite Hq; field; exact Hnz).
  assert (0 < inject_Z (sp_today s) / sp_baseline s)%Q as Hpos'
      by (apply Qlt_shift_div_l; lra).
  assert (-100 < q)%Q as Hlow by lra.
  split; [exact Hlow|]. intros Hmd.
  subst s. unfold passes_delta in Hp. cbn in Eq. rewrite Eq in Hp.
  cbn [f64_abs f64_geq] in Hp. apply Qle_bool_iff in Hp.
  destruct (Qlt_le_dec q 0) as [Hneg|Hnn].
  - rewrite Qabs_neg in Hp by lra. lra.
  - rewrite Qabs_pos in Hp by exact Hnn. exact Hp.
Qed.

Lemma extracted_table_spikes_witness :
  1 <= sp_today two_day_spike
  /\ (1 <= sp_baseline two_day_spike)%Q
  /\ exists q, sp_delta_percent two_day_spike = Fin q
               /\ (-100 < q)%Q
               /\ ((1 <= 1)%Q -> (1 * 100 <= q)%Q).
Proof.
  apply (extracted_table_spikes strptime_digits two_day_graph two_day_table
           pandas_sorter 739579 7 1 1 [two_day_spike] two_day_spike
           two_day_graph_counts).
  - vm_compute. reflexivity.
  - vm_compute. reflexivity.
  - now left.
Defined.

(** ** The command line *)

Lemma fold_max_ge (rows : list DailyRow) (m : Z) :
  m <= fold_left (fun m x => Z.max m (date x)) rows m
  /\ forall r, In r rows ->
               date r <= fold_left (fun m x => Z.max m (date x)) rows m.
Proof.
  revert m. induction rows as [|x rows IH]; intros m; simpl.
  - split; [lia | contradiction].
  - destruct (IH (Z.max m (date x))) as [H1 H2]. split; [lia|].
    intros r [<-|Hr]; [lia | now apply H2].
Qed.

Lemma fold_max_in (rows : list DailyRow) (m : Z) :
  fold_left (fun m x => Z.max m (date x)) rows m = m
  \/ exists r, In r rows
               /\ date r = fold_left (fun m x => Z.max m (date x)) rows m.
Proof.
  revert m. induction rows as [|x rows IH]; intros m; simpl; [now left|].
  destruct (IH (Z.max m (date x))) as [E|(r & Hr & E)].
  - rewrite E. destruct (Z.max_spec m (date x)) as [[_ ->]|[_ ->]];
      [right; exists x; auto | now left].
  - right. exists r. auto.
Qed.

(** The latest date is the date of a row, and no row is later. *)
Lemma max_date_spec (t : list DailyRow) (a : Z) :
  max_date t = Some a ->
  (exists r, In r t /\ date r = a) /\ forall r, In r t -> date r <= a.
Proof.
  destruct t as [|r0 rows]; [discriminate|]. simpl. intros [= <-].
  destruct (fold_max_ge rows (date r0)) as [H1 H2]. split.
  - destruct (fold_max_in rows (date r0)) as [E|(r & Hr & E)].
    + exists r0. split; [now left | now rewrite E].
    + exists r. split; [now right | exact E].
  - intros r [<-|Hr]; [exact H1 | now apply H2].
Qed.

Lemma daily_counts_nonempty (rows : list EventRow) :
  rows <> [] -> daily_counts rows <> [].
Proof.
  destruct rows as [|x xs]; [contradiction|]. intros _ E.
  rewrite daily_counts_eq in E. apply map_eq_nil in E.
  assert (In (day_key x)
             (group_keys day_key DayKey_eq_dec DayKey_leb (x :: xs))) as Hin
      by (apply group_keys_In; exists x; split; [now left | reflexivity]).
  now rewrite E in Hin.
Qed.

(** The table [graphml_to_daily_counts] returns is never empty. *)
Lemma extracted_table_nonempty (strptime_Ymd : string -> option Z)
    (G : Graph) (T : list DailyRow) :
  graphml_to_daily_counts strptime_Ymd G = Ok T -> T <> [].
Proof.
  unfold graphml_to_daily_counts.
  destruct (extract_rows strptime_Ymd G (nodes G)) as [rows|e];
    [|discriminate].
  cbn [bind]. destruct rows as [|x xs]; [discriminate|].
  intros [= <-]. now apply daily_counts_nonempty.
Qed.

(** X16: without [--as-of], [main] takes for [as_of] the latest date of
    the table.  Then the table has a row dated [as_of] (the branch for
    no rows on [as_of] is not taken), no row is dated later, and every
    returned record carries that date. *)
Theorem main_default_as_of (strptime_Ymd strptime_Y_m_d : string -> option Z)
    (S : Sorter) (G : Graph) (args : Args) (out : list Spike) :
  truthy (arg_as_of args) = None ->
  main strptime_Ymd strptime_Y_m_d S G args = Ok out ->
  exists T a,
    graphml_to_daily_counts strptime_Ymd G = Ok T
    /\ max_date T = Some a
    /\ df_today T a <> []
    /\ (forall r, In r T -> date r <= a)
    /\ detect_spikes S T a (arg_baseline_days args)
         (arg_min_baseline_mean args) (arg_min_delta_rel args) = Ok out
    /\ forall s, In s out -> sp_as_of s = a.
Proof.
  intros Ha. unfold main. rewrite Ha.
  destruct (graphml_to_daily_counts strptime_Ymd G) as [T|e] eqn:ET;
    [|discriminate].
  cbn [bind].
  destruct (max_date T) as [a|] eqn:EM.
  - intros Hout. exists T, a.
    destruct (max_date_spec _ _ EM) as [(r & Hr & Hd) Hle].
    pose proof Hout as Hout'. apply detect_spikes_Ok in Hout' as [_ ->].
    repeat split; auto.
    + intros E. assert (In r (df_today T a)) as Hin.
      { unfold df_today. apply filter_In. split; [exact Hr|].
        now apply Z.eqb_eq. }
      now rewrite E in Hin.
    + intros s Hs. apply spikes_in_window_In in Hs as (c & _ & _ & ->).
      reflexivity.
  - exfalso. destruct T; [|discriminate].
    now apply extracted_table_nonempty in ET.
Qed.

Lemma main_default_as_of_witness :
  exists T a,
    graphml_to_daily_counts strptime_digits two_day_graph = Ok T
    /\ max_date T = Some a
    /\ df_today T a <> []
    /\ (forall r, In r T -> date r <= a)
    /\ detect_spikes pandas_sorter T a (arg_baseline_days default_args)
         (arg_min_baseline_mean default_args)
         (arg_min_delta_rel default_args)
       = Ok [two_day_spike]
    /\ forall s, In s [two_day_spike] -> sp_as_of s = a.
Proof.
  apply (main_default_as_of strptime_digits strptime_dashes pandas_sorter
           two_day_graph default_args [two_day_spike]).
  - reflexivity.
  - vm_compute. reflexivity.
Defined.

(** X17: [main] raises exactly in three cases, tried in this order: the
    extraction raises, and [main] raises its error; a given [--as-of]
    does not parse, ValueError; the window of [detect_spikes] cannot be
    formed from the date taken for [as_of] (the one given, or the latest
    date of the table) and [--baseline-days], OverflowError. *)
Theorem main_raises (strptime_Ymd strptime_Y_m_d : string -> option Z)
    (S : Sorter) (G : Graph) (args : Args) (e : exn) :
  main strptime_Ymd strptime_Y_m_d S G args = Raise e
  <-> graphml_to_daily_counts strptime_Ymd G = Raise e
      \/ (exists T s, graphml_to_daily_counts strptime_Ymd G = Ok T
                      /\ truthy (arg_as_of args) = Some s
                      /\ strptime_Y_m_d s = None
                      /\ e = ValueError)
      \/ (exists T a, graphml_to_daily_counts strptime_Ymd G = Ok T
                      /\ match truthy (arg_as_of args) with
                         | Some s => strptime_Y_m_d s = Some a
                         | None => max_date T = Some a
                         end
                      /\ ~ window_dates_exist a (arg_baseline_days args)
                      /\ e = OverflowError).
Proof.
  assert (forall T a,
             detect_spikes S T a (arg_baseline_days args)
               (arg_min_baseline_mean args) (arg_min_delta_rel args)
             = Raise e
             <-> ~ window_dates_exist a (arg_baseline_days args)
                 /\ e = OverflowError) as Hd.
  { intros T a. unfold detect_spikes.
    destruct (baseline_window a (arg_baseline_days args)) as [w|e'] eqn:Ew;
      cbn [bind].
    - apply baseline_window_Ok in Ew as [Hw _].
      split; [discriminate | now intros [Hn _]].
    - apply baseline_window_Raise in Ew as [Hn ->].
      split; [intros [= <-]; auto | now intros [_ ->]]. }
  unfold main.
  destruct (graphml_to_daily_counts strptime_Ymd G) as [T|e'] eqn:ET;
    cbn [bind].
  - destruct (truthy (arg_as_of args)) as [s|] eqn:Ea.
    + destruct (strptime_Y_m_d s) as [a|] eqn:Ep.
      * rewrite Hd. split.
        -- intros [Hn ->]. right. right. exists T, a. auto.
        -- intros [H|[(T' & s' & _ & [= <-] & H & _)
                     |(T' & a' & _ & H & Hn & ->)]];
             [discriminate | congruence |].
           injection H as <-. auto.
      * split.
        -- intros [= <-]. right. left. exists T, s. auto.
        -- intros [H|[(T' & s' & _ & _ & _ & ->)
                     |(T' & a' & _ & H & _)]];
             [discriminate | reflexivity |].
           discriminate.
    + destruct (max_date T) as [a|] eqn:EM.
      * rewrite Hd. split.
        -- intros [Hn ->]. right. right. exists T, a. auto.
        -- intros [H|[(T' & s' & _ & H & _)|(T' & a' & [= <-] & H & Hn & ->)]];
             [discriminate | discriminate |].
           assert (a' = a) as -> by congruence. auto.
      * split; [discriminate|].
        intros [H|[(T' & s' & _ & H & _)|(T' & a' & [= <-] & H & _)]];
          congruence.
  - split; [intros [= <-]; now left|].
    intros [[= <-]|[(T' & s' & H & _)|(T' & a' & H & _)]];
      [reflexivity | discriminate | discriminate].
Qed.

Example main_on_two_day_graph :
  main strptime_digits strptime_dashes pandas_sorter two_day_graph
       default_args = Ok [two_day_spike]
  /\ main strptime_digits strptime_dashes pandas_sorter two_day_graph
          (args_of (Some "2025-11-24") 7) = Ok [two_day_spike]
  /\ main strptime_digits strptime_dashes pandas_sorter two_day_graph
          (args_of (Some "2025-11-31") 7) = Raise ValueError
  /\ main strptime_digits strptime_dashes pandas_sorter two_day_graph
          (args_of (Some "2025-11-24") 1000000000) = Raise OverflowError
  /\ main strptime_digits strptime_dashes pandas_sorter two_day_graph
          (args_of None 739579) = Raise OverflowError
  /\ main strptime_digits strptime_dashes pandas_sorter superscript_graph
          (args_of (Some "2025-11-31") 1000000000) = Raise ValueError
  /\ main strptime_digits strptime_dashes pandas_sorter location_only_graph
          (args_of (Some "2025-11-31") 1000000000) = Raise RuntimeError.
Proof. vm_compute. repeat split; reflexivity. Qed.

(** ** From the CSV to events *)



Lemma f64_geq_desc (x y : F64) (q : Q) :
  f64_desc y x = true -> f64_geq x q = true -> f64_geq y q = true.
Proof.
  destruct x, y; simpl; try easy.
  rewrite !Qle_bool_iff. intros H1 H2. eapply Qle_trans; eauto.
Qed.

(** A larger delta never has a smaller severity. *)
Lemma classify_severity_monotone (x y : F64) :
  f64_desc y x = true ->
  severity_rank (classify_severity x) <= severity_rank (classify_severity y).
Proof.
  intros H. unfold classify_severity.
  pose proof (f64_geq_desc x y 1000 H) as H1.
  pose proof (f64_geq_desc x y 500 H) as H2.
  pose proof (f64_geq_desc x y 200 H) as H3.
  destruct (f64_geq x 1000); [rewrite H1 by reflexivity; simpl; lia|].
  destruct (f64_geq x 500);
    [rewrite H2 by reflexivity; destruct (f64_geq y 1000); simpl; lia|].
  destruct (f64_geq x 200);
    [rewrite H3 by reflexivity;
     destruct (f64_geq y 1000), (f64_geq y 500); simpl; lia|].
  destruct (f64_geq y 1000), (f64_geq y 500), (f64_geq y 200); simpl; lia.
Qed.

(** X19: the events [load_spike_events_from_csv] returns come most
    severe first: the severity never rises along the list. *)
Theorem events_most_severe_first (S : Sorter) (df : CsvFrame) (mt : Z)
    (mb md : Q) (events : list SpikeEvent) :
  load_spike_events_from_csv S df mt mb md = Ok events ->
  StronglySorted
    (fun e1 e2 =>
       severity_rank (se_severity e2) <= severity_rank (se_severity e1))
    events.
Proof.
  unfold load_spike_events_from_csv.
  destruct (missing_columns df); [|discriminate]. intros [= <-].
  apply StronglySorted_map. cbn [event_of_row se_severity].
  eapply StronglySorted_impl; [|apply sort_values_desc].
  intros x y. apply classify_severity_monotone.
Qed.

Example sample_csv_events :
  option_map (map (fun e => (se_country_code e, se_severity e)))
    match load_spike_events_from_csv stable_sorter sample_csv
            DEFAULT_MIN_TODAY DEFAULT_MIN_BASELINE DEFAULT_MIN_DELTA_PERCENT
    with Ok l => Some l | Raise _ => None end
  = Some [("DE", EXTREME); ("JP", HIGH)].
Proof. vm_compute. reflexivity. Qed.

Lemma events_most_severe_first_witness :
  StronglySorted
    (fun e1 e2 =>
       severity_rank (se_severity e2) <= severity_rank (se_severity e1))
    (map event_of_row
       [ csv "2025-11-24" "DE" "CIVIL_UNREST" 120 10 1100;
         csv "2025-11-24" "JP" "MILITARY" 40 5 700 ]).
Proof.
  apply (events_most_severe_first stable_sorter sample_csv
           DEFAULT_MIN_TODAY DEFAULT_MIN_BASELINE DEFAULT_MIN_DELTA_PERCENT).
  vm_compute. reflexivity.
Defined.

Example missing_column_raises :
  load_spike_events_from_csv stable_sorter
    {| csv_columns := ["as_of"; "country_code"; "risk_type"; "today";
                       "baseline"];
       csv_rows := [] |} 10 1 100
  = Raise ValueError.
Proof. reflexivity. Qed.

(** ** Severity, level and confidence *)

(** X20: the severity of [gdelt_spike_to_events.py] and the level of
    [gdelt_to_spike.py] never disagree on a delta: a HIGH or EXTREME
    delta has level critical, a MEDIUM delta is never info, and a LOW
    delta is never critical. *)
Theorem severity_and_level_agree (d : F64) :
  match classify_severity d with
  | HIGH | EXTREME => infer_level d = "critical"
  | MEDIUM => infer_level d <> "info"
  | LOW => infer_level d <> "critical"
  end.
Proof.
  unfold classify_severity, infer_level.
  assert (forall lo hi : Q, (lo <= hi)%Q ->
            f64_geq d hi = true -> f64_geq d lo = true) as W
      by (intros lo hi Hle; now apply f64_geq_weaken).
  destruct (f64_geq d 1000) eqn:E1.
  { rewrite (W 400%Q 1000%Q) by (try lra; assumption). reflexivity. }
  destruct (f64_geq d 500) eqn:E2.
  { rewrite (W 400%Q 500%Q) by (try lra; assumption). reflexivity. }
  destruct (f64_geq d 200) eqn:E3.
  { rewrite (W 150%Q 200%Q) by (try lra; assumption).
    destruct (f64_geq d 400), (f64_geq d 250); discriminate. }
  destruct (f64_geq d 400) eqn:E4.
  { rewrite (W 200%Q 400%Q) in E3 by (try lra; assumption). discriminate. }
  destruct (f64_geq d 250), (f64_geq d 150); discriminate.
Qed.

(** X21: [infer_confidence] gives its highest label only to a spike
    with at least 5 events today, a baseline not below 1 and a delta of
    at least 200 percent, with at least 10 sources when the number of
    sources is known, and with at least 30 events and a delta of at
    least 300 percent when it is not. *)
Theorem high_confidence_needs (d : F64) (n : Z) (b : F64)
    (sources : option Z) :
  infer_confidence d n b sources = conf_high ->
  5 <= n
  /\ f64_ltb b 1 = false
  /\ f64_geq d 200 = true
  /\ match sources with
     | Some k => 10 <= k
     | None => 30 <= n /\ f64_geq d 300 = true
     end.
Proof.
  unfold infer_confidence.
  destruct (n <? 5) eqn:En; [discriminate|].
  destruct (f64_ltb b 1) eqn:Eb; [discriminate|]. cbn [orb].
  apply Z.ltb_ge in En.
  destruct sources as [k|].
  - destruct (10 <=? k) eqn:Ek; cbn [andb].
    + destruct (f64_geq d 200) eqn:Ed.
      * intros _. apply Z.leb_le in Ek. auto.
      * destruct (5 <=? k); discriminate.
    + destruct (5 <=? k); discriminate.
  - destruct (f64_geq d 300) eqn:Ed; cbn [andb].
    + destruct (30 <=? n) eqn:E30.
      * intros _. apply Z.leb_le in E30. repeat split; auto.
        eapply f64_geq_weaken; [|exact Ed]. lra.
      * destruct (f64_geq d 150 && (10 <=? n)); discriminate.
    + destruct (f64_geq d 150 && (10 <=? n)); discriminate.
Qed.

Lemma high_confidence_needs_witness :
  5 <= 120
  /\ f64_ltb (Fin (61 # 2)) 1 = false
  /\ f64_geq (Fin 350) 200 = true
  /\ 10 <= 12.
Proof.
  apply (high_confidence_needs (Fin 350) 120 (Fin (61 # 2)) (Some 12)).
  reflexivity.
Defined.

(** ** The sender *)

Section SenderFacts.

Variable post : Z -> PostResult.
Variable float_of : string -> option F64.
Variable sleep_raises : F64 -> bool.
Variable max_retries : Z.
Variable retry_backoff_sec : Q.

Lemma posts_app (l l' : list Action) :
  posts (l ++ l') = (posts l + posts l')%nat.
Proof. unfold posts. now rewrite filter_app, length_app. Qed.

Lemma posts_cons_sleeps (mid : list Action) :
  posts mid = 0%nat -> posts (Post :: mid) = 1%nat.
Proof.
  intros H. change (Post :: mid) with ([Post] ++ mid)%list.
  now rewrite posts_app, H.
Qed.

(** The handler: the loop ends at the last attempt, is left by a sleep
    that raises, or goes on after a sleep. *)
Lemma on_exception_cases (attempt : Z)
    (next : list Action -> Sent * list Action) (done : list Action) :
  (attempt = max_retries
   /\ on_exception sleep_raises max_retries retry_backoff_sec attempt next done
      = (SenderError, done))
  \/ (exists x, sleep_raises x = true
      /\ on_exception sleep_raises max_retries retry_backoff_sec attempt
           next done
         = (SleepError, (done ++ [Sleep x])%list))
  \/ (exists x, on_exception sleep_raises max_retries retry_backoff_sec
                  attempt next done
                = next (done ++ [Sleep x])%list).
Proof.
  unfold on_exception. destruct (Z.eqb_spec attempt max_retries) as [->|Hne].
  - left. auto.
  - match goal with
    | |- context [sleep_raises ?x] => destruct (sleep_raises x) eqn:E
    end; [right; left | right; right]; eauto.
Qed.

(** One attempt that does not get a 204: a POST, then sleeps only; the
    loop goes on, or ends without delivery. *)
Lemma attempt_without_204 (todo : nat) (attempt : Z) (done : list Action) :
  is_204 (post attempt) = false ->
  exists mid,
    posts mid = 0%nat
    /\ (attempts post float_of sleep_raises max_retries retry_backoff_sec
          (S todo) attempt done
        = attempts post float_of sleep_raises max_retries retry_backoff_sec
            todo (attempt + 1) (done ++ Post :: mid)
        \/ (attempt = max_retries
            /\ attempts post float_of sleep_raises max_retries
                 retry_backoff_sec (S todo) attempt done
               = (SenderError, (done ++ Post :: mid)%list))
        \/ ((exists x, sleep_raises x = true)
            /\ attempts post float_of sleep_raises max_retries
                 retry_backoff_sec (S todo) attempt done
               = (SleepError, (done ++ Post :: mid)%list))).
Proof.
  intros H. cbn [attempts].
  set (next := attempts post float_of sleep_raises max_retries
                 retry_backoff_sec todo (attempt + 1)).
  assert (forall mid, posts mid = 0%nat ->
            exists mid',
              posts mid' = 0%nat
              /\ (on_exception sleep_raises max_retries retry_backoff_sec
                    attempt next ((done ++ [Post]) ++ mid)
                  = next (done ++ Post :: mid')%list
                  \/ (attempt = max_retries
                      /\ on_exception sleep_raises max_retries
                           retry_backoff_sec attempt next
                           ((done ++ [Post]) ++ mid)
                         = (SenderError, (done ++ Post :: mid')%list))
                  \/ ((exists x, sleep_raises x = true)
                      /\ on_exception sleep_raises max_retries
                           retry_backoff_sec attempt next
                           ((done ++ [Post]) ++ mid)
                         = (SleepError, (done ++ Post :: mid')%list))))
    as Hexc.
  { intros mid Hmid.
    destruct (on_exception_cases attempt next ((done ++ [Post]) ++ mid))
      as [[Ha E]|[(x & Hx & E)|(x & E)]]; rewrite E.
    - exists mid. split; [exact Hmid|]. right. left.
      now rewrite <- app_assoc.
    - exists (mid ++ [Sleep x])%list.
      split; [rewrite posts_app, Hmid; reflexivity|]. right. right.
      split; [eauto|]. now rewrite <- !app_assoc.
    - exists (mid ++ [Sleep x])%list.
      split; [rewrite posts_app, Hmid; reflexivity|]. left.
      now rewrite <- !app_assoc. }
  destruct (post attempt) as [c ra|]; cbn [is_204] in H.
  - rewrite H. destruct (c =? 429).
    + match goal with
      | |- context [sleep_raises ?x] => set (sl := x)
      end.
      destruct (sleep_raises sl).
      * apply (Hexc [Sleep sl]). reflexivity.
      * exists [Sleep sl]. split; [reflexivity|]. left.
        now rewrite <- app_assoc.
    + rewrite <- (app_nil_r (done ++ [Post])). apply (Hexc []). reflexivity.
  - rewrite <- (app_nil_r (done ++ [Post])). apply (Hexc []). reflexivity.
Qed.

Lemma attempt_with_204 (todo : nat) (attempt : Z) (done : list Action) :
  is_204 (post attempt) = true ->
  attempts post float_of sleep_raises max_retries retry_backoff_sec
    (S todo) attempt done
  = (Delivered, (done ++ [Post])%list).
Proof.
  intros H. cbn [attempts].
  destruct (post attempt) as [c ra|]; cbn [is_204] in H; [|discriminate].
  now rewrite H.
Qed.

(** What the attempts add to the actions, and what a delivery means. *)
Lemma attempts_trace (todo : nat) (attempt : Z) (done : list Action) :
  exists extra,
    snd (attempts post float_of sleep_raises max_retries retry_backoff_sec
           todo attempt done) = (done ++ extra)%list
    /\ (posts extra <= todo)%nat
    /\ (fst (attempts post float_of sleep_raises max_retries
               retry_backoff_sec todo attempt done) = Delivered ->
        exists k,
          attempt <= k < attempt + Z.of_nat todo
          /\ is_204 (post k) = true
          /\ Z.of_nat (posts extra) = k - attempt + 1
          /\ (forall j, attempt <= j < k -> is_204 (post j) = false)
          /\ exists before, extra = (before ++ [Post])%list).
Proof.
  revert attempt done. induction todo as [|todo IH]; intros attempt done.
  - exists []. cbn [attempts fst snd]. rewrite app_nil_r.
    repeat split; try easy.
  - destruct (is_204 (post attempt)) eqn:E.
    + rewrite (attempt_with_204 _ _ _ E). cbn [fst snd].
      exists [Post]. split; [reflexivity|]. split; [cbn; lia|].
      intros _. exists attempt. split; [lia|]. split; [exact E|].
      split; [cbn; lia|]. split; [intros j Hj; lia | now exists []].
    + destruct (attempt_without_204 todo attempt done E)
        as (mid & Hmid & [Hrun|[[_ Hrun]|[_ Hrun]]]); rewrite Hrun.
      * destruct (IH (attempt + 1) (done ++ Post :: mid)%list)
          as (extra & Htr & Hn & Hd).
        exists (Post :: mid ++ extra)%list.
        split; [rewrite Htr, <- app_assoc; reflexivity|].
        assert (posts (Post :: mid ++ extra) = S (posts extra)) as Hp.
        { change (Post :: mid ++ extra)%list
            with ([Post] ++ mid ++ extra)%list.
          rewrite !posts_app, Hmid. reflexivity. }
        split; [rewrite Hp; lia|].
        intros HD. destruct (Hd HD) as (k & Hk & H204 & Hc & Hj & (b & Hb)).
        exists k. split; [lia|]. split; [exact H204|].
        split; [rewrite Hp; lia|]. split.
        -- intros j Hjr. destruct (Z.eq_dec j attempt) as [->|Hne];
             [exact E | apply Hj; lia].
        -- exists (Post :: mid ++ b)%list. rewrite Hb.
           now rewrite <- !app_comm_cons, <- app_assoc.
      * cbn [fst snd]. exists (Post :: mid). split; [reflexivity|].
        split; [rewrite (posts_cons_sleeps _ Hmid); lia | discriminate].
      * cbn [fst snd]. exists (Post :: mid). split; [reflexivity|].
        split; [rewrite (posts_cons_sleeps _ Hmid); lia | discriminate].
Qed.

(** When no sleep raises, a 204 among the attempts left is reached. *)
Lemma attempts_reach_204 (todo : nat) (attempt : Z) (done : list Action) :
  (forall x, sleep_raises x = false) ->
  attempt + Z.of_nat todo = max_retries + 1 ->
  fst (attempts post float_of sleep_raises max_retries retry_backoff_sec
         todo attempt done) <> SleepError
  /\ ((exists k, attempt <= k <= max_retries /\ is_204 (post k) = true) ->
      fst (attempts post float_of sleep_raises max_retries retry_backoff_sec
             todo attempt done) = Delivered).
Proof.
  intros Hno. revert attempt done.
  induction todo as [|todo IH]; intros attempt done Hinv.
  - cbn [attempts fst]. split; [discriminate|]. intros (k & Hk & _). lia.
  - destruct (is_204 (post attempt)) eqn:E.
    + rewrite (attempt_with_204 _ _ _ E). cbn [fst].
      split; [discriminate | reflexivity].
    + destruct (attempt_without_204 todo attempt done E)
        as (mid & Hmid & [Hrun|[[Ha Hrun]|[[x Hx] Hrun]]]); rewrite Hrun.
      * destruct (IH (attempt + 1) (done ++ Post :: mid)%list) as [H1 H2];
          [lia|].
        split; [exact H1|]. intros (k & Hk & H204). apply H2.
        exists k. split; [|exact H204].
        destruct (Z.eq_dec k attempt) as [->|Hne]; [congruence | lia].
      * cbn [fst]. split; [discriminate|].
        intros (k & Hk & H204).
        assert (k = attempt) as -> by lia. congruence.
      * rewrite Hno in Hx. discriminate.
Qed.

End SenderFacts.

(** X22: [send_discord_payload] makes at most [max_retries] POSTs, none
    when [max_retries] is zero or negative.  When it returns, its last
    action was a POST answered 204, the first one so answered, and the
    number of POSTs is the number of that attempt. *)
Theorem send_discord_payload_posts (post : Z -> PostResult)
    (float_of : string -> option F64) (sleep_raises : F64 -> bool)
    (max_retries : Z) (backoff : Q) :
  let out := send_discord_payload post float_of sleep_raises max_retries
               backoff in
  Z.of_nat (posts (snd out)) <= Z.max 0 max_retries
  /\ (max_retries <= 0 -> out = (SenderError, []))
  /\ (fst out = Delivered ->
      exists k before,
        1 <= k <= max_retries
        /\ is_204 (post k) = true
        /\ (forall j, 1 <= j < k -> is_204 (post j) = false)
        /\ Z.of_nat (posts (snd out)) = k
        /\ snd out = (before ++ [Post])%list).
Proof.
  intros out. unfold out, send_discord_payload.
  destruct (attempts_trace post float_of sleep_raises max_retries backoff
              (Z.to_nat max_retries) 1 [])
    as (extra & Htr & Hn & Hd).
  cbn [app] in Htr. rewrite Htr. split; [lia|]. split.
  - intros Hle. replace (Z.to_nat max_retries) with 0%nat by lia.
    reflexivity.
  - intros HD. destruct (Hd HD) as (k & Hk & H204 & Hc & Hj & (b & Hb)).
    exists k, b. repeat split; auto; lia.
Qed.

Lemma send_discord_payload_posts_witness :
  exists k before,
    1 <= k <= 3
    /\ is_204 (flaky_webhook k) = true
    /\ (forall j, 1 <= j < k -> is_204 (flaky_webhook j) = false)
    /\ Z.of_nat
         (posts (snd (send_discord_payload flaky_webhook (fun _ => None)
                        (fun _ => false) 3 2))) = k
    /\ snd (send_discord_payload flaky_webhook (fun _ => None)
              (fun _ => false) 3 2)
       = (before ++ [Post])%list.
Proof.
  apply (send_discord_payload_posts flaky_webhook (fun _ => None)
           (fun _ => false) 3 2).
  reflexivity.
Defined.

(** X23: when no [time.sleep] raises, [send_discord_payload] returns
    exactly when one of the first [max_retries] POSTs is answered 204,
    and raises DiscordSenderError otherwise: every other answer (a 429,
    another status, an exception of the request) is retried. *)
Theorem send_discord_payload_delivers (post : Z -> PostResult)
    (float_of : string -> option F64) (sleep_raises : F64 -> bool)
    (max_retries : Z) (backoff : Q) :
  (forall x, sleep_raises x = false) ->
  let out := send_discord_payload post float_of sleep_raises max_retries
               backoff in
  (fst out = Delivered
   <-> exists k, 1 <= k <= max_retries /\ is_204 (post k) = true)
  /\ (fst out <> Delivered -> fst out = SenderError).
Proof.
  intros Hno out. unfold out, send_discord_payload.
  destruct (Z_le_gt_dec max_retries 0) as [Hle|Hgt].
  - replace (Z.to_nat max_retries) with 0%nat by lia. cbn [attempts fst].
    split; [|reflexivity]. split; [discriminate|].
    intros (k & Hk & _). lia.
  - destruct (attempts_reach_204 post float_of sleep_raises max_retries
                backoff (Z.to_nat max_retries) 1 [] Hno) as [H1 H2]; [lia|].
    split; [split|].
    + intros HD.
      destruct (attempts_trace post float_of sleep_raises max_retries backoff
                  (Z.to_nat max_retries) 1 []) as (extra & _ & _ & Hd).
      destruct (Hd HD) as (k & Hk & H204 & _). exists k. split; [lia|auto].
    + exact H2.
    + intros Hnd.
      destruct (fst (attempts post float_of sleep_raises max_retries backoff
                       (Z.to_nat max_retries) 1 [])); congruence.
Qed.

Lemma send_discord_payload_delivers_witness :
  (fst (send_discord_payload flaky_webhook (fun _ => None) (fun _ => false)
          3 2) = Delivered
   <-> exists k, 1 <= k <= 3 /\ is_204 (flaky_webhook k) = true)
  /\ (fst (send_discord_payload flaky_webhook (fun _ => None)
             (fun _ => false) 3 2) <> Delivered ->
      fst (send_discord_payload flaky_webhook (fun _ => None)
             (fun _ => false) 3 2) = SenderError).
Proof.
  apply (send_discord_payload_delivers flaky_webhook (fun _ => None)
           (fun _ => false) 3 2).
  reflexivity.
Defined.

Example flaky_webhook_trace :
  send_discord_payload flaky_webhook (fun _ => None) (fun _ => false) 3 2
  = (Delivered,
     [Post; Sleep (Fin 2); Post; Sleep (Fin 4); Post]).
Proof. vm_compute. reflexivity. Qed.

Example two_tries_do_not_suffice :
  fst (send_discord_payload flaky_webhook (fun _ => None) (fun _ => false)
         2 2)
  = SenderError.
Proof. reflexivity. Qed.

Section BatchFacts.

Context {Event : Type}.
Variable send_spike_event : Event -> bool.
Variable max_events : Z.
Variable pause : bool.

(** The pauses made while sending [m] events from index [i] on. *)
Let pauses_added (i : Z) (m : nat) : nat :=
  if pause then Z.to_nat (Z.min (Z.of_nat m) (max_events - 1 - i)) else 0%nat.

Lemma batch_from_spec (events : list Event) :
  forall (i : Z) (sent : list Event) (pauses : nat),
    batch_from send_spike_event max_events pause i events sent pauses
    = let pre := firstn (Z.to_nat (max_events - i)) events in
      if forallb send_spike_event pre
      then Some ((sent ++ pre)%list,
                 (pauses + pauses_added i (List.length pre))%nat)
      else None.
Proof.
  induction events as [|ev rest IH]; intros i sent pauses.
  - cbn [batch_from]. rewrite firstn_nil. cbn [forallb List.length].
    rewrite app_nil_r. unfold pauses_added. f_equal. f_equal.
    destruct pause; lia.
  - cbn [batch_from]. destruct (Z.leb_spec max_events i) as [Hle|Hlt].
    + replace (Z.to_nat (max_events - i)) with 0%nat by lia.
      cbn [firstn forallb List.length]. rewrite app_nil_r.
      unfold pauses_added. f_equal. f_equal. destruct pause; lia.
    + replace (Z.to_nat (max_events - i))
        with (S (Z.to_nat (max_events - (i + 1)))) by lia.
      cbn [firstn forallb]. destruct (send_spike_event ev); [|reflexivity].
      rewrite IH. cbn [andb].
      destruct (forallb send_spike_event
                  (firstn (Z.to_nat (max_events - (i + 1))) rest));
        [|reflexivity].
      rewrite <- app_assoc. cbn [app List.length]. f_equal. f_equal.
      unfold pauses_added. destruct pause; cbn [andb]; [|lia].
      destruct (Z.ltb_spec i (max_events - 1)); lia.
Qed.

End BatchFacts.

(** X24: [send_spike_events_batch] sends the events in order and stops
    at the first send that raises, whose exception it lets through, or
    after [max_events] events.  When it returns, the list returned is
    the first [max_events] events (none when [max_events] is zero or
    negative), and the number of pauses is the number of events sent but
    at most [max_events - 1], or zero in a dry run or without a positive
    interval. *)
Theorem send_spike_events_batch_prefix {Event : Type}
    (send_spike_event : Event -> bool) (max_events : Z) (pause : bool)
    (events : list Event) :
  let first := firstn (Z.to_nat max_events) events in
  match send_spike_events_batch send_spike_event max_events pause events with
  | Some (sent, pauses) =>
      sent = first
      /\ forallb send_spike_event first = true
      /\ Z.of_nat pauses
         = if pause
           then Z.max 0 (Z.min (Z.of_nat (List.length sent)) (max_events - 1))
           else 0
  | None => exists ev, In ev first /\ send_spike_event ev = false
  end.
Proof.
  intros first. unfold send_spike_events_batch. rewrite batch_from_spec.
  cbn zeta. replace (max_events - 0) with max_events by lia. fold first.
  destruct (forallb send_spike_event first) eqn:E.
  - cbn [app]. split; [reflexivity|]. split; [reflexivity|].
    destruct pause; lia.
  - rewrite <- not_true_iff_false, forallb_forall in E.
    destruct (existsb (fun ev => negb (send_spike_event ev)) first) eqn:X.
    + apply existsb_exists in X as (ev & Hev & Hs).
      exists ev. split; [exact Hev|]. now apply negb_true_iff.
    + exfalso. apply E. intros ev Hev.
      rewrite <- not_true_iff_false, existsb_exists in X.
      destruct (send_spike_event ev) eqn:S; [reflexivity|].
      exfalso. apply X. exists ev. now rewrite S.
Qed.

Example batch_of_three_max_two :
  send_spike_events_batch (fun _ : string => true) 2 true ["a"; "b"; "c"]
  = Some (["a"; "b"], 1%nat).
Proof. reflexivity. Qed.

Example batch_stops_at_failure :
  send_spike_events_batch (fun ev => negb (ev =? "b")%string) 5 true
    ["a"; "b"; "c"]
  = None.
Proof. reflexivity. Qed.

Example batch_pauses_after_the_last_event :
  send_spike_events_batch (fun _ : string => true) 5 true ["a"; "b"]
  = Some (["a"; "b"], 2%nat).
Proof. reflexivity. Qed.

(** ** The themes column *)

Lemma all_chars_impl (P P' : ascii -> bool) (s : string) :
  (forall c, P c = true -> P' c = true) ->
  PyStr.all_chars P s = true -> PyStr.all_chars P' s = true.
Proof.
  intros H. induction s as [|c s IH]; simpl; [reflexivity|].
  rewrite !andb_true_iff. intros [H1 H2]. auto.
Qed.

Lemma lstrip_all_chars (P : ascii -> bool) (s : string) :
  PyStr.all_chars P s = true -> PyStr.all_chars P (PyStr.lstrip s) = true.
Proof.
  induction s as [|c s IH]; simpl; [reflexivity|].
  intros H. destruct (PyStr.isspace_char c); [|exact H].
  apply andb_true_iff in H as [_ H]. now apply IH.
Qed.

Lemma rstrip_all_chars (P : ascii -> bool) (s : string) :
  PyStr.all_chars P s = true -> PyStr.all_chars P (PyStr.rstrip s) = true.
Proof.
  induction s as [|c s IH]; [reflexivity|].
  cbn [PyStr.all_chars PyStr.rstrip]. intros H.
  apply andb_true_iff in H as [Hc Hs]. specialize (IH Hs).
  destruct (PyStr.rstrip s) as [|d r].
  - destruct (PyStr.isspace_char c); [reflexivity|].
    cbn [PyStr.all_chars]. now rewrite Hc.
  - cbn [PyStr.all_chars] in *. now rewrite Hc.
Qed.

Lemma rstrip_idempotent (s : string) :
  PyStr.rstrip (PyStr.rstrip s) = PyStr.rstrip s.
Proof.
  induction s as [|c s IH]; [reflexivity|]. cbn [PyStr.rstrip].
  destruct (PyStr.rstrip s) as [|d r] eqn:E.
  - destruct (PyStr.isspace_char c) eqn:Ec; [reflexivity|].
    cbn [PyStr.rstrip]. now rewrite Ec.
  - cbn [PyStr.rstrip]. cbn [PyStr.rstrip] in IH. now rewrite IH.
Qed.

Lemma lstrip_head (s : string) :
  PyStr.lstrip s = EmptyString
  \/ exists c t, PyStr.lstrip s = String c t /\ PyStr.isspace_char c = false.
Proof.
  induction s as [|c s IH]; simpl; [now left|].
  destruct (PyStr.isspace_char c) eqn:E; [exact IH|]. right. eauto.
Qed.

(** Stripping twice is stripping once. *)
Lemma strip_idempotent (s : string) :
  PyStr.strip (PyStr.strip s) = PyStr.strip s.
Proof.
  unfold PyStr.strip.
  destruct (lstrip_head s) as [->|(c & t & -> & Hc)]; [reflexivity|].
  rewrite (rstrip_cons c t Hc). cbn [PyStr.lstrip]. rewrite Hc.
  rewrite <- (rstrip_cons c t Hc). apply rstrip_idempotent.
Qed.

Lemma split_on_chars (Q : ascii -> bool) (sep : ascii) (s : string) :
  PyStr.all_chars Q s = true ->
  Forall (fun x => PyStr.all_chars
                     (fun c => Q c && negb (c =? sep)%char) x = true)
         (split_on sep s).
Proof.
  induction s as [|c s IH]; cbn [split_on PyStr.all_chars].
  - intros _. now repeat constructor.
  - intros H. apply andb_true_iff in H as [Hc Hs]. specialize (IH Hs).
    destruct (c =? sep)%char eqn:E.
    + constructor; [reflexivity | exact IH].
    + destruct (split_on sep s) as [|p ps].
      * repeat constructor. cbn [PyStr.all_chars]. now rewrite Hc, E.
      * inversion IH as [|? ? Hp Hps]; subst. constructor; [|exact Hps].
        cbn [PyStr.all_chars]. now rewrite Hc, E, Hp.
Qed.

Lemma replace_commas_chars (s : string) :
  PyStr.all_chars (fun c => negb (c =? ",")%char) (replace_commas s) = true.
Proof.
  induction s as [|c s IH]; [reflexivity|].
  cbn [replace_commas PyStr.all_chars]. rewrite IH.
  destruct (c =? ",")%char eqn:E; [reflexivity|]. now rewrite E.
Qed.

(** X25: every theme [df_to_spike_events] reads from a text cell is
    clean: it is not empty, holds neither comma nor semicolon, and has
    no blank at either end. *)
Theorem parsed_themes_are_clean (text p : string) :
  In p (parse_main_themes (ThemesText text)) -> clean_theme p.
Proof.
  cbn [parse_main_themes]. rewrite filter_In, in_map_iff.
  intros [(x & <- & Hx) Hne]. split; [|split].
  - intros E. rewrite E in Hne. discriminate.
  - pose proof (split_on_chars _ ";" _ (replace_commas_chars text)) as H.
    rewrite Forall_forall in H. specialize (H x Hx).
    unfold PyStr.strip. apply rstrip_all_chars, lstrip_all_chars.
    eapply all_chars_impl; [|exact H].
    intros c Hc. apply andb_true_iff in Hc as [H1 H2]. now rewrite H1, H2.
  - apply strip_idempotent.
Qed.

Lemma parsed_themes_are_clean_witness : clean_theme "AIRSPACE_VIOLATION".
Proof.
  apply (parsed_themes_are_clean
           "CHINA_MILITARY; AIRSPACE_VIOLATION ,," "AIRSPACE_VIOLATION").
  vm_compute. auto.
Defined.

Lemma replace_commas_none (s : string) :
  PyStr.all_chars (fun c => negb (c =? ",")%char) s = true ->
  replace_commas s = s.
Proof.
  induction s as [|c s IH]; [reflexivity|].
  cbn [replace_commas PyStr.all_chars]. intros H.
  apply andb_true_iff in H as [Hc Hs]. rewrite (IH Hs).
  apply negb_true_iff in Hc. now rewrite Hc.
Qed.

Lemma split_on_head (sep : ascii) (p rest : string) :
  PyStr.all_chars (fun c => negb (c =? sep)%char) p = true ->
  split_on sep (p ++ String sep rest) = p :: split_on sep rest.
Proof.
  induction p as [|c p IH]; cbn [append split_on PyStr.all_chars].
  - intros _. now rewrite Ascii.eqb_refl.
  - intros H. apply andb_true_iff in H as [Hc Hp].
    apply negb_true_iff in Hc. rewrite Hc, (IH Hp). reflexivity.
Qed.

Lemma split_on_single (sep : ascii) (p : string) :
  PyStr.all_chars (fun c => negb (c =? sep)%char) p = true ->
  split_on sep p = [p].
Proof.
  induction p as [|c p IH]; cbn [split_on PyStr.all_chars]; [reflexivity|].
  intros H. apply andb_true_iff in H as [Hc Hp].
  apply negb_true_iff in Hc. now rewrite Hc, (IH Hp).
Qed.

Lemma all_chars_app (P : ascii -> bool) (s t : string) :
  PyStr.all_chars P (s ++ t)
  = PyStr.all_chars P s && PyStr.all_chars P t.
Proof.
  induction s as [|c s IH]; simpl; [reflexivity|].
  now rewrite IH, andb_assoc.
Qed.

Lemma split_joined (themes : list string) :
  themes <> [] ->
  Forall (fun p => PyStr.all_chars (fun c => negb (c =? ";")%char) p = true)
         themes ->
  split_on ";" (concat ";" themes) = themes.
Proof.
  induction themes as [|p ps IH]; [contradiction|]. intros _ H.
  inversion H as [|? ? Hp Hps]; subst.
  destruct ps as [|q qs].
  - cbn [concat]. now apply split_on_single.
  - change (concat ";" (p :: q :: qs))
      with (p ++ String ";" (concat ";" (q :: qs))).
    rewrite (split_on_head _ _ _ Hp). f_equal.
    apply IH; [discriminate | exact Hps].
Qed.

Lemma joined_no_comma (themes : list string) :
  Forall (fun p => PyStr.all_chars (fun c => negb (c =? ",")%char) p = true)
         themes ->
  PyStr.all_chars (fun c => negb (c =? ",")%char) (concat ";" themes) = true.
Proof.
  induction themes as [|p ps IH]; [reflexivity|]. intros H.
  inversion H as [|? ? Hp Hps]; subst.
  destruct ps as [|q qs]; [exact Hp|].
  change (concat ";" (p :: q :: qs))
    with (p ++ String ";" (concat ";" (q :: qs))).
  rewrite all_chars_app, Hp. cbn [PyStr.all_chars andb].
  now apply IH.
Qed.

(** X26: a list of clean themes written with semicolons between them
    is read back as the same list. *)
Theorem themes_round_trip (themes : list string) :
  Forall clean_theme themes ->
  parse_main_themes (ThemesText (concat ";" themes)) = themes.
Proof.
  intros H. cbn [parse_main_themes].
  assert (Forall (fun p => PyStr.all_chars
                             (fun c => negb (c =? ",")%char) p = true)
                 themes) as Hc.
  { eapply Forall_impl; [|exact H]. intros p (_ & Hp & _).
    eapply all_chars_impl; [|exact Hp].
    intros c Hcc. now apply andb_true_iff in Hcc as [_ ->]. }
  assert (Forall (fun p => PyStr.all_chars
                             (fun c => negb (c =? ";")%char) p = true)
                 themes) as Hs.
  { eapply Forall_impl; [|exact H]. intros p (_ & Hp & _).
    eapply all_chars_impl; [|exact Hp].
    intros c Hcc. now apply andb_true_iff in Hcc as [-> _]. }
  rewrite (replace_commas_none _ (joined_no_comma _ Hc)).
  destruct themes as [|p ps]; [reflexivity|].
  rewrite (split_joined (p :: ps)) by (discriminate || exact Hs).
  clear Hc Hs. induction H as [|x xs (Hne & _ & Hst) Hxs IH]; [reflexivity|].
  cbn [map filter]. rewrite Hst.
  destruct (x =? "")%string eqn:E.
  - apply String.eqb_eq in E. contradiction.
  - cbn [negb]. f_equal. exact IH.
Qed.

Lemma themes_round_trip_witness :
  parse_main_themes
    (ThemesText (concat ";" ["CHINA_MILITARY"; "AIRSPACE_VIOLATION"]))
  = ["CHINA_MILITARY"; "AIRSPACE_VIOLATION"].
Proof.
  apply (themes_round_trip ["CHINA_MILITARY"; "AIRSPACE_VIOLATION"]).
  repeat constructor; discriminate.
Defined.

Example themes_with_commas_and_blanks :
  parse_main_themes (ThemesText " OIL_SUPPLY , PIPELINE_ATTACK;; ")
  = ["OIL_SUPPLY"; "PIPELINE_ATTACK"].
Proof. reflexivity. Qed.
